(** * Spark-Ai: the generation orchestration layer

    A shallow embedding of [services/geminiService.ts] (tool dispatch,
    prompt synthesis, the two-stage image pipeline, failure
    classification), of the [CompleteConsistencyAI] class (the four-slot
    consistency memory) and of the part of [App.tsx] that consumes a
    dispatch result.

    Conventions.
    - A JavaScript string is the [string] of the bytes of its UTF-8
      encoding.  White space, for [\s] and for [trim], is the set of
      ECMAScript: the six ASCII characters and the nineteen characters
      beyond ASCII, recognised by their encodings.  The class [\w] and
      the assertion [\b] are ASCII by definition; letter case is mapped
      on the ASCII range, which is where every keyword of the source
      lives, and the line terminators that the dot of a regular
      expression refuses are the two of ASCII.
    - A value that may be [undefined] is an [option].
    - An [async] function is a computation in the monad [Async]: it
      threads the log of the calls made to the model backend and either
      returns a value or throws a [JsError].
    - [console.warn] and [console.error] are not modelled. *)

From Stdlib Require Import String Ascii List Bool Arith Lia.
From stdpp Require Import base option list strings gmap.
Import ListNotations.

Open Scope string_scope.
Open Scope list_scope.
Open Scope nat_scope.

(** ** JavaScript string primitives *)

Module Js.

Definition dquote : string := String (ascii_of_nat 34) EmptyString.

Definition lowerChar (c : ascii) : ascii :=
  let n := nat_of_ascii c in
  if (65 <=? n) && (n <=? 90) then ascii_of_nat (n + 32) else c.

Definition upperChar (c : ascii) : ascii :=
  let n := nat_of_ascii c in
  if (97 <=? n) && (n <=? 122) then ascii_of_nat (n - 32) else c.

Fixpoint mapChars (f : ascii -> ascii) (s : string) : string :=
  match s with
  | EmptyString => EmptyString
  | String c s' => String (f c) (mapChars f s')
  end.

(** [String.prototype.toLowerCase] and [toUpperCase]. *)
Definition toLowerCase : string -> string := mapChars lowerChar.
Definition toUpperCase : string -> string := mapChars upperChar.

(** [s.startsWith(p)]. *)
Fixpoint startsWith (p s : string) : bool :=
  match p, s with
  | EmptyString, _ => true
  | String _ _, EmptyString => false
  | String a p', String b s' => if Ascii.eqb a b then startsWith p' s' else false
  end.

(** [s.includes(needle)]. *)
Fixpoint includes (s needle : string) : bool :=
  startsWith needle s ||
  match s with
  | EmptyString => false
  | String _ s' => includes s' needle
  end.

(** The class [\w] of a regular expression. *)
Definition isWordChar (c : ascii) : bool :=
  let n := nat_of_ascii c in
  ((48 <=? n) && (n <=? 57)) || ((65 <=? n) && (n <=? 90)) ||
  ((97 <=? n) && (n <=? 122)) || (n =? 95).

(** The string of the given bytes. *)
Definition bytes (codes : list nat) : string :=
  string_of_list_ascii (map ascii_of_nat codes).

(** The class [\s] of a regular expression, also the characters
    removed by [trim]: the white space and the line terminators of
    ECMAScript, each by its UTF-8 encoding.  In order: U+0009 to
    U+000D, U+0020, U+00A0, U+1680, U+2000 to U+200A, U+2028, U+2029,
    U+202F, U+205F, U+3000 and U+FEFF. *)
Definition whiteSpace : list string :=
  map bytes
    [ [9]; [10]; [11]; [12]; [13]; [32];
      [194; 160];
      [225; 154; 128];
      [226; 128; 128]; [226; 128; 129]; [226; 128; 130]; [226; 128; 131];
      [226; 128; 132]; [226; 128; 133]; [226; 128; 134]; [226; 128; 135];
      [226; 128; 136]; [226; 128; 137]; [226; 128; 138];
      [226; 128; 168]; [226; 128; 169];
      [226; 128; 175];
      [226; 129; 159];
      [227; 128; 128];
      [239; 187; 191] ].

(** The number of bytes of the white space character at the head of
    [s]; [0] when [s] does not start with one. *)
Definition spaceWidth (s : string) : nat :=
  match List.find (fun w => startsWith w s) whiteSpace with
  | Some w => String.length w
  | None => 0
  end.

Definition isWordOpt (c : option ascii) : bool :=
  match c with Some x => isWordChar x | None => false end.

(** The assertion [\b] between two neighbouring positions; [None] is
    the start or the end of the input. *)
Definition wordBoundary (before after : option ascii) : bool :=
  xorb (isWordOpt before) (isWordOpt after).

Definition headChar (s : string) : option ascii :=
  match s with EmptyString => None | String c _ => Some c end.

(** Matching the characters of [term] at the head of [s] without
    regard to case; on success, the last character consumed and the
    rest of the input. *)
Fixpoint matchTermCI (term s : string) (last : option ascii)
  : option (option ascii * string) :=
  match term with
  | EmptyString => Some (last, s)
  | String a term' =>
      match s with
      | EmptyString => None
      | String b s' =>
          if Ascii.eqb (lowerChar a) (lowerChar b)
          then matchTermCI term' s' (Some b) else None
      end
  end.

(** Does [/\bterm\b/i] match at the head of [s], [prev] being the
    character before it? *)
Definition wordMatchAt (term : string) (prev : option ascii) (s : string) : bool :=
  match term with
  | EmptyString => false
  | String _ _ =>
      match matchTermCI term s prev with
      | Some (lastc, rest) =>
          wordBoundary prev (headChar s) && wordBoundary lastc (headChar rest)
      | None => false
      end
  end.

(** [s.replace(new RegExp(`\\b${term}\\b`, 'gi'), '')]: a left to
    right scan; [skip] counts the characters of a match still to drop. *)
Fixpoint removeWordGo (term : string) (prev : option ascii) (skip : nat)
    (s : string) : string :=
  match s with
  | EmptyString => EmptyString
  | String c s' =>
      match skip with
      | S k => removeWordGo term (Some c) k s'
      | O =>
          if wordMatchAt term prev s
          then removeWordGo term (Some c) (String.length term - 1) s'
          else String c (removeWordGo term (Some c) 0 s')
      end
  end.

Definition removeWord (term s : string) : string :=
  removeWordGo term None 0 s.

(** [s.replace(/\s+/g, ' ')]: a left to right scan; [inRun] tells
    that the character before was white space, [skip] counts the bytes
    of a white space character still to drop. *)
Fixpoint collapseSpacesGo (inRun : bool) (skip : nat) (s : string) : string :=
  match s with
  | EmptyString => EmptyString
  | String c s' =>
      match skip with
      | S k => collapseSpacesGo inRun k s'
      | O =>
          match spaceWidth s with
          | S w =>
              if inRun then collapseSpacesGo true w s'
              else String " "%char (collapseSpacesGo true w s')
          | O => String c (collapseSpacesGo false 0 s')
          end
      end
  end.

Definition collapseSpaces : string -> string := collapseSpacesGo false 0.

(** Dropping the white space at the start. *)
Fixpoint trimStartGo (skip : nat) (s : string) : string :=
  match s with
  | EmptyString => EmptyString
  | String c s' =>
      match skip with
      | S k => trimStartGo k s'
      | O =>
          match spaceWidth s with
          | S w => trimStartGo w s'
          | O => s
          end
      end
  end.

Definition trimStart : string -> string := trimStartGo 0.

(** Is [s] white space from start to end? *)
Fixpoint allSpaceGo (skip : nat) (s : string) : bool :=
  match s with
  | EmptyString => true
  | String c s' =>
      match skip with
      | S k => allSpaceGo k s'
      | O =>
          match spaceWidth s with
          | S w => allSpaceGo w s'
          | O => false
          end
      end
  end.

Definition allSpace : string -> bool := allSpaceGo 0.

(** Dropping the white space at the end: the input is cut where
    nothing but white space follows. *)
Fixpoint trimEnd (s : string) : string :=
  match s with
  | EmptyString => EmptyString
  | String c s' => if allSpace s then EmptyString else String c (trimEnd s')
  end.

(** [s.trim()]. *)
Definition trim (s : string) : string := trimEnd (trimStart s).

(** Truthiness of a string that may be [undefined]: [x || fallback]. *)
Definition orElse (x : option string) (fallback : string) : string :=
  match x with
  | Some (String c s) => String c s
  | _ => fallback
  end.

Definition truthy (x : option string) : bool :=
  match x with
  | Some (String _ _) => true
  | _ => false
  end.

(** A value interpolated into a template literal. *)
Definition interpolate (x : option string) : string :=
  match x with
  | Some s => s
  | None => "undefined"
  end.

(** [xs.find(p) || fallback] over a list of keywords. *)
Definition findOr (p : string -> bool) (xs : list string) (fallback : string) : string :=
  orElse (List.find p xs) fallback.

End Js.

(** ** Consistency memory: the class [CompleteConsistencyAI] *)

Module Consistency.

(** The union type ['face' | 'dress' | 'background' | 'environment']. *)
Inductive Element : Type := face | dress | background | environment.

(** The four private fields; [null] is [None]. *)
Record CompleteConsistencyAI : Type := mkAI {
  faceMemory : option string;
  dressMemory : option string;
  backgroundMemory : option string;
  environmentMemory : option string
}.

(** The state of a freshly constructed object. *)
Definition new : CompleteConsistencyAI := mkAI None None None None.

Definition setFaceReference (base64 : string) (this : CompleteConsistencyAI) :=
  mkAI (Some base64) (dressMemory this) (backgroundMemory this) (environmentMemory this).

Definition setDressReference (base64 : string) (this : CompleteConsistencyAI) :=
  mkAI (faceMemory this) (Some base64) (backgroundMemory this) (environmentMemory this).

Definition setBackgroundReference (base64 : string) (this : CompleteConsistencyAI) :=
  mkAI (faceMemory this) (dressMemory this) (Some base64) (environmentMemory this).

Definition setEnvironmentReference (base64 : string) (this : CompleteConsistencyAI) :=
  mkAI (faceMemory this) (dressMemory this) (backgroundMemory this) (Some base64).

(** The object literal returned by [getMemories]. *)
Record Memories : Type := mkMemories {
  mem_face : option string;
  mem_dress : option string;
  mem_background : option string;
  mem_environment : option string
}.

Definition getMemories (this : CompleteConsistencyAI) : Memories :=
  mkMemories (faceMemory this) (dressMemory this)
             (backgroundMemory this) (environmentMemory this).

Definition clearMemory (element : Element) (this : CompleteConsistencyAI) :=
  match element with
  | face => mkAI None (dressMemory this) (backgroundMemory this) (environmentMemory this)
  | dress => mkAI (faceMemory this) None (backgroundMemory this) (environmentMemory this)
  | background => mkAI (faceMemory this) (dressMemory this) None (environmentMemory this)
  | environment => mkAI (faceMemory this) (dressMemory this) (backgroundMemory this) None
  end.

Definition clearAllMemories (this : CompleteConsistencyAI) : CompleteConsistencyAI :=
  mkAI None None None None.

(** The setter the interface selects for an attribute (the [switch] of
    [handleReferenceUpload]). *)
Definition setReference (element : Element) : string -> CompleteConsistencyAI -> CompleteConsistencyAI :=
  match element with
  | face => setFaceReference
  | dress => setDressReference
  | background => setBackgroundReference
  | environment => setEnvironmentReference
  end.

(** Reading one attribute of the snapshot: [getMemories()[element]]. *)
Definition get (element : Element) (this : CompleteConsistencyAI) : option string :=
  let m := getMemories this in
  match element with
  | face => mem_face m
  | dress => mem_dress m
  | background => mem_background m
  | environment => mem_environment m
  end.

End Consistency.

(** ** Prompt synthesis *)

Module Prompt.

Import Js.

(** The orientation and ratio keywords removed from a raw prompt. *)
Definition terms : list string :=
  ["landscape"; "portrait"; "square"; "1:1"; "16:9"; "9:16"; "3:4"; "4:3";
   "horizontal"; "vertical"; "wide"; "tall"; "panoramic"].

(** [terms.forEach] rewrites [cleaned] once per keyword, in order. *)
Definition cleanPromptForResize (prompt : string) : string :=
  match prompt with
  | EmptyString => EmptyString
  | _ =>
      let cleaned := fold_left (fun cleaned term => removeWord term cleaned) terms prompt in
      trim (collapseSpaces cleaned)
  end.

Definition subjects : list string :=
  ["lion"; "person"; "animal"; "character"; "figure"; "man"; "woman"; "robot";
   "cat"; "dog"; "boy"; "girl"].

Definition environments : list string :=
  ["desert"; "forest"; "beach"; "city"; "room"; "landscape"; "mountain";
   "space"; "office"; "studio"].

Definition styles : list string :=
  ["cinematic"; "realistic"; "cartoon"; "painting"; "digital art"; "anime";
   "photorealistic"; "sketch"].

Definition detectSubject (promptLower : string) : string :=
  findOr (includes promptLower) subjects "subject".

Definition detectEnvironment (promptLower : string) : string :=
  findOr (includes promptLower) environments "environment".

Definition detectStyle (promptLower : string) : string :=
  findOr (includes promptLower) styles "realistic".

(** The two variables assigned by the [switch] on the target ratio. *)
Definition sizeInstructionsFor (targetRatio : string) : string :=
  if String.eqb targetRatio "1:1" then "1080x1080 pixels"
  else if String.eqb targetRatio "9:16" then "1080x1920 pixels"
  else if String.eqb targetRatio "16:9" then "1920x1080 pixels"
  else if String.eqb targetRatio "3:4" then "1080x1440 pixels"
  else if String.eqb targetRatio "4:3" then "1440x1080 pixels"
  else "the requested aspect ratio".

Definition squareComposition (mainSubject : string) : string :=
  "
            SQUARE COMPOSITION (1:1):
            - Center the " +:+
  mainSubject +:+
  " perfectly
            - Balanced framing from all sides
            - Maintain equal spacing around subject
            - Perfect for social media posts".

(** The guidance block of the case for 9:16. *)
Definition verticalPortrait (mainSubject : string) : string :=
  "
            VERTICAL PORTRAIT (9:16):
            - Full-body or 3/4 view of " +:+
  mainSubject +:+
  "
            - Tall, portrait-oriented framing
            - More vertical space above and below
            - Ideal for mobile stories and reels
            - DO NOT put the image inside a phone screen".

Definition wideLandscape (environment : string) : string :=
  "
            WIDE LANDSCAPE (16:9):
            - Panoramic horizontal composition
            - Show more of the " +:+
  environment +:+
  " background
            - Wider field of view
            - Perfect for banners and covers".

Definition verticalPortrait34 : string :=
  "
             VERTICAL PORTRAIT (3:4):
             - Classic portrait composition
             - Balanced vertical framing
             - Ideal for classic photography".

Definition classicLandscape : string :=
  "
             CLASSIC LANDSCAPE (4:3):
             - Traditional photography composition
             - Balanced horizontal framing".

Definition ratioInstructionsFor (mainSubject environment targetRatio : string) : string :=
  if String.eqb targetRatio "1:1" then squareComposition mainSubject
  else if String.eqb targetRatio "9:16" then verticalPortrait mainSubject
  else if String.eqb targetRatio "16:9" then wideLandscape environment
  else if String.eqb targetRatio "3:4" then verticalPortrait34
  else if String.eqb targetRatio "4:3" then classicLandscape
  else "Adapt composition for " +:+
  targetRatio +:+
  " aspect ratio".

Definition consistencyCommandsFor (mainSubject environment style targetRatio : string) : string :=
  "
    CRITICAL CONSISTENCY COMMANDS:
    - IDENTICAL " +:+
  Js.toUpperCase mainSubject +:+
  " APPEARANCE: Same face, body, features, colors
    - EXACT SAME CLOTHING/STYLE: No changes to attire or accessories
    - IDENTICAL BACKGROUND: Same " +:+
  environment +:+
  ", objects, lighting
    - SAME ART STYLE: " +:+
  style +:+
  " style, quality, and details
    - SAME LIGHTING: Identical light source, shadows, atmosphere
    - PRESERVE ALL DETAILS: No alterations to character identity
    
    STRICT PROHIBITIONS:
    - DO NOT change facial features
    - DO NOT modify clothing or colors
    - DO NOT alter background elements
    - DO NOT change art style or quality
    - DO NOT modify lighting conditions
    - ABSOLUTELY NO FRAMES, NO BORDERS, NO BEZELS.
    - DO NOT SHOW THE IMAGE ON A PHONE SCREEN OR DEVICE.
    - The image must be FULL BLEED (extending to edges).
    
    ONLY ADJUST: Composition and framing for " +:+
  targetRatio +:+
  " aspect ratio".

Definition createAdvancedResizePrompt (originalPrompt targetRatio : string) : string :=
  let promptLower := toLowerCase originalPrompt in
  let mainSubject := detectSubject promptLower in
  let environment := detectEnvironment promptLower in
  let style := detectStyle promptLower in
  let sizeInstructions := sizeInstructionsFor targetRatio in
  let ratioInstructions := ratioInstructionsFor mainSubject environment targetRatio in
  let consistencyCommands := consistencyCommandsFor mainSubject environment style targetRatio in
  "
    RESIZE TRANSFORMATION COMMAND:
    
    ORIGINAL SCENE: " +:+
  originalPrompt +:+
  "
    
    TARGET FORMAT: " +:+
  targetRatio +:+
  " aspect ratio (" +:+
  sizeInstructions +:+
  ")
    
    " +:+
  ratioInstructions +:+
  "
    
    " +:+
  consistencyCommands +:+
  "
    
    OUTPUT: Generate the EXACT same scene and character, only recomposed for " +:+
  targetRatio +:+
  " aspect ratio.
    Maintain pixel-perfect consistency of all visual elements. Do not include any text, watermarks, signatures, letters, or words in the image.
    
    CRITICAL: The output must be a raw, frameless image. Do not render a phone, tablet, or photo frame containing the image. The image content must fill the entire canvas edge-toedge."
.

End Prompt.

(** ** The model backend: requests, responses and errors *)

Module GenAI.

(** An image as the service passes it around:
    [{ data: string; mimeType: string }]. *)
Record Image : Type := mkImage {
  data : string;
  mimeType : string
}.

(** A [Part] of the SDK: a text part, an inline-data part, or a part of
    another kind (function call, file reference, ...). *)
Inductive Part : Type :=
| TextPart (text : string)
| InlineDataPart (inlineData : Image)
| OtherPart.

Record Content : Type := mkContent {
  role : option string;
  parts : list Part
}.

(** One entry of [result.functionCalls]; both fields are optional in
    the SDK.  Argument values are strings, as every declared parameter
    is. *)
Record FunctionCall : Type := mkFunctionCall {
  fc_name : option string;
  fc_args : option (gmap string string)
}.

Record Web : Type := mkWeb { uri : string; title : string }.
Record GroundingChunk : Type := mkChunk { chunk_web : option Web }.
Record GroundingSource : Type := mkSource { web : Web }.

(** What the service reads from a [generateContent] response:
    - [response_text]: the getter [response.text];
    - [candidateParts]: [response.candidates?.[0]?.content?.parts || []];
    - [functionCalls]: the getter [response.functionCalls];
    - [groundingChunks]:
      [response.candidates?.[0]?.groundingMetadata?.groundingChunks]. *)
Record GenerateContentResponse : Type := mkResponse {
  response_text : option string;
  candidateParts : list Part;
  functionCalls : option (list FunctionCall);
  groundingChunks : option (list GroundingChunk)
}.

(** [response.generatedImages?.[0]?.image?.imageBytes]. *)
Record GenerateImagesResponse : Type := mkImagesResponse {
  imageBytes : option string
}.

Inductive Modality : Type := IMAGE | AUDIO | TEXT.

Record FunctionDeclaration : Type := mkDecl {
  fd_name : string;
  fd_description : string;
  fd_properties : list (string * string);
  fd_required : list string
}.

Inductive Tool : Type :=
| GoogleSearch
| FunctionDeclarations (decls : list FunctionDeclaration).

Record GenerateContentConfig : Type := mkConfig {
  systemInstruction : option string;
  tools : list Tool;
  responseModalities : list Modality;
  thinkingBudget : option N
}.

Record GenerateContentParameters : Type := mkParams {
  model : string;
  contents : list Content;
  config : GenerateContentConfig
}.

Record GenerateImagesParameters : Type := mkImagesParams {
  images_model : string;
  images_prompt : string;
  numberOfImages : nat;
  outputMimeType : string;
  aspectRatio : string
}.

(** What [JSON.stringify(error)] does: it throws, it returns
    [undefined], or it returns a string. *)
Inductive Stringified : Type :=
| StringifyThrows
| StringifyUndefined
| StringifyTo (str : string).

(** A thrown value, as far as the service looks at it: its [message]
    property and its JSON rendering.  A thrown value is an object:
    every [throw] of the service raises an [Error], and the SDK rejects
    with instances of [Error]. *)
Record JsError : Type := mkJsError {
  message : option string;
  stringify : Stringified
}.

(** [new Error(msg)]: the message is not enumerable, so the JSON
    rendering is the empty object. *)
Definition Error (msg : string) : JsError :=
  mkJsError (Some msg) (StringifyTo "{}").

(** The [TypeError] raised by reading property [key] of [undefined]. *)
Definition TypeErrorReading (key : string) : JsError :=
  Error ("Cannot read properties of undefined (reading '" +:+ key +:+ "')").

Inductive Outcome (A : Type) : Type :=
| Returned (a : A)
| Thrown (e : JsError).
Arguments Returned {A} a.
Arguments Thrown {A} e.

(** The calls the service makes on [ai.models]. *)
Inductive Call : Type :=
| CallGenerateContent (request : GenerateContentParameters)
| CallGenerateImages (request : GenerateImagesParameters).

(** The backend answers each request, possibly depending on everything
    it was asked before. *)
Record Backend : Type := mkBackend {
  generateContent : list Call -> GenerateContentParameters -> Outcome GenerateContentResponse;
  generateImages : list Call -> GenerateImagesParameters -> Outcome GenerateImagesResponse
}.

(** *** Asynchronous computations *)

Definition Async (A : Type) : Type := list Call -> Outcome A * list Call.

Definition ret {A} (a : A) : Async A := fun log => (Returned a, log).

Definition throw {A} (e : JsError) : Async A := fun log => (Thrown e, log).

Definition bind {A B} (c : Async A) (k : A -> Async B) : Async B :=
  fun log =>
    match c log with
    | (Returned a, log') => k a log'
    | (Thrown e, log') => (Thrown e, log')
    end.

(** [try { body } catch (e) { handler e }]. *)
Definition tryCatch {A} (body : Async A) (handler : JsError -> Async A) : Async A :=
  fun log =>
    match body log with
    | (Returned a, log') => (Returned a, log')
    | (Thrown e, log') => handler e log'
    end.

Definition awaitGenerateContent (ai : Backend) (request : GenerateContentParameters)
  : Async GenerateContentResponse :=
  fun log => (generateContent ai log request, log ++ [CallGenerateContent request]).

Definition awaitGenerateImages (ai : Backend) (request : GenerateImagesParameters)
  : Async GenerateImagesResponse :=
  fun log => (generateImages ai log request, log ++ [CallGenerateImages request]).

End GenAI.

Declare Scope async_scope.
Delimit Scope async_scope with async.
Notation "'let*' x ':=' c 'in' k" := (GenAI.bind c (fun x => k))
  (at level 10, x name, c at level 100, k at level 200) : async_scope.

(** ** The service module [geminiService.ts] *)

Module Service.

Import Js Prompt GenAI.
Open Scope async_scope.

(** The last inline-data part of a list, scanning from its end. *)
Definition inlineDataOf (part : Part) : option Image :=
  match part with
  | InlineDataPart img => Some img
  | _ => None
  end.

Fixpoint firstSome {A B} (f : A -> option B) (l : list A) : option B :=
  match l with
  | [] => None
  | x :: l' => match f x with Some y => Some y | None => firstSome f l' end
  end.

(** Both loops run from the last index down to 0 and return at the
    first inline-data part met. [currentImages] is an optional
    parameter. *)
Definition findLastImage (history : list Content) (currentImages : option (list Image))
  : option Image :=
  match currentImages with
  | Some (img :: imgs) => last (img :: imgs)
  | _ => firstSome (fun content => firstSome inlineDataOf (rev (parts content))) (rev history)
  end.

Definition mentionsQuota (msg : string) : bool :=
  includes msg "429" || includes msg "RESOURCE_EXHAUSTED" || includes msg "quota".

(** [isQuotaError]: when [JSON.stringify] throws the result is [false];
    when it returns [undefined] the tests on [msg] short-circuit the
    failing [str.includes]. *)
Definition isQuotaError (error : JsError) : bool :=
  let msg := orElse (message error) EmptyString in
  match stringify error with
  | StringifyThrows => false
  | StringifyUndefined => mentionsQuota msg
  | StringifyTo str =>
      mentionsQuota msg || includes str "429" || includes str "RESOURCE_EXHAUSTED"
  end.

(** The [for] loop over the response parts that builds [b64Image] and
    breaks at the first inline-data part. *)
Fixpoint firstInlineDataUri (ps : list Part) : option string :=
  match ps with
  | [] => None
  | InlineDataPart img :: _ =>
      Some ("data:" +:+ mimeType img +:+ ";base64," +:+ data img)
  | _ :: rest => firstInlineDataUri rest
  end.

(** Results of the tool implementations. *)
Record ImageResult : Type := mkImageResult { image : string }.

Record ImageTextPrompt : Type := mkImageTextPrompt {
  itp_image : string;
  itp_text : string;
  itp_prompt : option string
}.

Record ImageText : Type := mkImageText { it_image : string; it_text : string }.

Record TextSources : Type := mkTextSources {
  ts_text : string;
  ts_sources : option (list GroundingSource)
}.

Record TextResult : Type := mkTextResult { tr_text : string }.

Definition imagenRequest (fullPrompt aspectRatio : string) : GenerateImagesParameters :=
  {| images_model := "imagen-4.0-generate-001";
     images_prompt := fullPrompt;
     numberOfImages := 1;
     outputMimeType := "image/png";
     aspectRatio := aspectRatio |}.

(** The request shape shared by every call to the image model:
    [contents: { parts }] and [responseModalities: [Modality.IMAGE]]. *)
Definition flashImageRequest (ps : list Part) : GenerateContentParameters :=
  {| model := "gemini-2.5-flash-image";
     contents := [mkContent None ps];
     config := {| systemInstruction := None; tools := [];
                  responseModalities := [IMAGE]; thinkingBudget := None |} |}.

Section WithBackend.

Variable ai : Backend.

(** The prompt is synthesized once, before the first attempt; a [try]
    block yields [Some r] when it executes [return r] and [None] when
    control falls out of it. *)
Definition executeGenerateImage (prompt aspectRatio : string) : Async ImageResult :=
  let cleanedPrompt := cleanPromptForResize prompt in
  let fullPrompt := createAdvancedResizePrompt cleanedPrompt aspectRatio in
  let* attempt1 :=
    tryCatch
      (let* response := awaitGenerateImages ai (imagenRequest fullPrompt aspectRatio) in
       match imageBytes response with
       | Some (String c s) =>
           ret (Some (mkImageResult ("data:image/png;base64," +:+ String c s)))
       | _ => ret None
       end)
      (fun error => ret None) in
  match attempt1 with
  | Some r => ret r
  | None =>
      let* attempt2 :=
        tryCatch
          (let* response := awaitGenerateContent ai (flashImageRequest [TextPart fullPrompt]) in
           match firstInlineDataUri (candidateParts response) with
           | Some (String c s) => ret (Some (mkImageResult (String c s)))
           | _ => ret None
           end)
          (fun fallbackError =>
             if isQuotaError fallbackError
             then throw (Error "Image generation quota exceeded. Please try again later.")
             else throw (Error "Failed to generate image. Please try again.")) in
      match attempt2 with
      | Some r => ret r
      | None => throw (Error "No image was generated.")
      end
  end.

Definition editPrompt (prompt : option string) : string :=
  "You are an expert photo editor. Your most important and primary goal is to perfectly preserve the facial features, likeness, and identity of the person in the original image. This is a strict requirement. Now, edit the image based on the user's instructions below. When changing the background, clothes, or pose, you MUST apply these changes to the original person without altering their face. User edit instructions: " +:+
  dquote +:+
  interpolate prompt +:+
  dquote +:+
  ". IMPORTANT: Do not add any frames, borders, or text to the image.".

Definition executeEditImage (prompt : option string) (image : Image) : Async ImageTextPrompt :=
  tryCatch
    (let fullPrompt := editPrompt prompt in
     let imagePart := InlineDataPart (mkImage (data image) (mimeType image)) in
     let textPart := TextPart fullPrompt in
     let* response := awaitGenerateContent ai (flashImageRequest [imagePart; textPart]) in
     let textResponse := response_text response in
     match firstInlineDataUri (candidateParts response) with
     | Some (String c s) =>
         ret (mkImageTextPrompt (String c s)
                (orElse textResponse "Here is your edited image.") prompt)
     | _ =>
         ret (mkImageTextPrompt EmptyString
                (orElse textResponse
                   "I was unable to edit the image as requested. Please try a different prompt.")
                prompt)
     end)
    (fun error =>
       if isQuotaError error
       then throw (Error "Usage limit exceeded for image editing. Please try again later.")
       else throw (Error "Failed to edit image.")).

Definition referencePrompt (prompt : option string) : string :=
  "
    Use the attached face reference.
    Keep the face identical. Do not alter facial features.
    " +:+
  interpolate prompt +:+
  "
    
    STRICT RULES AND GUIDELINES:
    - Use the reference face images exactly. Do NOT alter the identity.
    - Keep the face exactly the same. Do not change eyes, lips, nose, skin tone, or hair.
    - Only modify body, pose, and environment.
    - Apply the requested body/outfit ONLY.
    - Ensure high photorealism and natural blending.
    - OUTPUT FORMAT: Full-bleed image. NO Borders, NO Frames, NO Device Mockups.
    ".

Definition generateFromReference (prompt : option string) (images : list Image)
  : Async ImageTextPrompt :=
  match images with
  | [] => throw (Error "No reference images provided.")
  | _ :: _ =>
      let fullPrompt := referencePrompt prompt in
      let imageParts := map (fun img => InlineDataPart (mkImage (data img) (mimeType img))) images in
      let textPart := TextPart fullPrompt in
      let allParts := imageParts ++ [textPart] in
      tryCatch
        (let* response := awaitGenerateContent ai (flashImageRequest allParts) in
         let textResponse := response_text response in
         match firstInlineDataUri (candidateParts response) with
         | Some (String c s) =>
             ret (mkImageTextPrompt (String c s)
                    (orElse textResponse
                       "Here is your generated image with face consistency preserved.")
                    prompt)
         | _ =>
             ret (mkImageTextPrompt EmptyString
                    (orElse textResponse
                       "I was unable to generate the image from the reference.")
                    prompt)
         end)
        (fun error =>
           if isQuotaError error
           then throw (Error "Usage limit exceeded. Please try again later.")
           else throw (Error "Failed to generate image from reference."))
  end.

(** [chunks?.map(chunk => chunk.web).filter(web => !!web).map(web => ({ web }))]. *)
Definition sourcesOf (chunks : option (list GroundingChunk)) : option (list GroundingSource) :=
  match chunks with
  | None => None
  | Some cs => Some (map mkSource (omap chunk_web cs))
  end.

Definition executeSearch (query : string) : Async TextSources :=
  tryCatch
    (let* result :=
       awaitGenerateContent ai
         {| model := "gemini-2.5-flash";
            contents := [mkContent (Some "user") [TextPart query]];
            config := {| systemInstruction := None; tools := [GoogleSearch];
                         responseModalities := []; thinkingBudget := None |} |} in
     let sources := sourcesOf (groundingChunks result) in
     ret (mkTextSources (orElse (response_text result) EmptyString) sources))
    (fun error => throw (Error "Failed to get information from Google Search.")).

Definition executeComplexQuery (query : string) : Async TextResult :=
  tryCatch
    (let* result :=
       awaitGenerateContent ai
         {| model := "gemini-2.5-pro";
            contents := [mkContent (Some "user") [TextPart query]];
            config := {| systemInstruction := None; tools := [];
                         responseModalities := []; thinkingBudget := Some 32768%N |} |} in
     ret (mkTextResult (orElse (response_text result) EmptyString)))
    (fun error => throw (Error "Failed to process the complex query.")).

(** The [switch] of [resizeImage]: the pair of [ratioDescription] and
    [sizeInstructions]. *)
Definition resizeSwitch (aspectRatio : option string) : string * string :=
  match aspectRatio with
  | Some r =>
      if String.eqb r "1:1" then ("SQUARE (1:1)", "1080x1080 pixels")
      else if String.eqb r "9:16" then ("TALL PORTRAIT (9:16)", "1080x1920 pixels")
      else if String.eqb r "16:9" then ("WIDE LANDSCAPE (16:9)", "1920x1080 pixels")
      else if String.eqb r "3:4" then ("PORTRAIT (3:4)", "1080x1440 pixels")
      else if String.eqb r "4:3" then ("LANDSCAPE (4:3)", "1440x1080 pixels")
      else (r, "the requested aspect ratio")
  | None => (interpolate aspectRatio, "the requested aspect ratio")
  end.

Definition resizePrompt (aspectRatio : option string) (ratioDescription sizeInstructions : string)
  : string :=
  "
    CRITICAL TASK: CREATE A NEW IMAGE based on the attached reference.
    
    TARGET ASPECT RATIO: " +:+
  interpolate aspectRatio +:+
  " (" +:+
  ratioDescription +:+
  ")
    
    INSTRUCTIONS:
    1. IGNORE the aspect ratio of the attached reference image.
    2. GENERATE a new image canvas with dimensions approx " +:+
  sizeInstructions +:+
  ".
    3. RECOMPOSE the scene to fit this new shape perfectly.
       - If " +:+
  interpolate aspectRatio +:+
  " is wider than original: OUTPAINT / EXTEND background horizontally.
       - If " +:+
  interpolate aspectRatio +:+
  " is taller than original: EXTEND background vertically.
    4. CONSISTENCY IS KEY:
       - Subject (Face, Body, Dress) MUST match the reference EXACTLY.
       - Environment/Lighting MUST match the reference.
    
    OUTPUT:
    - A single, high-quality image.
    - FULL BLEED (No borders, no frames, no black bars).
    - The image MUST fill the " +:+
  interpolate aspectRatio +:+
  " frame completely.
    ".

(** [sceneDescription] is computed and then left out of the prompt, as
    in the source. *)
Definition resizeImage (image : Image) (aspectRatio originalPrompt : option string)
  : Async ImageText :=
  let ratioDescription := fst (resizeSwitch aspectRatio) in
  let sizeInstructions := snd (resizeSwitch aspectRatio) in
  let sceneDescription :=
    match originalPrompt with
    | Some (String c s) =>
      let p := String c s in
      "SCENE DESCRIPTION: " +:+
      dquote +:+
      p +:+
      dquote
    | _ => "SCENE: The provided image."
    end in
  let prompt := resizePrompt aspectRatio ratioDescription sizeInstructions in
  tryCatch
    (let imagePart := InlineDataPart (mkImage (data image) (mimeType image)) in
     let textPart := TextPart prompt in
     let* response := awaitGenerateContent ai (flashImageRequest [imagePart; textPart]) in
     let textResponse := response_text response in
     match firstInlineDataUri (candidateParts response) with
     | Some (String c s) =>
         ret (mkImageText (String c s)
                ("Here is your image, resized to " +:+
  interpolate aspectRatio +:+
  "."))
     | _ => throw (Error (orElse textResponse "The model failed to resize the image."))
     end)
    (fun error =>
       if isQuotaError error
       then throw (Error "Usage limit exceeded. Please try again later.")
       else throw error).

Definition executePendingImageGeneration (prompt aspectRatio : string) : Async ImageTextPrompt :=
  let* result := executeGenerateImage prompt aspectRatio in
  ret (mkImageTextPrompt (image result)
         "Here is the image I generated for you with your selected aspect ratio."
         (Some prompt)).

End WithBackend.

End Service.

(** ** The chat dispatcher [sendMessage] *)

Module Dispatch.

Import Js Prompt GenAI Service.
Open Scope async_scope.

Definition systemInstructionText : string :=
  "You are a Face Consistency AI.
When the user uploads face photos, store them in memory for this conversation.
For every image generation request, always use ALL the uploaded reference face images.
Never change the face shape, skin tone, eyes, nose, lips, hairstyle, or identity.
Always apply the same face identity with high accuracy.

Rules:
1. Use all uploaded reference images in the prompt.
2. If no images are uploaded, ask for 2–5 face photos with front and side angles.
3. If user requests a new outfit, pose, or scene, keep the face exactly the same.
4. If user says " +:+
  dquote +:+
  "change face" +:+
  dquote +:+
  ", use the 'resetFaceMemory' tool and ask for new face images.
5. Never lose the previously uploaded face images unless user says " +:+
  dquote +:+
  "reset face" +:+
  dquote +:+
  ".
6. Use this phrase in every generation: “Use the reference face images exactly. Do NOT alter the identity.”

Operational Protocol:
1. Always read user’s uploaded image first.
2. Extract face features.
3. Use face reference + prompt to generate image.

Specific Handling:
When user asks for:
- dress
- uniform
- outfit
- scene
- action
- character

Apply the requested body/outfit ONLY.
Never change the face.

If no face reference is provided, ask:
“Please upload your face image for consistency.”

Additional Capabilities:
- You are PAK AI, a helpful and friendly multi-modal assistant.
- Web Search: If the user asks a question that requires current, up-to-date information from the web (e.g., 'what's the weather today?', recent news, specific facts), use the 'searchTheWeb' tool.
- Complex Tasks: For very complex questions that require deep reasoning, advanced logic, multi-step problem solving, or coding, use the 'complexQuery' tool.
- Image Generation: If the user asks you to create or generate an image from a text description, use the 'generateImage' tool.
- Image Editing: If the user provides an image and asks to change it (e.g., 'change the background', 'make the car red'), use the 'editImage' tool.
- Face Consistency: If the user provides one image of a person and asks to create a new scene (e.g., " +:+
  dquote +:+
  "put me on a beach" +:+
  dquote +:+
  ", " +:+
  dquote +:+
  "Create me as a medieval knight in a fantasy environment" +:+
  dquote +:+
  "), use the 'generateFromReference' tool.
- Image Combination: If the user provides two or more images and asks to combine or merge them, use the 'generateFromReference' tool.
- Image Resizing: If the user provides an image and asks to resize it or change its aspect ratio (e.g., 'make this landscape'), use the 'resizeImage' tool.
- Safety & Content Policy: You are allowed to generate dynamic action scenes, battles, and dramatic confrontations (e.g., 'a boy fighting a lion', 'superhero battles'). Do not refuse or unnecessarily sanitize these requests. However, you must STRICTLY REFUSE to generate any nudity, sexually explicit content, pornography, or realistic depictions of extreme gore/torture. If a user asks for sexual content, politely refuse.
- Limitations: When asked to edit or resize, you can only operate on one image at a time. If the user provides multiple images for these tasks, politely inform them of this limitation and ask which one they'd like to proceed with, using the last image by default if they don't specify.".

(** The constant [systemInstruction]. *)
Definition systemInstruction : Content :=
  mkContent (Some "model") [TextPart systemInstructionText].

(** The constant [tools]; every declared parameter has type STRING. *)
Definition tools : list FunctionDeclaration :=
  [ {| fd_name := "generateImage";
     fd_description :=
       "Generates a new image from a detailed text description.";
     fd_properties := [("prompt",
       "A detailed, descriptive prompt for the image.")];
     fd_required := ["prompt"] |};
    {| fd_name := "editImage";
     fd_description :=
       "Edits the most recently provided image based on user instructions. Use this for modifications like changing color, adding elements, or altering the style.";
     fd_properties := [("prompt",
       "A detailed description of the edits to be made.")];
     fd_required := ["prompt"] |};
    {| fd_name := "resizeImage";
     fd_description :=
       "Resizes the most recently provided image to a specific aspect ratio.";
     fd_properties := [("aspectRatio",
       "The target aspect ratio, e.g., " +:+
       dquote +:+
       "16:9" +:+
       dquote +:+
       ", " +:+
       dquote +:+
       "1:1" +:+
       dquote +:+
       ".")];
     fd_required := ["aspectRatio"] |};
    {| fd_name := "generateFromReference";
     fd_description :=
       "Generates a new image using one or more reference images. Use for tasks like placing a person in a new scene (face consistency) or combining elements from multiple photos.";
     fd_properties := [("prompt",
       "A detailed prompt describing the desired output.")];
     fd_required := ["prompt"] |};
    {| fd_name := "searchTheWeb";
     fd_description :=
       "Searches the web for up-to-date information on current events, news, or specific facts.";
     fd_properties := [("query",
       "The user query to search for.")];
     fd_required := ["query"] |};
    {| fd_name := "complexQuery";
     fd_description :=
       "Handles complex user queries requiring deep reasoning, advanced logic, or coding by enabling a special thinking mode.";
     fd_properties := [("query",
       "The original user query that is complex.")];
     fd_required := ["query"] |};
    {| fd_name := "resetFaceMemory";
     fd_description :=
       "Resets/clears the stored reference face images from memory. Use this when the user wants to change the face or explicitly says " +:+
       dquote +:+
       "reset face" +:+
       dquote +:+
       ".";
     fd_properties := [];
     fd_required := [] |} ].

(** The object [sendMessage] resolves to; a key that is absent or
    [undefined] is [None]. *)
Record SendResult : Type := mkSendResult {
  text : option string;
  sources : option (list GroundingSource);
  image : option string;
  prompt : option string;
  needsAspectRatio : option bool;
  pendingPrompt : option string;
  resetMemory : option bool
}.

(** The literal [{ text }]. *)
Definition textOnly (t : string) : SendResult :=
  mkSendResult (Some t) None None None None None None.

(** The literal [{ image, text, prompt }]. *)
Definition imageTextPrompt (i t : string) (p : option string) : SendResult :=
  mkSendResult (Some t) None (Some i) p None None None.

(** [(systemInstruction.parts[0] as { text: string }).text]. *)
Definition systemInstructionOf (c : Content) : option string :=
  match parts c with
  | TextPart t :: _ => Some t
  | _ => None
  end.

Definition toolSelectionRequest (contents : list Content) : GenerateContentParameters :=
  {| model := "gemini-flash-lite-latest";
     contents := contents;
     config := mkConfig (systemInstructionOf systemInstruction)
                 [FunctionDeclarations tools] [] None |}.

(** [toolName === name]. *)
Definition nameIs (toolName : option string) (name : string) : bool :=
  match toolName with
  | Some n => String.eqb n name
  | None => false
  end.

(** [toolArgs.key]: a [TypeError] when the call carries no arguments
    object, [undefined] when the object lacks the key. *)
Definition readArg (toolArgs : option (gmap string string)) (key : string)
  : Async (option string) :=
  match toolArgs with
  | None => throw (TypeErrorReading key)
  | Some a => ret (a !! key)
  end.

Definition imageDependentTools : list string :=
  ["editImage"; "resizeImage"; "generateFromReference"].

Definition noImageText : string :=
  "I'm sorry, I couldn't find an image to work with. Please upload one first.".

Definition deferredText (prompt : option string) : string :=
  "I can generate an image of " +:+
  dquote +:+
  interpolate prompt +:+
  dquote +:+
  ". Please select an aspect ratio.".

Section WithBackend.

Variable ai : Backend.

(** The routing on the first function call (the body of the [try]
    block after the tool-selection call). *)
Definition dispatchTool (text : string) (images : list Image) (history : list Content)
    (tool : FunctionCall) : Async SendResult :=
  let toolName := fc_name tool in
  let toolArgs := fc_args tool in
  if nameIs toolName "resetFaceMemory" then
    ret (mkSendResult
           (Some "Face memory has been reset. Please upload new face photos for the next generation.")
           None None None None None (Some true))
  else if nameIs toolName "searchTheWeb" then
    let* q := readArg toolArgs "query" in
    let query := orElse q text in
    let* r := executeSearch ai query in
    ret (mkSendResult (Some (ts_text r)) (ts_sources r) None None None None None)
  else if nameIs toolName "complexQuery" then
    let* q := readArg toolArgs "query" in
    let query := orElse q text in
    let* r := executeComplexQuery ai query in
    ret (textOnly (tr_text r))
  else if nameIs toolName "generateImage" then
    let* promptArg := readArg toolArgs "prompt" in
    match images with
    | _ :: _ =>
        let allImages := images in
        let* result := generateFromReference ai promptArg allImages in
        ret (imageTextPrompt (itp_image result) (itp_text result) (itp_prompt result))
    | [] =>
        ret (mkSendResult (Some (deferredText promptArg)) None None None
               (Some true) promptArg None)
    end
  else if existsb (fun t => nameIs toolName t) imageDependentTools then
    let lastImage := findLastImage history (Some images) in
    if nameIs toolName "editImage" then
      match lastImage with
      | None => ret (textOnly noImageText)
      | Some img =>
          let* promptArg := readArg toolArgs "prompt" in
          let* result := executeEditImage ai promptArg img in
          ret (imageTextPrompt (itp_image result) (itp_text result) (itp_prompt result))
      end
    else if nameIs toolName "resizeImage" then
      match lastImage with
      | None => ret (textOnly noImageText)
      | Some img =>
          let* ratioArg := readArg toolArgs "aspectRatio" in
          let* result := resizeImage ai img ratioArg None in
          ret (imageTextPrompt (it_image result) (it_text result) (Some "resized"))
      end
    else if nameIs toolName "generateFromReference" then
      let allImages :=
        match images with
        | _ :: _ => images
        | [] =>
            match findLastImage history None with
            | Some lastHistoryImage => [lastHistoryImage]
            | None => []
            end
        end in
      match allImages with
      | [] => ret (textOnly "Please upload your face image for consistency.")
      | _ :: _ =>
          let* promptArg := readArg toolArgs "prompt" in
          let* result := generateFromReference ai promptArg allImages in
          ret (imageTextPrompt (itp_image result) (itp_text result) (itp_prompt result))
      end
    else ret (textOnly "I'm not sure how to handle that tool call.")
  else ret (textOnly "I'm not sure how to handle that tool call.").

(** The [contents] sent for tool selection: the history, then the
    current turn. *)
Definition turnContents (text : string) (images : list Image) (history : list Content)
  : list Content :=
  let parts :=
    TextPart (orElse (Some text) EmptyString)
    :: map (fun img => InlineDataPart (mkImage (data img) (mimeType img))) images in
  history ++ [mkContent (Some "user") parts].

(** The [try] block of [sendMessage]. *)
Definition sendMessageTry (text : string) (images : list Image) (history : list Content)
  : Async SendResult :=
  let* result := awaitGenerateContent ai (toolSelectionRequest (turnContents text images history)) in
  match functionCalls result with
  | Some (tool :: _) => dispatchTool text images history tool
  | _ => ret (textOnly (orElse (response_text result) EmptyString))
  end.

Definition highTrafficText : string :=
  "I apologize, but I'm currently experiencing high traffic (Quota Exceeded). Please try again in a few moments.".

(** The [catch] block of [sendMessage]. *)
Definition sendMessageCatch (error : JsError) : Async SendResult :=
  if isQuotaError error then ret (textOnly highTrafficText)
  else ret (textOnly ("An error occurred: " +:+ interpolate (message error))).

Definition sendMessage (text : string) (images : list Image) (history : list Content)
  : Async SendResult :=
  tryCatch (sendMessageTry text images history) sendMessageCatch.

End WithBackend.

End Dispatch.

(** ** The chat handler of [App.tsx] *)

Module App.

Import Js GenAI Dispatch.
Open Scope async_scope.

(** The state of the [App] component that a chat turn reads or
    writes.  The message list is presentation state and is left out:
    the history derived from it is a parameter of the handler. *)
Record AppState : Type := mkAppState {
  input : string;
  isProcessing : bool;
  uploadedImages : list Image;
  faceReferences : list Image;
  resizeTask : bool;
  consistencyAI : Consistency.CompleteConsistencyAI
}.

Definition setInput (v : string) (st : AppState) : AppState :=
  mkAppState v (isProcessing st) (uploadedImages st) (faceReferences st)
    (resizeTask st) (consistencyAI st).

Definition setIsProcessing (v : bool) (st : AppState) : AppState :=
  mkAppState (input st) v (uploadedImages st) (faceReferences st)
    (resizeTask st) (consistencyAI st).

Definition setUploadedImages (v : list Image) (st : AppState) : AppState :=
  mkAppState (input st) (isProcessing st) v (faceReferences st)
    (resizeTask st) (consistencyAI st).

Definition setFaceReferences (v : list Image) (st : AppState) : AppState :=
  mkAppState (input st) (isProcessing st) (uploadedImages st) v
    (resizeTask st) (consistencyAI st).

Definition isTrue (b : option bool) : bool :=
  match b with Some true => true | _ => false end.

(** The [finally] block. *)
Definition handleSendMessageFinally (st : AppState) : AppState :=
  if negb (resizeTask st) then setIsProcessing false st else st.

Section WithBackend.

Variable ai : Backend.

Definition handleSendMessage (textOverride : option string) (historyForAPI : list Content)
    (st : AppState) : Async AppState :=
  let currentInput := match textOverride with Some t => t | None => input st end in
  if isProcessing st
     || (negb (truthy (Some (trim currentInput)))
         && (Nat.eqb (List.length (uploadedImages st)) 0))
  then ret st
  else
    let st := setIsProcessing true st in
    let textToSend := currentInput in
    let imagesToSend := faceReferences st ++ uploadedImages st in
    let st := setUploadedImages [] (setInput EmptyString st) in
    let* st :=
      tryCatch
        (let* botResponse := sendMessage ai textToSend imagesToSend historyForAPI in
         let st := if isTrue (resetMemory botResponse) then setFaceReferences [] st else st in
         if isTrue (needsAspectRatio botResponse) && truthy (pendingPrompt botResponse)
         then ret (setIsProcessing false st)
         else ret st)
        (fun error => ret st) in
    ret (handleSendMessageFinally st).

End WithBackend.

End App.

(** ** Vocabulary of the properties *)

Module Spec.

Import Js Prompt GenAI Service Dispatch.

(** [post c P]: every value [c] returns satisfies [P]. *)
Definition post {A} (c : Async A) (P : A -> Prop) : Prop :=
  forall log a log', c log = (Returned a, log') -> P a.

(** [total c]: [c] never throws. *)
Definition total {A} (c : Async A) : Prop :=
  forall log, exists a log', c log = (Returned a, log').

(** The image bytes a primary attempt yields, if any. *)
Definition primaryImage (o : Outcome GenerateImagesResponse) : option string :=
  match o with
  | Returned r =>
      match imageBytes r with
      | Some (String c s) => Some (String c s)
      | _ => None
      end
  | Thrown _ => None
  end.

(** The image a secondary attempt yields, if any. *)
Definition secondaryImage (o : Outcome GenerateContentResponse) : option string :=
  match o with
  | Returned r => firstInlineDataUri (candidateParts r)
  | Thrown _ => None
  end.

(** A backend attempt failed with a quota-related error. *)
Definition quotaRelated {A} (o : Outcome A) : bool :=
  match o with
  | Thrown e => isQuotaError e
  | Returned _ => false
  end.

Definition quotaExceededError : JsError :=
  Error "Image generation quota exceeded. Please try again later.".

Definition generationFailedError : JsError :=
  Error "Failed to generate image. Please try again.".

Definition noImageError : JsError := Error "No image was generated.".

Definition textsOf (ps : list Part) : list string :=
  omap (fun p => match p with TextPart t => Some t | _ => None end) ps.

(** The prompt text a backend call carries. *)
Definition promptOfCall (c : Call) : list string :=
  match c with
  | CallGenerateImages r => [images_prompt r]
  | CallGenerateContent r => textsOf (concat (map parts (contents r)))
  end.

(** The images a backend call carries. *)
Definition imagesOfCall (c : Call) : list Image :=
  match c with
  | CallGenerateImages _ => []
  | CallGenerateContent r => omap inlineDataOf (concat (map parts (contents r)))
  end.

(** All image parts of a conversation history, oldest first. *)
Definition historyImages (history : list Content) : list Image :=
  omap inlineDataOf (concat (map parts history)).

(** The tool-selection call of a turn. *)
Definition selectionRequest (text : string) (images : list Image) (history : list Content)
  : GenerateContentParameters :=
  toolSelectionRequest (turnContents text images history).

(** The backend answers the tool-selection call of the turn with
    [tool] as its first function call. *)
Definition selectsTool (ai : Backend) (text : string) (images : list Image)
    (history : list Content) (log : list Call) (tool : FunctionCall) : Prop :=
  exists resp rest,
    generateContent ai log (selectionRequest text images history) = Returned resp /\
    functionCalls resp = Some (tool :: rest).

(** The result of a reset dispatch. *)
Definition resetResult : SendResult :=
  mkSendResult
    (Some "Face memory has been reset. Please upload new face photos for the next generation.")
    None None None None None (Some true).

(** A response without any inline-data part. *)
Definition noInlineData (ps : list Part) : Prop :=
  Forall (fun p => inlineDataOf p = None) ps.

End Spec.

(** ** Sample backends and inputs *)

Module Examples.

Import Js GenAI Service Dispatch.

Definition emptyResponse : GenerateContentResponse :=
  mkResponse None [] None None.

Definition pngABC : Image := mkImage "QUJD" "image/png".
Definition jpgXYZ : Image := mkImage "WFla" "image/jpeg".

Definition imageResponse : GenerateContentResponse :=
  mkResponse None [TextPart "done"; InlineDataPart pngABC] None None.

Definition textResponse : GenerateContentResponse :=
  mkResponse (Some "Sorry, I cannot do that.") [TextPart "Sorry, I cannot do that."] None None.

Definition quotaError : JsError :=
  mkJsError (Some "got status: 429 Too Many Requests") (StringifyTo "{}").

Definition networkError : JsError := Error "fetch failed".

(** Primary answers with a quota error, secondary with a network error. *)
Definition quotaThenNetwork : Backend :=
  mkBackend (fun _ _ => Thrown networkError) (fun _ _ => Thrown quotaError).

(** Both image backends answer with a quota error. *)
Definition quotaTwice : Backend :=
  mkBackend (fun _ _ => Thrown quotaError) (fun _ _ => Thrown quotaError).

(** Primary is down, secondary produces an image. *)
Definition primaryDown : Backend :=
  mkBackend (fun _ _ => Returned imageResponse) (fun _ _ => Thrown networkError).

(** Primary produces image bytes. *)
Definition primaryUp : Backend :=
  mkBackend (fun _ _ => Thrown networkError)
            (fun _ _ => Returned (mkImagesResponse (Some "QUJD"))).

(** Every content call is answered with text only. *)
Definition textOnlyBackend : Backend :=
  mkBackend (fun _ _ => Returned textResponse) (fun _ _ => Thrown networkError).

(** A backend that selects [toolName] with arguments [args] on the
    first call and plays [next] afterwards. *)
Definition selecting (toolName : string) (args : gmap string string)
    (next : Outcome GenerateContentResponse) : Backend :=
  mkBackend
    (fun log _ =>
       match log with
       | [] => Returned (mkResponse None []
                           (Some [mkFunctionCall (Some toolName) (Some args)]) None)
       | _ => next
       end)
    (fun _ _ => Thrown networkError).

(** A backend whose every call fails with [e]. *)
Definition failing (e : JsError) : Backend :=
  mkBackend (fun _ _ => Thrown e) (fun _ _ => Thrown e).

(** A backend that selects [toolName] without an arguments object. *)
Definition noArguments (toolName : string) : Backend :=
  mkBackend
    (fun log _ =>
       match log with
       | [] => Returned (mkResponse None [] (Some [mkFunctionCall (Some toolName) None]) None)
       | _ => Returned imageResponse
       end)
    (fun _ _ => Thrown networkError).

Definition promptArgs (p : string) : gmap string string := {[ "prompt" := p ]}.
Definition ratioArgs (r : string) : gmap string string := {[ "aspectRatio" := r ]}.

(** A component state with a stored face reference in the studio
    memory and one chat face reference. *)
Definition sampleState : App.AppState :=
  App.mkAppState "change face" false [] [pngABC] false
    (Consistency.setFaceReference "QUJD" Consistency.new).

End Examples.

(** ** Speech synthesis: [generateSpeech] *)

Module Speech.

Import Js GenAI.

(** [speechConfig.voiceConfig.prebuiltVoiceConfig]. *)
Record SpeechConfig : Type := mkSpeechConfig { voiceName : string }.

(** The request of the text-to-speech call; its configuration has a
    field the other requests of the service do not use. *)
Record SpeechParameters : Type := mkSpeechParameters {
  speech_model : string;
  speech_contents : list Content;
  speech_modalities : list Modality;
  speechConfig : SpeechConfig
}.

Definition speechRequest (text : string) : SpeechParameters :=
  {| speech_model := "gemini-2.5-flash-preview-tts";
     speech_contents :=
       [mkContent None [TextPart (orElse (Some text) "I cannot speak this.")]];
     speech_modalities := [AUDIO];
     speechConfig := mkSpeechConfig "Kore" |}.

(** [response.candidates?.[0]?.content?.parts?.[0]?.inlineData?.data]:
    only the first part is looked at. *)
Definition firstPartData (response : GenerateContentResponse) : option string :=
  match candidateParts response with
  | InlineDataPart img :: _ => Some (data img)
  | _ => None
  end.

(** [try { body } catch (e) { handler e }] around a single awaited
    call. *)
Definition tryOutcome {A} (body : Outcome A) (handler : JsError -> Outcome A) : Outcome A :=
  match body with
  | Returned a => Returned a
  | Thrown e => handler e
  end.

(** [tts] is the answer of [ai.models.generateContent] to the one
    request the function makes. *)
Definition generateSpeech (tts : SpeechParameters -> Outcome GenerateContentResponse)
    (text : string) : Outcome string :=
  tryOutcome
    (match tts (speechRequest text) with
     | Returned response =>
         match firstPartData response with
         | Some (String c s) => Returned (String c s)
         | _ => Thrown (Error "No audio data returned from TTS model.")
         end
     | Thrown e => Thrown e
     end)
    (fun error => Thrown (Error "Failed to generate speech.")).

End Speech.

(** ** The studio generator: the methods of [CompleteConsistencyAI]
    that call the backend *)

Module Studio.

Import Js GenAI Service.
Open Scope async_scope.

(** The union type ['consistent' | 'change']. *)
Inductive Mode : Type := consistent | change.

Record ConsistencySettings : Type := mkSettings {
  face : Mode;
  dress : Mode;
  background : Mode;
  environment : Mode;
  currentFaceBase64 : option string;
  currentDressBase64 : option string;
  currentBackgroundBase64 : option string;
  currentEnvironmentBase64 : option string
}.

(** The object [generatedElements]. *)
Record GeneratedElements : Type := mkGenerated {
  generated_face : bool;
  generated_dress : bool;
  generated_background : bool;
  generated_environment : bool
}.

Record GenerationResult : Type := mkGenerationResult {
  imageData : string;
  consistencySettings : ConsistencySettings;
  generatedElements : GeneratedElements
}.

(** [settings.x === 'change']. *)
Definition isChange (m : Mode) : bool :=
  match m with change => true | consistent => false end.

Definition isConsistent (m : Mode) : bool :=
  match m with consistent => true | change => false end.

Definition buildSmartPrompt (userPrompt : string) (settings : ConsistencySettings)
    (aspectRatio : string) : string :=
  let prompt :=
    "USER REQUEST: " +:+
  dquote +:+
  userPrompt +:+
  dquote +:+
  "

" in
  let prompt := prompt +:+
    "CRITICAL CONSISTENCY INSTRUCTIONS:
" in
  let prompt := prompt +:+
    (if isConsistent (face settings)
     then "🔷 FACE: Keep EXACTLY same face from reference - identical features, structure, identity
"
     else "🔷 FACE: Create new face based on context
") in
  let prompt := prompt +:+
    (if isConsistent (dress settings)
     then "👗 DRESS: Maintain EXACT same clothing/outfit from reference
"
     else "👗 DRESS: Create new clothing based on user request
") in
  let prompt := prompt +:+
    (if isConsistent (background settings)
     then "🏞️ BACKGROUND: Keep EXACT same background scene from reference
"
     else "🏞️ BACKGROUND: Create new background based on user request
") in
  let prompt := prompt +:+
    (if isConsistent (environment settings)
     then "🌍 ENVIRONMENT: Maintain EXACT same environment, lighting, atmosphere from reference
"
     else "🌍 ENVIRONMENT: Create new environment based on user request
") in
  let prompt := prompt +:+
    ("
ADDITIONAL REQUIREMENTS:
- No borders, frames, or white spaces
- Full bleed image, aspect ratio: " +:+
  aspectRatio +:+
  "
- High quality, photorealistic
- Seamless integration of all elements
- Follow user prompt for any new elements
- OUTPUT: A single high-quality image.
    ") in
  prompt.

(** [parts.push] of one reference: the setting must be ['consistent']
    and the memory truthy, so neither [null] nor the empty string. *)
Definition referencePart (m : Mode) (memory : option string) : list Part :=
  match m, memory with
  | consistent, Some (String c s) => [InlineDataPart (mkImage (String c s) "image/png")]
  | _, _ => []
  end.

Definition referenceParts (settings : ConsistencySettings)
    (this : Consistency.CompleteConsistencyAI) : list Part :=
  referencePart (face settings) (Consistency.faceMemory this) ++
  referencePart (dress settings) (Consistency.dressMemory this) ++
  referencePart (background settings) (Consistency.backgroundMemory this) ++
  referencePart (environment settings) (Consistency.environmentMemory this).

(** The loop that assigns [imageData] (or [extractedData]) from the
    first inline-data part and breaks; the initial value is the empty
    string. *)
Fixpoint firstInlineData (ps : list Part) : string :=
  match ps with
  | [] => EmptyString
  | InlineDataPart img :: _ => data img
  | _ :: rest => firstInlineData rest
  end.

Definition quotaLimitError : JsError :=
  Error "Quota limit reached. Please try again later.".

Definition elementName (elementType : Consistency.Element) : string :=
  match elementType with
  | Consistency.face => "face"
  | Consistency.dress => "dress"
  | Consistency.background => "background"
  | Consistency.environment => "environment"
  end.

(** The object [prompts] of [getElementExtractionPrompt]. *)
Definition getElementExtractionPrompt (elementType : Consistency.Element) : string :=
  match elementType with
  | Consistency.face =>
      "Extract only the face with clear features. Remove everything else. Provide clean face reference."
  | Consistency.dress =>
      "Extract only the clothing/outfit. Remove face and background. Provide clean dress reference."
  | Consistency.background =>
      "Extract only the background scene. Remove person/subject. Provide clean background reference."
  | Consistency.environment =>
      "Extract the environment with lighting and atmosphere. Remove main subject. Provide environment reference."
  end.

Section WithBackend.

Variable ai : Backend.

(** [error.toString()], which the fields of a [JsError] do not
    determine. *)
Variable toStringOf : JsError -> string.

(** The error [JSON.stringify(error)] throws when it throws. *)
Variable stringifyThrown : JsError -> JsError.

(** The [catch] block the two methods share word for word, up to the
    error thrown last.  [JSON.stringify] runs before the tests, so its
    exception leaves the block; a rendering that is [undefined] fails
    at [str.includes] once the tests on [msg] are false. *)
Definition classifyAndThrow {A} (failure : JsError) (error : JsError) : Async A :=
  let msg := orElse (message error) (orElse (Some (toStringOf error)) EmptyString) in
  match stringify error with
  | StringifyThrows => throw (stringifyThrown error)
  | StringifyUndefined =>
      if includes msg "429" || includes msg "RESOURCE_EXHAUSTED"
      then throw quotaLimitError
      else throw (TypeErrorReading "includes")
  | StringifyTo str =>
      if includes msg "429" || includes msg "RESOURCE_EXHAUSTED" ||
         includes str "429" || includes str "RESOURCE_EXHAUSTED"
      then throw quotaLimitError
      else throw failure
  end.

(** [aspectRatio] has the default value 1:1. *)
Definition generateWithControl (this : Consistency.CompleteConsistencyAI)
    (userPrompt : string) (settings : ConsistencySettings) (aspectRatio : option string)
  : Async GenerationResult :=
  let aspectRatio := match aspectRatio with Some r => r | None => "1:1" end in
  tryCatch
    (let prompt := buildSmartPrompt userPrompt settings aspectRatio in
     let parts := referenceParts settings this ++ [TextPart prompt] in
     let* response := awaitGenerateContent ai (flashImageRequest parts) in
     let imageData := firstInlineData (candidateParts response) in
     match imageData with
     | EmptyString => throw (Error "No image generated")
     | String c s =>
         ret (mkGenerationResult ("data:image/png;base64," +:+ String c s) settings
                (mkGenerated (isChange (face settings)) (isChange (dress settings))
                   (isChange (background settings)) (isChange (environment settings))))
     end)
    (classifyAndThrow (Error "Failed to generate image with consistency control")).

Definition extractElement (imageBase64 : string) (elementType : Consistency.Element)
  : Async string :=
  tryCatch
    (let extractionPrompt := getElementExtractionPrompt elementType in
     let* response :=
       awaitGenerateContent ai
         (flashImageRequest
            [InlineDataPart (mkImage imageBase64 "image/png"); TextPart extractionPrompt]) in
     let extractedData := firstInlineData (candidateParts response) in
     match extractedData with
     | EmptyString => throw (Error ("Failed to extract " +:+ elementName elementType))
     | String c s => ret (String c s)
     end)
    (classifyAndThrow (Error ("Failed to extract " +:+ elementName elementType))).

End WithBackend.

End Studio.

(** ** Chat messages and the history sent to the backend *)

Module Chat.

Import Js GenAI.

(** The enum [Sender]. *)
Inductive Sender : Type := User | Bot.

(** The interface [ChatMessage]. *)
Record ChatMessage : Type := mkChatMessage {
  id : string;
  sender : Sender;
  text : string;
  images : option (list string);
  sources : option (list GroundingSource);
  isLoading : option bool;
  isError : option bool;
  prompt : option string;
  needsAspectRatio : option bool
}.

(** [s.split(',')]. *)
Fixpoint splitComma (s : string) : list string :=
  match s with
  | EmptyString => [EmptyString]
  | String c s' =>
      if Ascii.eqb c ","%char then EmptyString :: splitComma s'
      else match splitComma s' with
           | piece :: pieces => String c piece :: pieces
           | [] => [String c EmptyString]
           end
  end.

(** The characters the dot of a regular expression does not match, on
    the ASCII range: line feed and carriage return. *)
Definition isLineTerminator (c : ascii) : bool :=
  let n := nat_of_ascii c in (n =? 10) || (n =? 13).

(** The lazy group of [/:(.*?);/] from the position after a colon: the
    characters up to the first semicolon, unless a line terminator or
    the end of the input comes first. *)
Fixpoint untilSemicolon (s : string) : option string :=
  match s with
  | EmptyString => None
  | String c s' =>
      if Ascii.eqb c ";"%char then Some EmptyString
      else if isLineTerminator c then None
      else match untilSemicolon s' with
           | Some g => Some (String c g)
           | None => None
           end
  end.

(** [header.match(/:(.*?);/)?.[1]]: the group of the leftmost match. *)
Fixpoint matchMimeType (header : string) : option string :=
  match header with
  | EmptyString => None
  | String c s' =>
      if Ascii.eqb c ":"%char
      then match untilSemicolon s' with
           | Some g => Some g
           | None => matchMimeType s'
           end
      else matchMimeType s'
  end.

(** The body of [msg.images.forEach]: the image pushed for one data
    URL, if any. *)
Definition parseDataUrl (imgDataUrl : string) : option Image :=
  let pieces := splitComma imgDataUrl in
  let header := match pieces with h :: _ => h | [] => EmptyString end in
  match pieces !! 1 with
  | Some (String c s) =>
      let data := String c s in
      let mimeType := orElse (matchMimeType header) "image/png" in
      Some (mkImage data mimeType)
  | _ => None
  end.

(** The data URL the interface builds for an image. *)
Definition dataUrl (img : Image) : string :=
  "data:" +:+ mimeType img +:+ ";base64," +:+ data img.

Definition isTrue (b : option bool) : bool :=
  match b with Some true => true | _ => false end.

(** The predicate of [messages.filter]. *)
Definition keepForHistory (msg : ChatMessage) : bool :=
  negb (String.eqb (id msg) "init") && negb (isTrue (isError msg)) && negb (isTrue (isLoading msg)).

(** The callback of [flatMap]. *)
Definition contentOfMessage (msg : ChatMessage) : list Content :=
  let role := match sender msg with User => "user" | Bot => "model" end in
  let textParts := if truthy (Some (text msg)) then [TextPart (text msg)] else [] in
  let imageParts :=
    match images msg with
    | Some urls => map InlineDataPart (omap parseDataUrl urls)
    | None => []
    end in
  let parts := textParts ++ imageParts in
  match parts with
  | [] => []
  | _ :: _ => [mkContent (Some role) parts]
  end.

Definition historyForAPI (messages : list ChatMessage) : list Content :=
  flat_map contentOfMessage (List.filter keepForHistory messages).

(** The message [handleSendMessage] appends for the user's turn. *)
Definition userMessage (userMessageId currentInput : string) (uploadedImages : list Image)
  : ChatMessage :=
  mkChatMessage userMessageId User currentInput (Some (map dataUrl uploadedImages))
    None None None None None.

End Chat.

(** ** Vocabulary of the further properties *)

Module SpecMore.

Import Js Prompt GenAI Service Dispatch.

(** [throwsOnly c P]: every error [c] throws satisfies [P]. *)
Definition throwsOnly {A} (c : Async A) (P : JsError -> Prop) : Prop :=
  forall log e log', c log = (Thrown e, log') -> P e.

(** An error the failure classifier does not take for a quota error. *)
Definition nonQuota (e : JsError) : Prop := isQuotaError e = false.

(** [callsWithin c n Q]: [c] appends at most [n] calls to the log, and
    each of them satisfies [Q]. *)
Definition callsWithin {A} (c : Async A) (n : nat) (Q : Call -> Prop) : Prop :=
  forall log, exists calls,
    snd (c log) = log ++ calls /\ List.length calls <= n /\ Forall Q calls.

(** A call to [generateContent], as opposed to [generateImages]. *)
Definition isContentCall (c : Call) : Prop :=
  match c with
  | CallGenerateContent _ => True
  | CallGenerateImages _ => False
  end.

(** A string without the character [c]. *)
Fixpoint lacksChar (c : ascii) (s : string) : bool :=
  match s with
  | EmptyString => true
  | String x s' => negb (Ascii.eqb x c) && lacksChar c s'
  end.

Definition lacksLineTerminator (s : string) : bool :=
  lacksChar (ascii_of_nat 10) s && lacksChar (ascii_of_nat 13) s.

(** An image whose data URL can be read back: the base64 data is not
    empty and has no comma; the MIME type is not empty and has no
    comma, semicolon or line terminator. *)
Definition readableImage (img : Image) : bool :=
  truthy (Some (data img)) && lacksChar ","%char (data img) &&
  truthy (Some (mimeType img)) && lacksChar ","%char (mimeType img) &&
  lacksChar ";"%char (mimeType img) && lacksLineTerminator (mimeType img).

(** Whitespace is the single space only, and never twice in a row:
    no white space character starts anywhere in [s] but the space, and
    no space follows a space; [afterSpace] tells that the character
    before was a space. *)
Fixpoint singleSpaced (afterSpace : bool) (s : string) : bool :=
  match s with
  | EmptyString => true
  | String c s' =>
      match spaceWidth s with
      | S _ => Ascii.eqb c " "%char && negb afterSpace && singleSpaced true s'
      | O => singleSpaced false s'
      end
  end.

(** The request literal of [executeSearch]. *)
Definition searchRequest (query : string) : GenerateContentParameters :=
  {| model := "gemini-2.5-flash";
     contents := [mkContent (Some "user") [TextPart query]];
     config := mkConfig None [GoogleSearch] [] None |}.

(** The request literal of [executeComplexQuery]. *)
Definition complexRequest (query : string) : GenerateContentParameters :=
  {| model := "gemini-2.5-pro";
     contents := [mkContent (Some "user") [TextPart query]];
     config := mkConfig None [] [] (Some 32768%N) |}.

(** The setting of one attribute: [settings[element]]. *)
Definition modeOf (element : Consistency.Element) (settings : Studio.ConsistencySettings)
  : Studio.Mode :=
  match element with
  | Consistency.face => Studio.face settings
  | Consistency.dress => Studio.dress settings
  | Consistency.background => Studio.background settings
  | Consistency.environment => Studio.environment settings
  end.

(** A blank text: white space characters and nothing else. *)
Inductive Blank : string -> Prop :=
| Blank_nil : Blank EmptyString
| Blank_cons (w r : string) : In w whiteSpace -> Blank r -> Blank (w +:+ r).

End SpecMore.

(** ** Further sample inputs *)

Module ExamplesMore.

Import Js GenAI Service Dispatch.

(** A speech response whose audio comes after a text part. *)
Definition textThenAudio : GenerateContentResponse :=
  mkResponse None [TextPart "hello"; InlineDataPart (mkImage "UklGRg==" "audio/L16")]
    None None.

Definition allConsistent : Studio.ConsistencySettings :=
  Studio.mkSettings Studio.consistent Studio.consistent Studio.consistent Studio.consistent
    None None None None.

End ExamplesMore.

(** * Properties *)

(** ** Reasoning about asynchronous computations *)

Module AsyncFacts.

Import GenAI Spec.

Lemma post_ret {A} (a : A) (P : A -> Prop) : P a -> post (ret a) P.
Proof. intros HP log a' log' H. unfold ret in H. congruence. Qed.

Lemma post_throw {A} (e : JsError) (P : A -> Prop) : post (throw e) P.
Proof. intros log a log' H. unfold throw in H. discriminate. Qed.

Lemma post_bind {A B} (c : Async A) (k : A -> Async B) (P : B -> Prop) :
  (forall a, post (k a) P) -> post (bind c k) P.
Proof.
  intros Hk log b log' H. unfold bind in H.
  destruct (c log) as [[a|e] log1]; [ exact (Hk a log1 b log' H) | discriminate ].
Qed.

Lemma post_tryCatch {A} (body : Async A) (handler : JsError -> Async A) (P : A -> Prop) :
  post body P -> (forall e, post (handler e) P) -> post (tryCatch body handler) P.
Proof.
  intros Hb Hh log a log' H. unfold tryCatch in H.
  destruct (body log) as [[a0|e] log1] eqn:E.
  - inversion H; subst. exact (Hb log a log' E).
  - exact (Hh e log1 a log' H).
Qed.

Lemma total_ret {A} (a : A) : total (ret a).
Proof. intros log. exists a, log. reflexivity. Qed.

Lemma total_tryCatch {A} (body : Async A) (handler : JsError -> Async A) :
  (forall e, total (handler e)) -> total (tryCatch body handler).
Proof.
  intros Hh log. unfold tryCatch.
  destruct (body log) as [[a|e] log1]; [ exists a, log1; reflexivity | apply Hh ].
Qed.

End AsyncFacts.

(** ** Consistency memory *)

Section ConsistencyProperties.

Import Consistency.

Lemma set_get_same (element : Element) (b : string) (this : CompleteConsistencyAI) :
  get element (setReference element b this) = Some b.
Proof. destruct element; reflexivity. Qed.

Lemma set_get_other (e1 e2 : Element) (b : string) (this : CompleteConsistencyAI) :
  e1 <> e2 -> get e2 (setReference e1 b this) = get e2 this.
Proof. destruct e1, e2; intros H; try reflexivity; contradiction. Qed.

Lemma clear_get_other (e1 e2 : Element) (this : CompleteConsistencyAI) :
  e1 <> e2 -> get e2 (clearMemory e1 this) = get e2 this.
Proof. destruct e1, e2; intros H; try reflexivity; contradiction. Qed.

(** C5. For each of the four attributes and any string [b]: reading an
    attribute after setting it to [b] gives exactly [b]; reading it
    after clearing it gives the empty slot; after [clearAllMemories]
    every attribute reads as empty, whatever the slots held before.
    The last four equations say the same of each setter by name. *)
Theorem consistency_set_get_clear :
  forall (element : Element) (b : string) (this : CompleteConsistencyAI),
    get element (setReference element b this) = Some b /\
    get element (clearMemory element this) = None /\
    (forall e : Element, get e (clearAllMemories this) = None) /\
    getMemories (clearAllMemories this) = mkMemories None None None None /\
    mem_face (getMemories (setFaceReference b this)) = Some b /\
    mem_dress (getMemories (setDressReference b this)) = Some b /\
    mem_background (getMemories (setBackgroundReference b this)) = Some b /\
    mem_environment (getMemories (setEnvironmentReference b this)) = Some b.
Proof.
  intros element b this. repeat split.
  - apply set_get_same.
  - destruct element; reflexivity.
  - intros e; destruct e; reflexivity.
Qed.

End ConsistencyProperties.

(** ** Prompt synthesis on the lion example *)

Section PromptProperties.

Import Js Prompt.

(** C9. On the raw prompt of the lion in the desert and the ratio 9:16
    the builder strips the orientation keyword, detects the subject
    lion and the environment desert, and its output names the cleaned
    scene and the target format, contains the ratio and the guidance
    block for the vertical composition, line for line with the subject
    filled in, and nowhere the stripped keyword, in either case. *)
Theorem lion_desert_prompt :
  let rawPrompt := "a lion in the desert, landscape" in
  let cleaned := cleanPromptForResize rawPrompt in
  let output := createAdvancedResizePrompt cleaned "9:16" in
  includes rawPrompt "landscape" = true /\
  cleaned = "a lion in the desert," /\
  includes cleaned "landscape" = false /\
  detectSubject (toLowerCase cleaned) = "lion" /\
  detectEnvironment (toLowerCase cleaned) = "desert" /\
  includes output "9:16" = true /\
  includes output "
    ORIGINAL SCENE: a lion in the desert,
    " = true /\
  includes output "
    TARGET FORMAT: 9:16 aspect ratio (1080x1920 pixels)
    " = true /\
  includes output "
            VERTICAL PORTRAIT (9:16):
            - Full-body or 3/4 view of lion
            - Tall, portrait-oriented framing
            - More vertical space above and below
            - Ideal for mobile stories and reels
            - DO NOT put the image inside a phone screen
    " = true /\
  includes output "- IDENTICAL LION APPEARANCE" = true /\
  includes output "- IDENTICAL BACKGROUND: Same desert, objects, lighting" = true /\
  includes output "ONLY ADJUST: Composition and framing for 9:16 aspect ratio" = true /\
  includes output "landscape" = false /\
  includes (toLowerCase output) "landscape" = false.
Proof. vm_compute. repeat split. Qed.

End PromptProperties.

(** ** The two-stage image pipeline *)

Section PipelineProperties.

Import Js Prompt GenAI Service Spec.

Lemma firstInlineDataUri_nonempty (ps : list Part) (u : string) :
  firstInlineDataUri ps = Some u -> exists c s, u = String c s.
Proof.
  induction ps as [|p ps IH]; simpl; [ discriminate | ].
  destruct p as [t|img|]; auto.
  intros H; inversion H; subst. simpl. eauto.
Qed.

Local Arguments createAdvancedResizePrompt : simpl never.
Local Arguments cleanPromptForResize : simpl never.

Ltac unfold_pipeline :=
  unfold executeGenerateImage, bind, tryCatch, awaitGenerateImages,
    awaitGenerateContent, ret, throw.

(** The pipeline, unfolded by the outcome of its two attempts. *)
Lemma executeGenerateImage_run (ai : Backend) (prompt aspectRatio : string) (log : list Call) :
  let fullPrompt := createAdvancedResizePrompt (cleanPromptForResize prompt) aspectRatio in
  let c1 := CallGenerateImages (imagenRequest fullPrompt aspectRatio) in
  let c2 := CallGenerateContent (flashImageRequest [TextPart fullPrompt]) in
  let primary := generateImages ai log (imagenRequest fullPrompt aspectRatio) in
  let secondary := generateContent ai (log ++ [c1]) (flashImageRequest [TextPart fullPrompt]) in
  executeGenerateImage ai prompt aspectRatio log =
     match primaryImage primary with
     | Some bytes => (Returned (mkImageResult ("data:image/png;base64," +:+ bytes)), log ++ [c1])
     | None =>
         match secondary with
         | Returned r =>
             match firstInlineDataUri (candidateParts r) with
             | Some uri => (Returned (mkImageResult uri), log ++ [c1; c2])
             | None => (Thrown noImageError, log ++ [c1; c2])
             end
         | Thrown e =>
             (Thrown (if isQuotaError e then quotaExceededError else generationFailedError),
              log ++ [c1; c2])
         end
     end.
Proof.
  intros fullPrompt c1 c2 primary secondary.
  unfold_pipeline. fold fullPrompt. fold primary. fold c1.
  destruct primary as [r|e]; simpl.
  - destruct (imageBytes r) as [[|c s]|]; simpl; try reflexivity;
      fold secondary; rewrite <- app_assoc; simpl; fold c2;
      (destruct secondary as [r2|e2]; simpl;
       [ destruct (firstInlineDataUri (candidateParts r2)) as [u|] eqn:E;
         [ destruct (firstInlineDataUri_nonempty _ _ E) as (c' & s' & ->); reflexivity
         | reflexivity ]
       | destruct (isQuotaError e2); reflexivity ]).
  - fold secondary; rewrite <- app_assoc; simpl; fold c2.
    destruct secondary as [r2|e2]; simpl.
    + destruct (firstInlineDataUri (candidateParts r2)) as [u|] eqn:E;
        [ destruct (firstInlineDataUri_nonempty _ _ E) as (c' & s' & ->); reflexivity
        | reflexivity ].
    + destruct (isQuotaError e2); reflexivity.
Qed.

(** C3 as the code has it. When both attempts fail, the error surfaced
    is decided by the secondary failure alone: the quota error when
    the secondary call threw a quota-related error, the generic
    failure when it threw any other error, and the no-image error when
    it answered without an image.  The primary failure is not
    consulted. *)
Theorem both_attempts_fail (ai : Backend) (prompt aspectRatio : string) (log : list Call) :
  let fullPrompt := createAdvancedResizePrompt (cleanPromptForResize prompt) aspectRatio in
  let c1 := CallGenerateImages (imagenRequest fullPrompt aspectRatio) in
  let primary := generateImages ai log (imagenRequest fullPrompt aspectRatio) in
  let secondary := generateContent ai (log ++ [c1]) (flashImageRequest [TextPart fullPrompt]) in
  primaryImage primary = None ->
  secondaryImage secondary = None ->
  fst (executeGenerateImage ai prompt aspectRatio log) =
    Thrown (if quotaRelated secondary then quotaExceededError
            else match secondary with
                 | Thrown _ => generationFailedError
                 | Returned _ => noImageError
                 end).
Proof.
  intros fullPrompt c1 primary secondary H1 H2.
  pose proof (executeGenerateImage_run ai prompt aspectRatio log) as Hrun.
  cbv zeta in Hrun. fold fullPrompt c1 primary secondary in Hrun.
  rewrite Hrun, H1.
  destruct secondary as [r|e]; simpl in *.
  - rewrite H2. reflexivity.
  - destruct (isQuotaError e); reflexivity.
Qed.

Lemma both_attempts_fail_witness :
  fst (executeGenerateImage Examples.quotaTwice "a cat" "1:1" []) = Thrown quotaExceededError.
Proof.
  apply (both_attempts_fail Examples.quotaTwice "a cat" "1:1" []); reflexivity.
Defined.

(** C3 as stated fails: the primary attempt fails with a quota error,
    the secondary with a network error, and the error surfaced is the
    generic failure, not the quota error. *)
Lemma primary_quota_not_surfaced :
  let ai := Examples.quotaThenNetwork in
  let fullPrompt := createAdvancedResizePrompt (cleanPromptForResize "a cat") "1:1" in
  let c1 := CallGenerateImages (imagenRequest fullPrompt "1:1") in
  let primary := generateImages ai [] (imagenRequest fullPrompt "1:1") in
  let secondary := generateContent ai [c1] (flashImageRequest [TextPart fullPrompt]) in
  primaryImage primary = None /\
  secondaryImage secondary = None /\
  quotaRelated primary || quotaRelated secondary = true /\
  fst (executeGenerateImage ai "a cat" "1:1" []) = Thrown generationFailedError /\
  generationFailedError <> quotaExceededError /\
  isQuotaError generationFailedError = false.
Proof.
  repeat split; try reflexivity. discriminate.
Qed.

(** C4. Every call of the pipeline carries the one prompt synthesized
    before the first attempt; when the primary attempt yields image
    bytes the result is that image and the log gains the primary call
    only, so the secondary backend is not invoked; when the primary
    attempt fails and the secondary yields an image, the pipeline
    returns that image and throws nothing. *)
Theorem pipeline_success_paths (ai : Backend) (prompt aspectRatio : string) (log : list Call) :
  let fullPrompt := createAdvancedResizePrompt (cleanPromptForResize prompt) aspectRatio in
  let c1 := CallGenerateImages (imagenRequest fullPrompt aspectRatio) in
  let c2 := CallGenerateContent (flashImageRequest [TextPart fullPrompt]) in
  let primary := generateImages ai log (imagenRequest fullPrompt aspectRatio) in
  let secondary := generateContent ai (log ++ [c1]) (flashImageRequest [TextPart fullPrompt]) in
  let run := executeGenerateImage ai prompt aspectRatio log in
  (snd run = log ++ [c1] \/ snd run = log ++ [c1; c2]) /\
  promptOfCall c1 = [fullPrompt] /\
  promptOfCall c2 = [fullPrompt] /\
  (forall bytes, primaryImage primary = Some bytes ->
     run = (Returned (mkImageResult ("data:image/png;base64," +:+ bytes)), log ++ [c1])) /\
  (forall uri, primaryImage primary = None -> secondaryImage secondary = Some uri ->
     run = (Returned (mkImageResult uri), log ++ [c1; c2])).
Proof.
  intros fullPrompt c1 c2 primary secondary run.
  pose proof (executeGenerateImage_run ai prompt aspectRatio log) as Hrun.
  cbv zeta in Hrun. fold fullPrompt c1 c2 primary secondary run in Hrun.
  repeat split.
  - rewrite Hrun. destruct (primaryImage primary); [ left; reflexivity | right ].
    destruct secondary as [r2|e2]; [ destruct (firstInlineDataUri _) | ]; reflexivity.
  - intros bytes Hb. rewrite Hrun, Hb. reflexivity.
  - intros uri Hp Hs. rewrite Hrun, Hp.
    destruct secondary as [r2|e2]; simpl in Hs; [ rewrite Hs; reflexivity | discriminate ].
Qed.

Lemma pipeline_success_paths_witness :
  executeGenerateImage Examples.primaryUp "a cat" "1:1" [] =
    (Returned (mkImageResult "data:image/png;base64,QUJD"),
     [CallGenerateImages
        (imagenRequest (createAdvancedResizePrompt (cleanPromptForResize "a cat") "1:1") "1:1")]) /\
  fst (executeGenerateImage Examples.primaryDown "a cat" "1:1" []) =
    Returned (mkImageResult "data:image/png;base64,QUJD").
Proof.
  split.
  - apply (proj1 (proj2 (proj2 (proj2
      (pipeline_success_paths Examples.primaryUp "a cat" "1:1" [])))) "QUJD").
    reflexivity.
  - rewrite (proj2 (proj2 (proj2 (proj2
      (pipeline_success_paths Examples.primaryDown "a cat" "1:1" []))))
      "data:image/png;base64,QUJD"); reflexivity.
Defined.

End PipelineProperties.

(** ** The dispatcher: results and errors *)

Section DispatchProperties.

Import Js Prompt GenAI Service Dispatch Spec AsyncFacts.

Local Arguments toolSelectionRequest : simpl never.
Local Arguments turnContents : simpl never.
Local Arguments editPrompt : simpl never.
Local Arguments referencePrompt : simpl never.
Local Arguments resizePrompt : simpl never.
Local Arguments deferredText : simpl never.

(** One step of a postcondition proof over the text of a computation. *)
Ltac post_step :=
  first
    [ apply post_ret
    | apply post_throw
    | apply post_bind; intros
    | apply post_tryCatch; [ | intros ]
    | match goal with
      | |- post (if ?b then _ else _) _ => destruct b
      | |- post (match ?x with _ => _ end) _ => destruct x
      | |- post (let _ := _ in _) _ => cbv zeta
      end ].

(** A postcondition that holds of every object literal the dispatcher
    returns holds of every result of the routing. *)
Lemma dispatchTool_post (ai : Backend) (P : SendResult -> Prop) :
  (forall t, P (textOnly t)) ->
  (forall i t p, P (imageTextPrompt i t p)) ->
  (forall t s, P (mkSendResult (Some t) s None None None None None)) ->
  (forall t p, P (mkSendResult (Some t) None None None (Some true) p None)) ->
  (forall t, P (mkSendResult (Some t) None None None None None (Some true))) ->
  forall text images history tool,
    post (dispatchTool ai text images history tool) P.
Proof.
  intros Htext Himage Hsearch Hdeferred Hreset text images history tool.
  unfold dispatchTool, readArg.
  repeat post_step; auto.
Qed.

Lemma sendMessageTry_post (ai : Backend) (P : SendResult -> Prop) :
  (forall t, P (textOnly t)) ->
  (forall i t p, P (imageTextPrompt i t p)) ->
  (forall t s, P (mkSendResult (Some t) s None None None None None)) ->
  (forall t p, P (mkSendResult (Some t) None None None (Some true) p None)) ->
  (forall t, P (mkSendResult (Some t) None None None None None (Some true))) ->
  forall text images history,
    post (sendMessageTry ai text images history) P.
Proof.
  intros Htext Himage Hsearch Hdeferred Hreset text images history.
  unfold sendMessageTry. apply post_bind; intros result.
  destruct (functionCalls result) as [[|tool rest]|].
  - apply post_ret, Htext.
  - apply dispatchTool_post; assumption.
  - apply post_ret, Htext.
Qed.

Lemma sendMessageCatch_total (e : JsError) : total (sendMessageCatch e).
Proof. unfold sendMessageCatch. destruct (isQuotaError e); apply total_ret. Qed.

Lemma sendMessage_total (ai : Backend) text images history :
  total (sendMessage ai text images history).
Proof. apply total_tryCatch, sendMessageCatch_total. Qed.

Lemma sendMessage_post (ai : Backend) (P : SendResult -> Prop) :
  (forall t, P (textOnly t)) ->
  (forall i t p, P (imageTextPrompt i t p)) ->
  (forall t s, P (mkSendResult (Some t) s None None None None None)) ->
  (forall t p, P (mkSendResult (Some t) None None None (Some true) p None)) ->
  (forall t, P (mkSendResult (Some t) None None None None None (Some true))) ->
  forall text images history,
    post (sendMessage ai text images history) P.
Proof.
  intros Htext Himage Hsearch Hdeferred Hreset text images history.
  apply post_tryCatch.
  - apply sendMessageTry_post; assumption.
  - intros e. unfold sendMessageCatch. destruct (isQuotaError e); apply post_ret, Htext.
Qed.

(** C1. For every text, images, history and backend, [sendMessage]
    returns a result and throws nothing, and the result has a text.
    When the tool-selection call fails, or the handler of the selected
    tool throws, the result is a reply with a text and nothing else:
    the high-traffic message if the error caught is classified as a
    quota error, and otherwise the generic message that quotes the
    message of the error.  When the selection call answers without a
    function call the result is the text of the answer, or the empty
    text; when a tool handler returns, the result is what it returned. *)
Theorem sendMessage_error_opaque (ai : Backend) (text : string) (images : list Image)
    (history : list Content) (log : list Call) :
  let reply (t : string) := mkSendResult (Some t) None None None None None None in
  let errorReply (e : JsError) :=
    if isQuotaError e
    then reply "I apologize, but I'm currently experiencing high traffic (Quota Exceeded). Please try again in a few moments."
    else reply ("An error occurred: " +:+ interpolate (message e)) in
  let log1 := log ++ [CallGenerateContent (selectionRequest text images history)] in
  exists r log',
    sendMessage ai text images history log = (Returned r, log') /\
    is_Some (Dispatch.text r) /\
    match generateContent ai log (selectionRequest text images history) with
    | Thrown e => r = errorReply e /\ log' = log1
    | Returned resp =>
        match functionCalls resp with
        | Some (tool :: _) =>
            match dispatchTool ai text images history tool log1 with
            | (Returned r0, log0) => r = r0 /\ log' = log0
            | (Thrown e, log0) => r = errorReply e /\ log' = log0
            end
        | _ => r = reply (orElse (response_text resp) EmptyString) /\ log' = log1
        end
    end.
Proof.
  intros reply errorReply log1.
  destruct (sendMessage_total ai text images history log) as (r & log' & Hrun).
  exists r, log'. split; [ exact Hrun | split ].
  - revert Hrun. apply (sendMessage_post ai (fun r => is_Some (Dispatch.text r)));
      intros; simpl; eauto.
  - unfold sendMessage, tryCatch, sendMessageTry, bind, awaitGenerateContent in Hrun.
    fold (selectionRequest text images history) in Hrun. fold log1 in Hrun.
    destruct (generateContent ai log (selectionRequest text images history)) as [resp|e].
    + destruct (functionCalls resp) as [[|tool rest]|];
        try (inversion Hrun; split; reflexivity).
      destruct (dispatchTool ai text images history tool log1) as [[r0|e] log0].
      * inversion Hrun; split; reflexivity.
      * unfold sendMessageCatch, ret in Hrun. unfold errorReply, reply.
        destruct (isQuotaError e); inversion Hrun; split; reflexivity.
    + unfold sendMessageCatch, ret in Hrun. unfold errorReply, reply.
      destruct (isQuotaError e); inversion Hrun; split; reflexivity.
Qed.

(** The two replies to a failed tool-selection call, on a quota error
    and on a network error. *)
Example selection_fails_on_quota :
  fst (sendMessage (Examples.failing Examples.quotaError) "hello" [] [] []) =
  Returned (mkSendResult
              (Some "I apologize, but I'm currently experiencing high traffic (Quota Exceeded). Please try again in a few moments.")
              None None None None None None).
Proof. reflexivity. Qed.

Example selection_fails_on_network :
  fst (sendMessage (Examples.failing Examples.networkError) "hello" [] [] []) =
  Returned (mkSendResult (Some "An error occurred: fetch failed")
              None None None None None None).
Proof. reflexivity. Qed.

(** C8. For every input and backend, the result of [sendMessage] never
    both asks for an aspect ratio and carries an image: when
    [needsAspectRatio] is true the image is absent, and when an image
    is present [needsAspectRatio] is not set. *)
Theorem pending_and_image_exclusive (ai : Backend) (text : string) (images : list Image)
    (history : list Content) (log : list Call) :
  exists r log',
    sendMessage ai text images history log = (Returned r, log') /\
    (needsAspectRatio r = Some true -> image r = None) /\
    (is_Some (image r) -> needsAspectRatio r = None).
Proof.
  destruct (sendMessage_total ai text images history log) as (r & log' & Hrun).
  exists r, log'. split; [ exact Hrun | ].
  revert Hrun.
  apply (sendMessage_post ai
           (fun r => (needsAspectRatio r = Some true -> Dispatch.image r = None) /\
                     (is_Some (Dispatch.image r) -> needsAspectRatio r = None)));
    intros; simpl; split; intros H; try reflexivity; try discriminate;
    destruct H as [? H]; discriminate.
Qed.

Lemma noInlineData_first (ps : list Part) :
  noInlineData ps -> firstInlineDataUri ps = None.
Proof.
  induction 1 as [|p ps Hp _ IH]; simpl; [ reflexivity | ].
  destruct p; simpl in Hp; try discriminate; exact IH.
Qed.

Lemma image_eta (img : Image) : mkImage (data img) (mimeType img) = img.
Proof. destruct img; reflexivity. Qed.

Lemma inlineParts_eta (images : list Image) :
  map (fun img => InlineDataPart (mkImage (data img) (mimeType img))) images =
  map InlineDataPart images.
Proof. apply map_ext; intros img; rewrite image_eta; reflexivity. Qed.

(** The request of [executeEditImage]. *)
Lemma executeEditImage_run (ai : Backend) (prompt : option string) (img : Image)
    (log : list Call) :
  let request := flashImageRequest [InlineDataPart img; TextPart (editPrompt prompt)] in
  executeEditImage ai prompt img log =
    (match generateContent ai log request with
     | Returned resp =>
         match firstInlineDataUri (candidateParts resp) with
         | Some uri =>
             Returned (mkImageTextPrompt uri
                         (orElse (response_text resp) "Here is your edited image.") prompt)
         | None =>
             Returned (mkImageTextPrompt EmptyString
                         (orElse (response_text resp)
                            "I was unable to edit the image as requested. Please try a different prompt.")
                         prompt)
         end
     | Thrown e =>
         Thrown (if isQuotaError e
                 then Error "Usage limit exceeded for image editing. Please try again later."
                 else Error "Failed to edit image.")
     end, log ++ [CallGenerateContent request]).
Proof.
  intros request. unfold executeEditImage, tryCatch, bind, awaitGenerateContent, ret, throw.
  cbv zeta. rewrite image_eta. fold request.
  destruct (generateContent ai log request) as [resp|e].
  - destruct (firstInlineDataUri (candidateParts resp)) as [u|] eqn:E; [ | reflexivity ].
    destruct (firstInlineDataUri_nonempty _ _ E) as (c & s & ->). reflexivity.
  - destruct (isQuotaError e); reflexivity.
Qed.

(** The request of [generateFromReference]. *)
Lemma generateFromReference_run (ai : Backend) (prompt : option string)
    (images : list Image) (log : list Call) :
  images <> [] ->
  let request :=
    flashImageRequest (map InlineDataPart images ++ [TextPart (referencePrompt prompt)]) in
  generateFromReference ai prompt images log =
    (match generateContent ai log request with
     | Returned resp =>
         match firstInlineDataUri (candidateParts resp) with
         | Some uri =>
             Returned (mkImageTextPrompt uri
                         (orElse (response_text resp)
                            "Here is your generated image with face consistency preserved.")
                         prompt)
         | None =>
             Returned (mkImageTextPrompt EmptyString
                         (orElse (response_text resp)
                            "I was unable to generate the image from the reference.")
                         prompt)
         end
     | Thrown e =>
         Thrown (if isQuotaError e
                 then Error "Usage limit exceeded. Please try again later."
                 else Error "Failed to generate image from reference.")
     end, log ++ [CallGenerateContent request]).
Proof.
  intros Hne request. unfold generateFromReference.
  destruct images as [|i0 rest]; [ contradiction | ].
  unfold tryCatch, bind, awaitGenerateContent, ret, throw.
  cbv zeta. rewrite inlineParts_eta. fold request.
  destruct (generateContent ai log request) as [resp|e].
  - destruct (firstInlineDataUri (candidateParts resp)) as [u|] eqn:E; [ | reflexivity ].
    destruct (firstInlineDataUri_nonempty _ _ E) as (c & s & ->). reflexivity.
  - destruct (isQuotaError e); reflexivity.
Qed.

(** C10. When the backend call of the edit tool or of the
    reference-based generation completes and its response holds no
    image part, the operation returns, it does not throw: the image of
    its result is the empty string and the text is the text of the
    response or, failing that, a fixed message. *)
Theorem no_image_part_is_success (ai : Backend) (prompt : option string) (img : Image)
    (images : list Image) (log : list Call) :
  let editRequest := flashImageRequest [InlineDataPart img; TextPart (editPrompt prompt)] in
  let referenceRequest :=
    flashImageRequest (map InlineDataPart images ++ [TextPart (referencePrompt prompt)]) in
  (forall resp,
     generateContent ai log editRequest = Returned resp ->
     noInlineData (candidateParts resp) ->
     executeEditImage ai prompt img log =
       (Returned (mkImageTextPrompt EmptyString
                    (orElse (response_text resp)
                       "I was unable to edit the image as requested. Please try a different prompt.")
                    prompt),
        log ++ [CallGenerateContent editRequest])) /\
  (forall resp,
     images <> [] ->
     generateContent ai log referenceRequest = Returned resp ->
     noInlineData (candidateParts resp) ->
     generateFromReference ai prompt images log =
       (Returned (mkImageTextPrompt EmptyString
                    (orElse (response_text resp)
                       "I was unable to generate the image from the reference.")
                    prompt),
        log ++ [CallGenerateContent referenceRequest])).
Proof.
  intros editRequest referenceRequest. split.
  - intros resp Hcall Hparts.
    rewrite executeEditImage_run. fold editRequest.
    rewrite Hcall, (noInlineData_first _ Hparts). reflexivity.
  - intros resp Hne Hcall Hparts.
    rewrite (generateFromReference_run ai prompt images log Hne). fold referenceRequest.
    rewrite Hcall, (noInlineData_first _ Hparts). reflexivity.
Qed.

Lemma no_image_part_is_success_witness :
  fst (executeEditImage Examples.textOnlyBackend (Some "make it red") Examples.pngABC []) =
    Returned (mkImageTextPrompt EmptyString "Sorry, I cannot do that." (Some "make it red")) /\
  fst (generateFromReference Examples.textOnlyBackend (Some "on a beach") [Examples.pngABC] []) =
    Returned (mkImageTextPrompt EmptyString "Sorry, I cannot do that." (Some "on a beach")).
Proof.
  split.
  - rewrite (proj1 (no_image_part_is_success Examples.textOnlyBackend (Some "make it red")
                      Examples.pngABC [] []) Examples.textResponse);
      [ reflexivity | reflexivity | repeat constructor ].
  - rewrite (proj2 (no_image_part_is_success Examples.textOnlyBackend (Some "on a beach")
                      Examples.pngABC [Examples.pngABC] []) Examples.textResponse);
      [ reflexivity | discriminate | reflexivity | repeat constructor ].
Defined.

End DispatchProperties.

(** ** The dispatcher: routing *)

Section RoutingProperties.

Import Js Prompt GenAI Service Dispatch Spec AsyncFacts.

Local Arguments toolSelectionRequest : simpl never.
Local Arguments turnContents : simpl never.
Local Arguments editPrompt : simpl never.
Local Arguments referencePrompt : simpl never.
Local Arguments resizePrompt : simpl never.
Local Arguments deferredText : simpl never.
Local Arguments generateFromReference : simpl never.
Local Arguments executeEditImage : simpl never.
Local Arguments resizeImage : simpl never.
Local Arguments findLastImage : simpl never.
Local Arguments flashImageRequest : simpl never.

(** After the tool-selection call the [try] block continues with the
    routing of the first function call. *)
Lemma sendMessageTry_selected (ai : Backend) text images history log tool :
  selectsTool ai text images history log tool ->
  sendMessageTry ai text images history log =
    dispatchTool ai text images history tool
      (log ++ [CallGenerateContent (selectionRequest text images history)]).
Proof.
  intros (resp & rest & Hcall & Hfc).
  unfold sendMessageTry, bind, awaitGenerateContent.
  unfold selectionRequest in *. rewrite Hcall, Hfc. reflexivity.
Qed.

(** C2 as the code has it. The selected tool is [generateImage] and
    the call carries an arguments object.  With no attached image the
    result asks for an aspect ratio, its pending prompt is the prompt
    argument, and it carries no image.  With attached images the turn
    is routed to the reference-based generation over all of them and
    [needsAspectRatio] is not set; the result carries the image of
    that generation when its backend call completes, and is an error
    text without image when the call throws. *)
Theorem generateImage_routing (ai : Backend) (text : string) (images : list Image)
    (history : list Content) (log : list Call) (tool : FunctionCall)
    (a : gmap string string) :
  selectsTool ai text images history log tool ->
  fc_name tool = Some "generateImage" ->
  fc_args tool = Some a ->
  let log1 := log ++ [CallGenerateContent (selectionRequest text images history)] in
  let request :=
    flashImageRequest (map InlineDataPart images ++ [TextPart (referencePrompt (a !! "prompt"))]) in
  (images = [] ->
     sendMessage ai text images history log =
       (Returned (mkSendResult (Some (deferredText (a !! "prompt"))) None None None
                    (Some true) (a !! "prompt") None),
        log1)) /\
  (images <> [] ->
     exists r,
       sendMessage ai text images history log =
         (Returned r, log1 ++ [CallGenerateContent request]) /\
       needsAspectRatio r = None /\
       pendingPrompt r = None /\
       match generateContent ai log1 request with
       | Returned resp =>
           Dispatch.image r = Some (default EmptyString (firstInlineDataUri (candidateParts resp))) /\
           Dispatch.prompt r = a !! "prompt"
       | Thrown e =>
           r = textOnly ("An error occurred: " +:+
                         (if isQuotaError e
                          then "Usage limit exceeded. Please try again later."
                          else "Failed to generate image from reference."))
       end).
Proof.
  intros Hsel Hname Hargs log1 request.
  unfold sendMessage, tryCatch.
  rewrite (sendMessageTry_selected _ _ _ _ _ _ Hsel). fold log1.
  unfold dispatchTool. rewrite Hname, Hargs. simpl.
  split.
  - intros ->. reflexivity.
  - intros Hne. destruct images as [|i0 rest]; [ contradiction | ].
    cbv iota. unfold bind, ret.
    rewrite (generateFromReference_run ai (a !! "prompt") (i0 :: rest) log1 Hne).
    fold request.
    destruct (generateContent ai log1 request) as [resp|e].
    + destruct (firstInlineDataUri (candidateParts resp)) as [u|];
        eexists; (split; [ reflexivity | ]); simpl; auto.
    + destruct (isQuotaError e); eexists; (split; [ reflexivity | ]); simpl; auto.
Qed.

Lemma generateImage_routing_witness :
  fst (sendMessage (Examples.selecting "generateImage" (Examples.promptArgs "a cat")
                      (Returned Examples.imageResponse))
         "draw a cat" [] [] []) =
    Returned (mkSendResult (Some (deferredText (Some "a cat"))) None None None
                (Some true) (Some "a cat") None).
Proof.
  rewrite (proj1 (generateImage_routing
                    (Examples.selecting "generateImage" (Examples.promptArgs "a cat")
                       (Returned Examples.imageResponse))
                    "draw a cat" [] [] []
                    (mkFunctionCall (Some "generateImage") (Some (Examples.promptArgs "a cat")))
                    (Examples.promptArgs "a cat")
                    (ex_intro _ _ (ex_intro _ [] (conj eq_refl eq_refl)))
                    eq_refl eq_refl) eq_refl).
  reflexivity.
Defined.

(** C2 as stated fails: the tool is [generateImage], one image is
    attached, the backend call of the reference-based generation
    throws, and the result is an error text that carries no image. *)
Lemma attached_image_backend_error :
  let tool := mkFunctionCall (Some "generateImage") (Some (Examples.promptArgs "a knight")) in
  let ai := Examples.selecting "generateImage" (Examples.promptArgs "a knight")
              (Thrown Examples.networkError) in
  selectsTool ai "draw me as a knight" [Examples.pngABC] [] [] tool /\
  fst (sendMessage ai "draw me as a knight" [Examples.pngABC] [] []) =
    Returned (textOnly "An error occurred: Failed to generate image from reference.") /\
  Dispatch.image (textOnly "An error occurred: Failed to generate image from reference.") = None.
Proof.
  repeat split.
  eexists _, _. split; reflexivity.
Qed.

Lemma firstSome_rev {A B} (f : A -> option B) (l : list A) :
  firstSome f (rev l) = last (omap f l).
Proof.
  induction l as [|x l IH] using rev_ind; [ reflexivity | ].
  rewrite rev_unit, omap_app, last_app. simpl.
  destruct (f x); simpl; [ reflexivity | exact IH ].
Qed.

(** Scanning the history backward finds its most recent image part. *)
Lemma findLastImage_history (history : list Content) :
  findLastImage history None = last (historyImages history).
Proof.
  unfold findLastImage, historyImages.
  induction history as [|c history IH] using rev_ind; [ reflexivity | ].
  rewrite rev_unit, map_app, concat_app, omap_app, last_app. simpl.
  rewrite app_nil_r, firstSome_rev.
  destruct (last (omap inlineDataOf (parts c))); [ reflexivity | exact IH ].
Qed.

Lemma findLastImage_current (history : list Content) (images : list Image) :
  findLastImage history (Some images) =
    match images with
    | [] => last (historyImages history)
    | _ :: _ => last images
    end.
Proof.
  destruct images; [ apply (findLastImage_history history) | reflexivity ].
Qed.

(** The request of [resizeImage]. *)
Lemma resizeImage_log (ai : Backend) (img : Image) (ratio originalPrompt : option string)
    (log : list Call) :
  snd (resizeImage ai img ratio originalPrompt log) =
    log ++ [CallGenerateContent
              (flashImageRequest
                 [InlineDataPart img;
                  TextPart (resizePrompt ratio (fst (resizeSwitch ratio))
                              (snd (resizeSwitch ratio)))])].
Proof.
  unfold resizeImage, tryCatch, bind, awaitGenerateContent, ret, throw.
  cbv zeta. rewrite image_eta.
  destruct (generateContent ai log _) as [resp|e].
  - destruct (firstInlineDataUri (candidateParts resp)) as [[|c s]|];
      try reflexivity; destruct (isQuotaError _); reflexivity.
  - destruct (isQuotaError e); reflexivity.
Qed.

(** Neither handler of [sendMessage] calls the backend. *)
Lemma sendMessage_log (ai : Backend) text images history log :
  snd (sendMessage ai text images history log) =
  snd (sendMessageTry ai text images history log).
Proof.
  unfold sendMessage, tryCatch.
  destruct (sendMessageTry ai text images history log) as [[r|e] log']; [ reflexivity | ].
  unfold sendMessageCatch. destruct (isQuotaError e); reflexivity.
Qed.

Lemma bind_log {A B} (c : Async A) (k : A -> Async B) (log : list Call) :
  (forall a log', snd (k a log') = log') ->
  snd (bind c k log) = snd (c log).
Proof.
  intros Hk. unfold bind. destruct (c log) as [[a|e] log']; [ apply Hk | reflexivity ].
Qed.

Lemma bind_ret {A B} (a : A) (k : A -> Async B) (log : list Call) :
  bind (ret a) k log = k a log.
Proof. reflexivity. Qed.




End RoutingProperties.

(** ** Resetting the face memory *)

Section ResetProperties.

Import Js GenAI Service Dispatch Spec App.

Local Arguments toolSelectionRequest : simpl never.
Local Arguments turnContents : simpl never.
Local Arguments trim : simpl never.

Lemma sendMessage_reset (ai : Backend) text images history log tool :
  fc_name tool = Some "resetFaceMemory" ->
  selectsTool ai text images history log tool ->
  sendMessage ai text images history log =
    (Returned resetResult,
     log ++ [CallGenerateContent (selectionRequest text images history)]).
Proof.
  intros Hname Hsel. unfold sendMessage, tryCatch.
  rewrite (sendMessageTry_selected _ _ _ _ _ _ Hsel).
  unfold dispatchTool. rewrite Hname. reflexivity.
Qed.

(** C7 as the code has it. When the selected tool is
    [resetFaceMemory] the dispatch returns the confirmation text with
    [resetMemory] true, and the chat handler then empties the list of
    chat face references.  The four slots of the consistency memory
    are not written: each reads after the turn as it read before. *)
Theorem resetFaceMemory_dispatch (ai : Backend) (log : list Call) (tool : FunctionCall) :
  fc_name tool = Some "resetFaceMemory" ->
  (forall text images history,
     selectsTool ai text images history log tool ->
     sendMessage ai text images history log =
       (Returned resetResult,
        log ++ [CallGenerateContent (selectionRequest text images history)])) /\
  (forall textOverride historyForAPI st,
     let currentInput := match textOverride with Some t => t | None => input st end in
     let imagesToSend := faceReferences st ++ uploadedImages st in
     isProcessing st = false ->
     truthy (Some (trim currentInput)) = true \/ uploadedImages st <> [] ->
     selectsTool ai currentInput imagesToSend historyForAPI log tool ->
     exists st',
       handleSendMessage ai textOverride historyForAPI st log =
         (Returned st',
          log ++ [CallGenerateContent (selectionRequest currentInput imagesToSend historyForAPI)]) /\
       faceReferences st' = [] /\
       consistencyAI st' = consistencyAI st /\
       (forall e, Consistency.get e (consistencyAI st') = Consistency.get e (consistencyAI st))).
Proof.
  intros Hname. split.
  - intros text images history Hsel. apply (sendMessage_reset _ _ _ _ _ tool); assumption.
  - intros textOverride historyForAPI st currentInput imagesToSend Hproc Hsent Hsel.
    unfold handleSendMessage. fold currentInput. rewrite Hproc.
    assert (Hguard : negb (truthy (Some (trim currentInput)))
                     && (List.length (uploadedImages st) =? 0) = false).
    { destruct Hsent as [Ht|Hu].
      - rewrite Ht. reflexivity.
      - destruct (uploadedImages st); [ contradiction | apply andb_false_r ]. }
    rewrite Hguard. simpl. fold imagesToSend.
    unfold bind, tryCatch.
    rewrite (sendMessage_reset ai currentInput imagesToSend historyForAPI log tool Hname Hsel).
    simpl. unfold ret, handleSendMessageFinally. simpl.
    destruct (resizeTask st); simpl; eexists; repeat split.
Qed.

Lemma resetFaceMemory_dispatch_witness :
  exists st',
    fst (handleSendMessage (Examples.selecting "resetFaceMemory" ∅ (Returned Examples.emptyResponse))
           None [] Examples.sampleState []) = Returned st' /\
    faceReferences st' = [].
Proof.
  destruct (proj2 (resetFaceMemory_dispatch
                     (Examples.selecting "resetFaceMemory" ∅ (Returned Examples.emptyResponse))
                     [] (mkFunctionCall (Some "resetFaceMemory") (Some ∅)) eq_refl)
              None [] Examples.sampleState eq_refl (or_introl eq_refl)
              (ex_intro _ _ (ex_intro _ [] (conj eq_refl eq_refl))))
    as (st' & Hrun & Hfaces & _).
  exists st'. split; [ rewrite Hrun; reflexivity | exact Hfaces ].
Defined.

(** C7 as stated fails: the studio memory holds a face reference, the
    selected tool is [resetFaceMemory], the dispatch returns
    [resetMemory] true, and after the turn the face slot still holds
    the reference. *)
Lemma reset_keeps_consistency_memory :
  let tool := mkFunctionCall (Some "resetFaceMemory") (Some ∅) in
  let ai := Examples.selecting "resetFaceMemory" ∅ (Returned Examples.emptyResponse) in
  let st := Examples.sampleState in
  selectsTool ai "change face" [Examples.pngABC] [] [] tool /\
  Consistency.get Consistency.face (consistencyAI st) = Some "QUJD" /\
  fst (sendMessage ai "change face" [Examples.pngABC] [] []) = Returned resetResult /\
  exists st',
    fst (handleSendMessage ai None [] st []) = Returned st' /\
    faceReferences st' = [] /\
    Consistency.get Consistency.face (consistencyAI st') = Some "QUJD" /\
    Consistency.get Consistency.face (consistencyAI st') <> None.
Proof.
  split; [ eexists _, _; split; reflexivity | ].
  split; [ reflexivity | ].
  split; [ reflexivity | ].
  eexists. split; [ reflexivity | ].
  split; [ reflexivity | ].
  split; [ reflexivity | discriminate ].
Qed.

End ResetProperties.

(** ** Strings *)

Module StringFacts.

Import Js SpecMore.

Lemma append_cons (x : ascii) (a b : string) : String x a +:+ b = String x (a +:+ b).
Proof. reflexivity. Qed.

Lemma append_assoc (a b c : string) : (a +:+ b) +:+ c = a +:+ (b +:+ c).
Proof.
  induction a as [|x a IH]; [ reflexivity | ].
  rewrite !append_cons. f_equal. exact IH.
Qed.

Lemma append_nil_r (a : string) : a +:+ EmptyString = a.
Proof.
  induction a as [|x a IH]; [ reflexivity | ].
  rewrite append_cons. f_equal. exact IH.
Qed.

Lemma append_length (a b : string) :
  String.length (a +:+ b) = String.length a + String.length b.
Proof.
  induction a as [|x a IH]; [ reflexivity | ].
  rewrite append_cons. simpl. rewrite IH. reflexivity.
Qed.

Lemma startsWith_append (p r : string) : startsWith p (p +:+ r) = true.
Proof.
  induction p as [|x p IH]; [ reflexivity | ].
  rewrite append_cons. simpl. rewrite Ascii.eqb_refl. exact IH.
Qed.

Lemma startsWith_elim (p s : string) :
  startsWith p s = true -> exists r, s = p +:+ r.
Proof.
  revert s. induction p as [|x p IH]; intros s H; simpl in *.
  - exists s. reflexivity.
  - destruct s as [|y s]; [ discriminate | ].
    destruct (Ascii.eqb x y) eqn:E; [ | discriminate ].
    apply Ascii.eqb_eq in E. subst y.
    destruct (IH s H) as [r ->]. exists r. reflexivity.
Qed.

Lemma startsWith_append_l (p s post : string) :
  startsWith p s = true -> startsWith p (s +:+ post) = true.
Proof.
  intros H. destruct (startsWith_elim p s H) as [r ->].
  rewrite append_assoc. apply startsWith_append.
Qed.

Lemma includes_unfold (s needle : string) :
  includes s needle =
  startsWith needle s ||
  match s with
  | EmptyString => false
  | String _ s' => includes s' needle
  end.
Proof. destruct s; reflexivity. Qed.

Lemma includes_here (needle post : string) : includes (needle +:+ post) needle = true.
Proof. rewrite includes_unfold, startsWith_append. reflexivity. Qed.

Lemma includes_refl (needle : string) : includes needle needle = true.
Proof. rewrite <- (append_nil_r needle) at 1. apply includes_here. Qed.

Lemma includes_append_r (pre s needle : string) :
  includes s needle = true -> includes (pre +:+ s) needle = true.
Proof.
  intros H. induction pre as [|x pre IH]; [ exact H | ].
  change (includes (String x (pre +:+ s)) needle = true).
  rewrite includes_unfold, IH. apply orb_true_r.
Qed.

Lemma includes_append_l (s post needle : string) :
  includes s needle = true -> includes (s +:+ post) needle = true.
Proof.
  induction s as [|x s IH]; intros H.
  - rewrite includes_unfold in H. rewrite orb_false_r in H.
    rewrite includes_unfold. rewrite (startsWith_append_l _ _ post H). reflexivity.
  - rewrite includes_unfold in H. apply orb_true_iff in H.
    change (includes (String x (s +:+ post)) needle = true).
    rewrite includes_unfold. apply orb_true_iff.
    destruct H as [H|H].
    + left. exact (startsWith_append_l _ _ post H).
    + right. exact (IH H).
Qed.

Lemma includes_elim (s needle : string) :
  includes s needle = true -> exists pre post, s = pre +:+ needle +:+ post.
Proof.
  induction s as [|x s IH]; intros H; rewrite includes_unfold in H;
    apply orb_true_iff in H; destruct H as [H|H]; try discriminate.
  - destruct (startsWith_elim _ _ H) as [r Hr]. exists EmptyString, r. exact Hr.
  - destruct (startsWith_elim _ _ H) as [r Hr]. exists EmptyString, r. exact Hr.
  - destruct (IH H) as (pre & post & ->). exists (String x pre), post. reflexivity.
Qed.

(** A string that contains a word contains every suffix of the word. *)
Lemma includes_suffix (s x y : string) :
  includes s (x +:+ y) = true -> includes s y = true.
Proof.
  intros H. destruct (includes_elim _ _ H) as (pre & post & ->).
  rewrite append_assoc, <- (append_assoc pre x).
  apply includes_append_r, includes_here.
Qed.

(** *** White space *)

#[local] Arguments spaceWidth : simpl never.

Lemma startsWith_both (a b t : string) :
  startsWith a t = true -> startsWith b t = true ->
  startsWith a b = true \/ startsWith b a = true.
Proof.
  revert b t. induction a as [|x a IH]; intros b t Ha Hb; [ left; reflexivity | ].
  destruct b as [|y b]; [ right; reflexivity | ].
  destruct t as [|z t]; [ discriminate | ].
  simpl in *.
  destruct (Ascii.eqb x z) eqn:Ex; [ | discriminate ].
  destruct (Ascii.eqb y z) eqn:Ey; [ | discriminate ].
  apply Ascii.eqb_eq in Ex, Ey. subst x y. rewrite Ascii.eqb_refl.
  exact (IH b t Ha Hb).
Qed.

(** No white space character is the empty string, and none holds a
    space after its first byte. *)
Lemma whiteSpace_shape (w : string) :
  In w whiteSpace ->
  exists c w', w = String c w' /\ lacksChar " "%char w' = true.
Proof.
  assert (H : forallb (fun w => match w with
                                | EmptyString => false
                                | String _ w' => lacksChar " "%char w'
                                end) whiteSpace = true) by reflexivity.
  intros Hin. pose proof (proj1 (forallb_forall _ _) H w Hin) as Hw. cbv beta in Hw.
  destruct w as [|c w']; [ discriminate | eauto ].
Qed.

(** No white space character is the start of another. *)
Lemma whiteSpace_prefix_free (w w0 : string) :
  In w whiteSpace -> In w0 whiteSpace -> startsWith w w0 = true -> w = w0.
Proof.
  assert (H : forallb (fun w => forallb (fun w0 =>
                implb (startsWith w w0) (String.eqb w w0)) whiteSpace) whiteSpace = true)
    by reflexivity.
  intros Hw Hw0 Hs.
  pose proof (proj1 (forallb_forall _ _) (proj1 (forallb_forall _ _) H w Hw) w0 Hw0) as Hp.
  cbv beta in Hp. rewrite Hs in Hp. apply String.eqb_eq. exact Hp.
Qed.

Lemma space_whiteSpace : In " " whiteSpace.
Proof. do 5 right. left. reflexivity. Qed.

Lemma spaceWidth_whiteSpace (w r : string) :
  In w whiteSpace -> spaceWidth (w +:+ r) = String.length w.
Proof.
  intros Hw. unfold spaceWidth.
  destruct (find (fun w0 => startsWith w0 (w +:+ r)) whiteSpace) as [w0|] eqn:E.
  - apply find_some in E. destruct E as [Hw0 Hs0].
    destruct (startsWith_both w0 w (w +:+ r) Hs0 (startsWith_append w r)) as [H|H].
    + rewrite (whiteSpace_prefix_free w0 w Hw0 Hw H). reflexivity.
    + rewrite <- (whiteSpace_prefix_free w w0 Hw Hw0 H). reflexivity.
  - pose proof (find_none _ _ E w Hw) as Hn. simpl in Hn.
    rewrite startsWith_append in Hn. discriminate.
Qed.

Lemma spaceWidth_elim (s : string) (k : nat) :
  spaceWidth s = S k ->
  exists w r, In w whiteSpace /\ s = w +:+ r /\ String.length w = S k.
Proof.
  unfold spaceWidth.
  destruct (find (fun w => startsWith w s) whiteSpace) as [w|] eqn:E; [ | discriminate ].
  intros Hk. apply find_some in E. destruct E as [Hw Hs].
  destruct (startsWith_elim _ _ Hs) as [r Hr]. eauto.
Qed.

Lemma spaceWidth_none (s w : string) :
  spaceWidth s = 0 -> In w whiteSpace -> startsWith w s = false.
Proof.
  unfold spaceWidth.
  destruct (find (fun w => startsWith w s) whiteSpace) as [w0|] eqn:E; intros H0 Hw.
  - apply find_some in E. destruct E as [Hw0 _].
    destruct (whiteSpace_shape w0 Hw0) as (c & w' & -> & _). discriminate.
  - exact (find_none _ _ E w Hw).
Qed.

Lemma spaceWidth_space (s : string) : spaceWidth (String " " s) = 1.
Proof. exact (spaceWidth_whiteSpace " " s space_whiteSpace). Qed.

(** A white space character at the head of a string stays one when the
    string is extended. *)
Lemma spaceWidth_append (p r : string) (k : nat) :
  spaceWidth p = S k -> spaceWidth (p +:+ r) = S k.
Proof.
  intros H. destruct (spaceWidth_elim p k H) as (w & r0 & Hw & -> & Hl).
  rewrite append_assoc, spaceWidth_whiteSpace by exact Hw. exact Hl.
Qed.

Lemma collapseSpacesGo_skip (b : bool) (x r : string) :
  collapseSpacesGo b (String.length x) (x +:+ r) = collapseSpacesGo b 0 r.
Proof.
  induction x as [|c x IH]; [ reflexivity | ].
  rewrite append_cons. simpl. exact IH.
Qed.

Lemma trimStartGo_skip (x r : string) :
  trimStartGo (String.length x) (x +:+ r) = trimStart r.
Proof.
  induction x as [|c x IH]; [ reflexivity | ].
  rewrite append_cons. simpl. exact IH.
Qed.

Lemma allSpaceGo_skip (x r : string) :
  allSpaceGo (String.length x) (x +:+ r) = allSpace r.
Proof.
  induction x as [|c x IH]; [ reflexivity | ].
  rewrite append_cons. simpl. exact IH.
Qed.

(** The scans, one character at a time. *)
Lemma collapseSpacesGo_space (b : bool) (w r : string) :
  In w whiteSpace ->
  collapseSpacesGo b 0 (w +:+ r) =
  if b then collapseSpacesGo true 0 r else String " " (collapseSpacesGo true 0 r).
Proof.
  intros Hw. pose proof (spaceWidth_whiteSpace w r Hw) as Hs.
  destruct (whiteSpace_shape w Hw) as (c & x & -> & _).
  rewrite append_cons in *. simpl. rewrite Hs. simpl.
  rewrite collapseSpacesGo_skip. reflexivity.
Qed.

Lemma collapseSpacesGo_other (b : bool) (c : ascii) (s : string) :
  spaceWidth (String c s) = 0 ->
  collapseSpacesGo b 0 (String c s) = String c (collapseSpacesGo false 0 s).
Proof. intros H. simpl. rewrite H. reflexivity. Qed.

Lemma trimStart_space (w r : string) :
  In w whiteSpace -> trimStart (w +:+ r) = trimStart r.
Proof.
  intros Hw. pose proof (spaceWidth_whiteSpace w r Hw) as Hs.
  destruct (whiteSpace_shape w Hw) as (c & x & -> & _).
  rewrite append_cons in *. unfold trimStart at 1. simpl. rewrite Hs. simpl.
  apply trimStartGo_skip.
Qed.

Lemma trimStart_other (s : string) : spaceWidth s = 0 -> trimStart s = s.
Proof. intros H. destruct s as [|c s]; [ reflexivity | ]. unfold trimStart. simpl. rewrite H. reflexivity. Qed.

Lemma allSpace_space (w r : string) :
  In w whiteSpace -> allSpace (w +:+ r) = allSpace r.
Proof.
  intros Hw. pose proof (spaceWidth_whiteSpace w r Hw) as Hs.
  destruct (whiteSpace_shape w Hw) as (c & x & -> & _).
  rewrite append_cons in *. unfold allSpace at 1. simpl. rewrite Hs. simpl.
  apply allSpaceGo_skip.
Qed.

Lemma allSpace_other (c : ascii) (s : string) :
  spaceWidth (String c s) = 0 -> allSpace (String c s) = false.
Proof. intros H. unfold allSpace. simpl. rewrite H. reflexivity. Qed.

(** Induction on a string, one character at a time: a byte that starts
    no white space character, or a whole white space character. *)
Lemma space_ind (P : string -> Prop) :
  P EmptyString ->
  (forall c s, spaceWidth (String c s) = 0 -> P s -> P (String c s)) ->
  (forall w r, In w whiteSpace -> P r -> P (w +:+ r)) ->
  forall s, P s.
Proof.
  intros Hnil Hother Hspace s.
  assert (H : forall n s, String.length s <= n -> P s).
  { clear s. induction n as [|n IH]; intros s Hn.
    - destruct s; [ exact Hnil | simpl in Hn; lia ].
    - destruct s as [|c s]; [ exact Hnil | ].
      destruct (spaceWidth (String c s)) as [|k] eqn:E.
      + apply Hother; [ exact E | ]. apply IH. simpl in Hn. lia.
      + destruct (spaceWidth_elim _ _ E) as (w & r & Hw & Hr & Hl).
        rewrite Hr. apply Hspace; [ exact Hw | ]. apply IH.
        apply (f_equal String.length) in Hr. rewrite append_length in Hr.
        simpl in Hr, Hn. lia. }
  exact (H (String.length s) s (le_n _)).
Qed.

Lemma trimStart_le (s : string) : String.length (trimStart s) <= String.length s.
Proof.
  unfold trimStart.
  assert (H : forall k, String.length (trimStartGo k s) <= String.length s).
  { induction s as [|c s IH]; intros k; simpl; [ lia | ].
    destruct k as [|k]; [ destruct (spaceWidth (String c s)) as [|w] | ];
      simpl; try specialize (IH w); try specialize (IH k); lia. }
  apply H.
Qed.

Lemma trimEnd_le (s : string) : String.length (trimEnd s) <= String.length s.
Proof.
  induction s as [|c s IH]; simpl; [ lia | ].
  destruct (allSpace (String c s)); simpl; lia.
Qed.

Lemma collapseSpacesGo_le (b : bool) (k : nat) (s : string) :
  String.length (collapseSpacesGo b k s) <= String.length s.
Proof.
  revert b k. induction s as [|c s IH]; intros b k; simpl; [ lia | ].
  destruct k as [|k].
  - destruct (spaceWidth (String c s)) as [|w].
    + simpl. specialize (IH false 0). lia.
    + specialize (IH true w). destruct b; simpl; lia.
  - specialize (IH b k). lia.
Qed.

(** What [trimEnd] cuts off is white space. *)
Lemma trimEnd_split (s : string) :
  exists r, s = trimEnd s +:+ r /\ allSpace r = true.
Proof.
  induction s as [|c s (r & Hr & Ha)]; [ exists EmptyString; split; reflexivity | ].
  simpl. destruct (allSpace (String c s)) eqn:E.
  - exists (String c s). split; [ reflexivity | exact E ].
  - exists r. split; [ | exact Ha ]. rewrite append_cons. f_equal. exact Hr.
Qed.

Lemma allSpace_append (x r : string) :
  allSpace x = true -> allSpace r = true -> allSpace (x +:+ r) = true.
Proof.
  intros Hx Hr. revert x Hx. refine (space_ind _ _ _ _).
  - intros _. exact Hr.
  - intros c s Hc _ H. rewrite allSpace_other in H by exact Hc. discriminate.
  - intros w x Hw IH H. rewrite allSpace_space in H by exact Hw.
    rewrite append_assoc, allSpace_space by exact Hw. exact (IH H).
Qed.

Lemma trimEnd_idem (s : string) : trimEnd (trimEnd s) = trimEnd s.
Proof.
  induction s as [|c s IH]; [ reflexivity | ].
  simpl. destruct (allSpace (String c s)) eqn:E; [ reflexivity | ].
  simpl. rewrite IH.
  destruct (allSpace (String c (trimEnd s))) eqn:E'; [ | reflexivity ].
  destruct (trimEnd_split s) as (r & Hr & Ha).
  pose proof (allSpace_append _ r E' Ha) as H.
  rewrite append_cons, <- Hr in H. congruence.
Qed.

(** A string that starts with no white space keeps this when it is cut. *)
Lemma spaceWidth_prefix (p r : string) : spaceWidth (p +:+ r) = 0 -> spaceWidth p = 0.
Proof.
  intros H. destruct (spaceWidth p) as [|k] eqn:E; [ reflexivity | ].
  rewrite (spaceWidth_append p r k E) in H. discriminate.
Qed.

Lemma trimStart_head (s : string) : spaceWidth (trimStart s) = 0.
Proof.
  revert s. refine (space_ind _ _ _ _).
  - reflexivity.
  - intros c s Hc _. rewrite trimStart_other by exact Hc. exact Hc.
  - intros w r Hw IH. rewrite trimStart_space by exact Hw. exact IH.
Qed.

Lemma trim_idem (s : string) : trim (trim s) = trim s.
Proof.
  unfold trim. destruct (trimEnd_split (trimStart s)) as (r & Hr & _).
  pose proof (trimStart_head s) as Hh. rewrite Hr in Hh.
  rewrite (trimStart_other _ (spaceWidth_prefix _ _ Hh)). apply trimEnd_idem.
Qed.

(** [trim] leaves nothing of a text exactly when the text is blank. *)
Lemma Blank_trim (s : string) : Blank s -> trim s = EmptyString.
Proof.
  unfold trim. induction 1 as [|w r Hw _ IH]; [ reflexivity | ].
  rewrite trimStart_space by exact Hw. exact IH.
Qed.

Lemma trim_Blank (s : string) : trim s = EmptyString -> Blank s.
Proof.
  unfold trim. revert s. refine (space_ind _ _ _ _).
  - intros _. constructor.
  - intros c s Hc _ H. rewrite trimStart_other in H by exact Hc.
    simpl in H. rewrite (allSpace_other c s Hc) in H. discriminate.
  - intros w r Hw IH H. rewrite trimStart_space in H by exact Hw.
    constructor; [ exact Hw | exact (IH H) ].
Qed.

Lemma removeWordGo_le (term : string) (prev : option ascii) (skip : nat) (s : string) :
  String.length (removeWordGo term prev skip s) <= String.length s.
Proof.
  revert prev skip. induction s as [|c s IH]; intros prev skip; simpl; [ lia | ].
  destruct skip as [|k].
  - destruct (wordMatchAt term prev (String c s)); simpl;
      [ specialize (IH (Some c) (String.length term - 1)) | specialize (IH (Some c) 0) ]; lia.
  - specialize (IH (Some c) k). lia.
Qed.

End StringFacts.

(** ** Prompt cleaning and keyword detection *)

Section CleaningProperties.

Import Js Prompt SpecMore StringFacts.

#[local] Arguments spaceWidth : simpl never.

Lemma singleSpaced_cons (b : bool) (c : ascii) (s : string) :
  singleSpaced b (String c s) =
  match spaceWidth (String c s) with
  | S _ => Ascii.eqb c " "%char && negb b && singleSpaced true s
  | O => singleSpaced false s
  end.
Proof. reflexivity. Qed.

Lemma singleSpaced_weaken (s : string) :
  singleSpaced true s = true -> singleSpaced false s = true.
Proof.
  destruct s as [|c s]; [ reflexivity | ]. rewrite !singleSpaced_cons.
  destruct (spaceWidth (String c s)); [ auto | ].
  rewrite andb_false_r. discriminate.
Qed.

(** Collapsing keeps the start of a word that holds no space: what the
    output starts with, the input started with. *)
Lemma collapseSpaces_startsWith (w s : string) :
  lacksChar " "%char w = true ->
  startsWith w (collapseSpaces s) = true -> startsWith w s = true.
Proof.
  unfold collapseSpaces.
  revert s. induction w as [|d w IH]; intros s Hw H; [ reflexivity | ].
  simpl in Hw. apply andb_true_iff in Hw. destruct Hw as [Hd Hw].
  destruct s as [|c s]; [ discriminate | ].
  destruct (spaceWidth (String c s)) as [|k] eqn:E.
  - rewrite collapseSpacesGo_other in H by exact E. simpl in *.
    destruct (Ascii.eqb d c); [ | discriminate ]. exact (IH s Hw H).
  - destruct (spaceWidth_elim _ _ E) as (x & r & Hx & Hr & _).
    rewrite Hr, collapseSpacesGo_space in H by exact Hx. simpl in H.
    destruct (Ascii.eqb d " "); discriminate.
Qed.

(** Collapsing makes no white space character out of bytes that were
    not one. *)
Lemma collapseSpaces_spaceWidth (c : ascii) (s : string) :
  spaceWidth (String c s) = 0 -> spaceWidth (String c (collapseSpaces s)) = 0.
Proof.
  intros H. destruct (spaceWidth (String c (collapseSpaces s))) as [|k] eqn:E; [ reflexivity | ].
  destruct (spaceWidth_elim _ _ E) as (w & r & Hw & Hr & _).
  destruct (whiteSpace_shape w Hw) as (d & w' & -> & Hl).
  pose proof (startsWith_append (String d w') r) as Hs. rewrite <- Hr in Hs.
  simpl in Hs. destruct (Ascii.eqb d c) eqn:Ed; [ | discriminate ].
  apply (collapseSpaces_startsWith w' s Hl) in Hs.
  pose proof (spaceWidth_none _ _ H Hw) as Hn. simpl in Hn.
  rewrite Ed, Hs in Hn. discriminate.
Qed.

Lemma collapseSpacesGo_singleSpaced (b : bool) (s : string) :
  singleSpaced b (collapseSpacesGo b 0 s) = true.
Proof.
  revert s b. refine (space_ind _ _ _ _).
  - reflexivity.
  - intros c s Hc IH b. rewrite collapseSpacesGo_other by exact Hc.
    rewrite singleSpaced_cons. fold (collapseSpaces s).
    rewrite (collapseSpaces_spaceWidth c s Hc). apply IH.
  - intros w r Hw IH b. rewrite collapseSpacesGo_space by exact Hw.
    destruct b; [ apply IH | ].
    rewrite singleSpaced_cons, spaceWidth_space. simpl. apply IH.
Qed.

Lemma singleSpaced_fixed (b : bool) (s : string) :
  singleSpaced b s = true -> collapseSpacesGo b 0 s = s.
Proof.
  revert b. induction s as [|c s IH]; intros b H; [ reflexivity | ].
  rewrite singleSpaced_cons in H. destruct (spaceWidth (String c s)) as [|k] eqn:E.
  - rewrite collapseSpacesGo_other by exact E. rewrite (IH false H). reflexivity.
  - apply andb_true_iff in H. destruct H as [H Hs].
    apply andb_true_iff in H. destruct H as [Hc Hb].
    apply Ascii.eqb_eq in Hc. subst c.
    destruct b; [ discriminate | ].
    change (String " " s) with (" " +:+ s).
    rewrite collapseSpacesGo_space by exact space_whiteSpace.
    rewrite (IH true Hs). reflexivity.
Qed.

Lemma singleSpaced_trimStart (s : string) :
  singleSpaced false s = true -> singleSpaced false (trimStart s) = true.
Proof.
  induction s as [|c s IH]; intros H; [ reflexivity | ].
  destruct (spaceWidth (String c s)) as [|k] eqn:E.
  - rewrite trimStart_other by exact E. exact H.
  - rewrite singleSpaced_cons, E in H.
    apply andb_true_iff in H. destruct H as [H Hs].
    apply andb_true_iff in H. destruct H as [Hc _].
    apply Ascii.eqb_eq in Hc. subst c.
    change (String " " s) with (" " +:+ s).
    rewrite trimStart_space by exact space_whiteSpace.
    apply IH, singleSpaced_weaken, Hs.
Qed.

(** Cutting a string at its end keeps it single spaced. *)
Lemma singleSpaced_prefix (b : bool) (p r : string) :
  singleSpaced b (p +:+ r) = true -> singleSpaced b p = true.
Proof.
  revert b. induction p as [|c p IH]; intros b H; [ reflexivity | ].
  rewrite append_cons, singleSpaced_cons in H. rewrite singleSpaced_cons.
  destruct (spaceWidth (String c p)) as [|k] eqn:E.
  - destruct (spaceWidth (String c (p +:+ r))) as [|k'] eqn:E'; [ exact (IH false H) | ].
    apply andb_true_iff in H. destruct H as [H _].
    apply andb_true_iff in H. destruct H as [Hc _].
    apply Ascii.eqb_eq in Hc. subst c.
    rewrite spaceWidth_space in E. discriminate.
  - pose proof (spaceWidth_append _ r k E) as E'. rewrite append_cons in E'.
    rewrite E' in H.
    apply andb_true_iff in H. destruct H as [H Hs].
    rewrite H. exact (IH true Hs).
Qed.

Lemma singleSpaced_trimEnd (b : bool) (s : string) :
  singleSpaced b s = true -> singleSpaced b (trimEnd s) = true.
Proof.
  intros H. destruct (trimEnd_split s) as (r & Hr & _).
  rewrite Hr in H. exact (singleSpaced_prefix b _ r H).
Qed.

Lemma fold_removeWord_le (l : list string) (s : string) :
  String.length (fold_left (fun cleaned term => removeWord term cleaned) l s)
  <= String.length s.
Proof.
  revert s. induction l as [|t l IH]; intros s; simpl; [ lia | ].
  specialize (IH (removeWord t s)).
  pose proof (removeWordGo_le t None 0 s). unfold removeWord in *. lia.
Qed.

(** X1. The cleaned prompt is in normal form: it is a fixed point of
    [trim] and of the collapsing of whitespace, so it neither starts
    nor ends with whitespace and holds no whitespace but single
    spaces; and cleaning never lengthens a prompt. *)
Theorem cleaned_prompt_normal_form (prompt : string) :
  let cleaned := cleanPromptForResize prompt in
  trim cleaned = cleaned /\
  collapseSpaces cleaned = cleaned /\
  singleSpaced false cleaned = true /\
  String.length cleaned <= String.length prompt.
Proof.
  unfold cleanPromptForResize. destruct prompt as [|c p]; [ repeat split; simpl; lia | ].
  set (folded := fold_left _ terms _).
  assert (Hs : singleSpaced false (trim (collapseSpaces folded)) = true).
  { unfold trim. apply singleSpaced_trimEnd, singleSpaced_trimStart.
    apply collapseSpacesGo_singleSpaced. }
  cbv zeta. repeat split.
  - apply trim_idem.
  - apply (singleSpaced_fixed false), Hs.
  - exact Hs.
  - unfold trim.
    pose proof (trimEnd_le (trimStart (collapseSpaces folded))).
    pose proof (trimStart_le (collapseSpaces folded)).
    pose proof (collapseSpacesGo_le false 0 folded).
    pose proof (fold_removeWord_le terms (String c p)).
    unfold collapseSpaces in *. fold folded in H2. lia.
Qed.

Lemma matchTermCI_startsWith (term s : string) (last : option ascii) r :
  matchTermCI term s last = Some r ->
  startsWith (toLowerCase term) (toLowerCase s) = true.
Proof.
  revert s last. induction term as [|a term IH]; intros s last H; [ reflexivity | ].
  destruct s as [|b s]; simpl in H; [ discriminate | ].
  destruct (Ascii.eqb (lowerChar a) (lowerChar b)) eqn:E; [ | discriminate ].
  simpl. rewrite E. exact (IH _ _ H).
Qed.

Lemma removeWordGo_absent (term : string) (prev : option ascii) (s : string) :
  includes (toLowerCase s) (toLowerCase term) = false ->
  removeWordGo term prev 0 s = s.
Proof.
  revert prev. induction s as [|c s IH]; intros prev H; [ reflexivity | ].
  change (toLowerCase (String c s)) with (String (lowerChar c) (toLowerCase s)) in H.
  rewrite includes_unfold in H. apply orb_false_iff in H. destruct H as [Hhere Hrest].
  simpl removeWordGo.
  assert (Hm : wordMatchAt term prev (String c s) = false).
  { unfold wordMatchAt. destruct term as [|a term]; [ reflexivity | ].
    destruct (matchTermCI (String a term) (String c s) prev) as [[lastc rest]|] eqn:E;
      [ | reflexivity ].
    apply matchTermCI_startsWith in E.
    change (toLowerCase (String c s)) with (String (lowerChar c) (toLowerCase s)) in E.
    congruence. }
  rewrite Hm, (IH (Some c) Hrest). reflexivity.
Qed.

Lemma terms_lowercase (term : string) : In term terms -> toLowerCase term = term.
Proof.
  unfold terms. simpl. intros H.
  repeat (destruct H as [<-|H]; [ reflexivity | ]). contradiction.
Qed.

(** X2. A prompt that is already in normal form, that is, a fixed point
    of the collapsing of white space and of [trim], and mentions none
    of the orientation keywords, in any case of their letters, is
    returned unchanged. *)
Theorem keyword_free_prompt_unchanged (prompt : string) :
  (forall term, In term terms -> includes (toLowerCase prompt) term = false) ->
  collapseSpaces prompt = prompt ->
  trim prompt = prompt ->
  cleanPromptForResize prompt = prompt.
Proof.
  intros Hfree Hcollapsed Htrimmed. unfold cleanPromptForResize.
  destruct prompt as [|c p]; [ reflexivity | ].
  assert (Hfold : forall l, (forall term, In term l -> In term terms) ->
            fold_left (fun cleaned term => removeWord term cleaned) l (String c p) = String c p).
  { induction l as [|t l IH]; intros Hl; [ reflexivity | ].
    simpl. unfold removeWord at 2.
    rewrite removeWordGo_absent.
    - apply IH. intros term Hin. apply Hl. right. exact Hin.
    - rewrite (terms_lowercase t) by (apply Hl; left; reflexivity).
      apply Hfree, Hl. left. reflexivity. }
  rewrite (Hfold terms) by auto.
  rewrite Hcollapsed. exact Htrimmed.
Qed.

Lemma keyword_free_prompt_unchanged_witness :
  cleanPromptForResize "a lion in the desert," = "a lion in the desert,".
Proof.
  apply keyword_free_prompt_unchanged; [ | reflexivity | reflexivity ].
  unfold terms. simpl. intros term H.
  repeat (destruct H as [<-|H]; [ reflexivity | ]). contradiction.
Defined.

(** White space beyond ASCII is white space: a no-break space between
    two words becomes a space, an ideographic space at the end is cut. *)
Example no_break_space_collapsed :
  cleanPromptForResize ("a" +:+ bytes [194; 160] +:+ "lion" +:+ bytes [227; 128; 128]) =
  "a lion".
Proof. reflexivity. Qed.

(** X3. Keyword detection takes the first keyword of its list that occurs
    as a substring, so a keyword that contains an earlier one is never
    detected: the subject is never woman and the style is never
    photorealistic; a prompt that mentions the one is labelled with a
    keyword listed before it. *)
Theorem shadowed_keywords (promptLower : string) :
  detectSubject promptLower <> "woman" /\
  detectStyle promptLower <> "photorealistic" /\
  (includes promptLower "woman" = true ->
     In (detectSubject promptLower)
        ["lion"; "person"; "animal"; "character"; "figure"; "man"]) /\
  (includes promptLower "photorealistic" = true ->
     In (detectStyle promptLower) ["cinematic"; "realistic"]).
Proof.
  assert (Hman : includes promptLower "woman" = true -> includes promptLower "man" = true)
    by exact (includes_suffix promptLower "wo" "man").
  assert (Hreal : includes promptLower "photorealistic" = true ->
                  includes promptLower "realistic" = true)
    by exact (includes_suffix promptLower "photo" "realistic").
  unfold detectSubject, detectStyle, findOr, subjects, styles. simpl find.
  repeat split.
  - repeat match goal with
           | |- context [includes promptLower ?k] =>
               destruct (includes promptLower k) eqn:?
           end; simpl; try discriminate.
    intros _. specialize (Hman eq_refl). discriminate.
  - repeat match goal with
           | |- context [includes promptLower ?k] =>
               destruct (includes promptLower k) eqn:?
           end; simpl; try discriminate.
    intros _. specialize (Hreal eq_refl). discriminate.
  - intros Hw. rewrite (Hman Hw).
    repeat match goal with
           | |- context [if includes promptLower ?k then _ else _] =>
               destruct (includes promptLower k)
           end; simpl; tauto.
  - intros Hp. rewrite (Hreal Hp).
    repeat match goal with
           | |- context [if includes promptLower ?k then _ else _] =>
               destruct (includes promptLower k)
           end; simpl; tauto.
Qed.

Lemma shadowed_keywords_witness :
  In (detectSubject "a woman in a photorealistic city")
     ["lion"; "person"; "animal"; "character"; "figure"; "man"] /\
  In (detectStyle "a woman in a photorealistic city") ["cinematic"; "realistic"].
Proof.
  split.
  - apply (proj1 (proj2 (proj2 (shadowed_keywords "a woman in a photorealistic city")))).
    reflexivity.
  - apply (proj2 (proj2 (proj2 (shadowed_keywords "a woman in a photorealistic city")))).
    reflexivity.
Defined.

End CleaningProperties.

(** ** What the generation prompt always holds *)

Section PromptContents.

Import Js Prompt StringFacts.

Ltac find_in :=
  lazymatch goal with
  | |- includes ?n ?n = true => apply includes_refl
  | |- includes (?n +:+ _) ?n = true => apply includes_here
  | |- includes (?a +:+ ?b) ?n = true =>
      first [ apply includes_append_l; find_in | apply includes_append_r; find_in ]
  | |- includes ?a ?n = true => vm_compute; reflexivity
  end.

Lemma unknown_ratio (targetRatio : string) :
  ~ In targetRatio ["1:1"; "9:16"; "16:9"; "3:4"; "4:3"] ->
  String.eqb targetRatio "1:1" = false /\ String.eqb targetRatio "9:16" = false /\
  String.eqb targetRatio "16:9" = false /\ String.eqb targetRatio "3:4" = false /\
  String.eqb targetRatio "4:3" = false.
Proof.
  intros H. repeat split; apply String.eqb_neq; intros ->; apply H; simpl; tauto.
Qed.

(** X4. Whatever the scene text and the ratio, the synthesized prompt
    holds the scene text verbatim, the ratio, the size instruction of
    the ratio and the rules against frames; for a ratio outside the
    five known ones the size instruction is the generic one and the
    guidance block is the one-line adaptation request. *)
Theorem generation_prompt_contents (originalPrompt targetRatio : string) :
  let output := createAdvancedResizePrompt originalPrompt targetRatio in
  includes output originalPrompt = true /\
  includes output targetRatio = true /\
  includes output (sizeInstructionsFor targetRatio) = true /\
  includes output "ABSOLUTELY NO FRAMES, NO BORDERS, NO BEZELS." = true /\
  includes output "The image must be FULL BLEED (extending to edges)." = true /\
  (~ In targetRatio ["1:1"; "9:16"; "16:9"; "3:4"; "4:3"] ->
     sizeInstructionsFor targetRatio = "the requested aspect ratio" /\
     includes output ("Adapt composition for " +:+ targetRatio +:+ " aspect ratio") = true).
Proof.
  unfold createAdvancedResizePrompt, consistencyCommandsFor. cbv zeta.
  repeat split; try find_in.
  - destruct (unknown_ratio _ H) as (H1 & H2 & H3 & H4 & H5).
    unfold sizeInstructionsFor. rewrite H1, H2, H3, H4, H5. reflexivity.
  - destruct (unknown_ratio _ H) as (H1 & H2 & H3 & H4 & H5).
    unfold ratioInstructionsFor. rewrite H1, H2, H3, H4, H5. find_in.
Qed.

Lemma generation_prompt_contents_witness :
  sizeInstructionsFor "21:9" = "the requested aspect ratio" /\
  includes (createAdvancedResizePrompt "a red car" "21:9")
    "Adapt composition for 21:9 aspect ratio" = true.
Proof.
  apply (proj2 (proj2 (proj2 (proj2 (proj2
           (generation_prompt_contents "a red car" "21:9")))))).
  simpl. intros H.
  repeat (destruct H as [H|H]; [ discriminate | ]). contradiction.
Defined.

End PromptContents.

(** ** Errors and backend calls of the service *)

Module AsyncMoreFacts.

Import GenAI SpecMore.

Lemma throwsOnly_ret {A} (a : A) (P : JsError -> Prop) : throwsOnly (ret a) P.
Proof. intros log e log' H. unfold ret in H. discriminate. Qed.

Lemma throwsOnly_throw {A} (e : JsError) (P : JsError -> Prop) :
  P e -> throwsOnly (@throw A e) P.
Proof. intros HP log e' log' H. unfold throw in H. congruence. Qed.

Lemma throwsOnly_bind {A B} (c : Async A) (k : A -> Async B) (P : JsError -> Prop) :
  throwsOnly c P -> (forall a, throwsOnly (k a) P) -> throwsOnly (bind c k) P.
Proof.
  intros Hc Hk log e log' H. unfold bind in H.
  destruct (c log) as [[a|e0] log1] eqn:E.
  - exact (Hk a log1 e log' H).
  - inversion H; subst. exact (Hc log e log' E).
Qed.

Lemma throwsOnly_tryCatch {A} (body : Async A) (handler : JsError -> Async A)
    (P : JsError -> Prop) :
  (forall e, throwsOnly (handler e) P) -> throwsOnly (tryCatch body handler) P.
Proof.
  intros Hh log e log' H. unfold tryCatch in H.
  destruct (body log) as [[a|e0] log1]; [ discriminate | exact (Hh e0 log1 e log' H) ].
Qed.

Lemma callsWithin_ret {A} (a : A) (n : nat) (Q : Call -> Prop) : callsWithin (ret a) n Q.
Proof. intros log. exists []. rewrite app_nil_r. repeat split; [ simpl; lia | constructor ]. Qed.

Lemma callsWithin_throw {A} (e : JsError) (n : nat) (Q : Call -> Prop) :
  callsWithin (@throw A e) n Q.
Proof. intros log. exists []. rewrite app_nil_r. repeat split; [ simpl; lia | constructor ]. Qed.

Lemma callsWithin_await (ai : Backend) (request : GenerateContentParameters)
    (n : nat) (Q : Call -> Prop) :
  1 <= n -> Q (CallGenerateContent request) ->
  callsWithin (awaitGenerateContent ai request) n Q.
Proof.
  intros Hn HQ log. exists [CallGenerateContent request].
  repeat split; [ simpl; lia | repeat constructor; exact HQ ].
Qed.

Lemma callsWithin_bind {A B} (c : Async A) (k : A -> Async B) (n1 n2 n : nat)
    (Q : Call -> Prop) :
  callsWithin c n1 Q -> (forall a, callsWithin (k a) n2 Q) -> n1 + n2 <= n ->
  callsWithin (bind c k) n Q.
Proof.
  intros Hc Hk Hn log. unfold bind.
  destruct (Hc log) as (calls1 & E1 & L1 & F1).
  destruct (c log) as [[a|e] log1]; simpl in E1; subst log1.
  - destruct (Hk a (log ++ calls1)) as (calls2 & E2 & L2 & F2).
    exists (calls1 ++ calls2). rewrite E2, app_assoc.
    repeat split; [ rewrite length_app; lia | apply Forall_app; auto ].
  - exists calls1. repeat split; [ lia | exact F1 ].
Qed.

Lemma callsWithin_tryCatch {A} (body : Async A) (handler : JsError -> Async A)
    (n : nat) (Q : Call -> Prop) :
  callsWithin body n Q -> (forall e, callsWithin (handler e) 0 Q) ->
  callsWithin (tryCatch body handler) n Q.
Proof.
  intros Hb Hh log. unfold tryCatch.
  destruct (Hb log) as (calls1 & E1 & L1 & F1).
  destruct (body log) as [[a|e] log1]; simpl in E1; subst log1.
  - exists calls1. auto.
  - destruct (Hh e (log ++ calls1)) as (calls2 & E2 & L2 & F2).
    destruct calls2; [ | simpl in L2; lia ].
    rewrite app_nil_r in E2. exists calls1. auto.
Qed.

End AsyncMoreFacts.

Section ServiceProperties.

Import Js Prompt GenAI Service Dispatch Spec SpecMore AsyncFacts AsyncMoreFacts StringFacts.

Local Arguments toolSelectionRequest : simpl never.
Local Arguments turnContents : simpl never.
Local Arguments editPrompt : simpl never.
Local Arguments referencePrompt : simpl never.
Local Arguments resizePrompt : simpl never.
Local Arguments deferredText : simpl never.
Local Arguments flashImageRequest : simpl never.
Local Arguments findLastImage : simpl never.

Ltac throws_step :=
  first
    [ apply throwsOnly_ret
    | apply throwsOnly_throw; first [ reflexivity | assumption ]
    | apply throwsOnly_bind; [ | intros ]
    | apply throwsOnly_tryCatch; intros
    | match goal with
      | |- throwsOnly (if ?b then _ else _) _ => destruct b eqn:?
      | |- throwsOnly (match ?x with _ => _ end) _ => destruct x
      | |- throwsOnly (let _ := _ in _) _ => cbv zeta
      end ].

Lemma executeSearch_throws (ai : Backend) query :
  throwsOnly (executeSearch ai query) nonQuota.
Proof. unfold executeSearch, nonQuota. repeat throws_step. Qed.

Lemma executeComplexQuery_throws (ai : Backend) query :
  throwsOnly (executeComplexQuery ai query) nonQuota.
Proof. unfold executeComplexQuery, nonQuota. repeat throws_step. Qed.

Lemma executeEditImage_throws (ai : Backend) p img :
  throwsOnly (executeEditImage ai p img) nonQuota.
Proof. unfold executeEditImage, nonQuota. repeat throws_step. Qed.

Lemma generateFromReference_throws (ai : Backend) p imgs :
  throwsOnly (generateFromReference ai p imgs) nonQuota.
Proof. unfold generateFromReference, nonQuota. repeat throws_step. Qed.

Lemma resizeImage_throws (ai : Backend) img ratio op :
  throwsOnly (resizeImage ai img ratio op) nonQuota.
Proof. unfold resizeImage, nonQuota. repeat throws_step. Qed.

Lemma dispatchTool_throws (ai : Backend) text images history tool :
  throwsOnly (dispatchTool ai text images history tool) nonQuota.
Proof.
  unfold dispatchTool, readArg.
  repeat first
    [ apply executeSearch_throws | apply executeComplexQuery_throws
    | apply executeEditImage_throws | apply generateFromReference_throws
    | apply resizeImage_throws
    | progress unfold nonQuota
    | throws_step ].
Qed.

(** X5. The failure of a tool is reported with the generic text.  Once
    the tool-selection call has answered with a tool, no error the
    handler of the tool throws is classified as a quota error, not
    even the usage-limit errors the handlers raise themselves: the
    reply is the generic text quoting the message of the error, and
    nothing else.  A handler that returns has its result passed on. *)
Theorem tool_failure_reported_generic (ai : Backend) (text : string)
    (images : list Image) (history : list Content) (log : list Call) (tool : FunctionCall) :
  selectsTool ai text images history log tool ->
  let log1 := log ++ [CallGenerateContent (selectionRequest text images history)] in
  match dispatchTool ai text images history tool log1 with
  | (Returned r, log') =>
      sendMessage ai text images history log = (Returned r, log')
  | (Thrown e, log') =>
      isQuotaError e = false /\
      sendMessage ai text images history log =
        (Returned (mkSendResult (Some ("An error occurred: " +:+ interpolate (message e)))
                     None None None None None None),
         log')
  end.
Proof.
  intros (resp & rest & Hcall & Hfc) log1. unfold sendMessage, tryCatch.
  unfold sendMessageTry, bind, awaitGenerateContent.
  unfold selectionRequest in Hcall. rewrite Hcall, Hfc.
  fold (selectionRequest text images history). fold log1.
  destruct (dispatchTool ai text images history tool log1) as [[r|e] log'] eqn:Etool;
    [ reflexivity | ].
  assert (Hq : isQuotaError e = false)
    by exact (dispatchTool_throws ai text images history tool _ _ _ Etool).
  split; [ exact Hq | ].
  unfold sendMessageCatch. rewrite Hq. reflexivity.
Qed.

(** The backend refuses the edit for lack of quota: the reply is the
    generic text with the usage-limit message of the edit tool. *)
Lemma tool_failure_reported_generic_witness :
  let ai := Examples.selecting "editImage" (Examples.promptArgs "make it red")
              (Thrown Examples.quotaError) in
  isQuotaError Examples.quotaError = true /\
  fst (sendMessage ai "make it red" [Examples.pngABC] [] []) =
    Returned (mkSendResult
                (Some "An error occurred: Usage limit exceeded for image editing. Please try again later.")
                None None None None None None).
Proof.
  intros ai. split; [ reflexivity | ].
  pose proof (tool_failure_reported_generic ai "make it red" [Examples.pngABC] [] []
                (mkFunctionCall (Some "editImage") (Some (Examples.promptArgs "make it red")))
                (ex_intro _ _ (ex_intro _ [] (conj eq_refl eq_refl)))) as H.
  vm_compute in H. destruct H as [_ H]. vm_compute. vm_compute in H.
  inversion H. reflexivity.
Defined.

Ltac calls_step :=
  first
    [ apply callsWithin_ret
    | apply callsWithin_throw
    | apply callsWithin_await; [ lia | exact I ]
    | match goal with
      | |- callsWithin (if ?b then _ else _) _ _ => destruct b
      | |- callsWithin (match ?x with _ => _ end) _ _ => destruct x
      | |- callsWithin (let _ := _ in _) _ _ => cbv zeta
      end ].

Lemma tool_call_once {A} (ai : Backend) (request : GenerateContentParameters)
    (k : GenerateContentResponse -> Async A) (handler : JsError -> Async A) :
  (forall r, callsWithin (k r) 0 isContentCall) ->
  (forall e, callsWithin (handler e) 0 isContentCall) ->
  callsWithin (tryCatch (bind (awaitGenerateContent ai request) k) handler) 1 isContentCall.
Proof.
  intros Hk Hh. apply callsWithin_tryCatch; [ | exact Hh ].
  apply (callsWithin_bind _ _ 1 0); [ apply callsWithin_await; [ lia | exact I ] | exact Hk | lia ].
Qed.

Lemma executeSearch_calls (ai : Backend) query :
  callsWithin (executeSearch ai query) 1 isContentCall.
Proof.
  unfold executeSearch. apply tool_call_once; intros; repeat calls_step.
Qed.

Lemma executeComplexQuery_calls (ai : Backend) query :
  callsWithin (executeComplexQuery ai query) 1 isContentCall.
Proof.
  unfold executeComplexQuery. apply tool_call_once; intros; repeat calls_step.
Qed.

Lemma executeEditImage_calls (ai : Backend) p img :
  callsWithin (executeEditImage ai p img) 1 isContentCall.
Proof.
  unfold executeEditImage. cbv zeta.
  apply tool_call_once; intros; repeat calls_step.
Qed.

Lemma generateFromReference_calls (ai : Backend) p imgs :
  callsWithin (generateFromReference ai p imgs) 1 isContentCall.
Proof.
  unfold generateFromReference. destruct imgs; [ apply callsWithin_throw | ]. cbv zeta.
  apply tool_call_once; intros; repeat calls_step.
Qed.

Lemma resizeImage_calls (ai : Backend) img ratio op :
  callsWithin (resizeImage ai img ratio op) 1 isContentCall.
Proof.
  unfold resizeImage. cbv zeta.
  apply tool_call_once; intros; repeat calls_step.
Qed.

Lemma bind_pure_calls {A B} (c : Async A) (k : A -> Async B) :
  callsWithin c 1 isContentCall ->
  (forall a, callsWithin (k a) 0 isContentCall) ->
  callsWithin (bind c k) 1 isContentCall.
Proof. intros Hc Hk. apply (callsWithin_bind _ _ 1 0); auto. Qed.

Lemma bind_arg_calls {A B} (c : Async A) (k : A -> Async B) :
  callsWithin c 0 isContentCall ->
  (forall a, callsWithin (k a) 1 isContentCall) ->
  callsWithin (bind c k) 1 isContentCall.
Proof. intros Hc Hk. apply (callsWithin_bind _ _ 0 1); auto. Qed.

Lemma readArg_calls toolArgs key : callsWithin (readArg toolArgs key) 0 isContentCall.
Proof. unfold readArg. destruct toolArgs; [ apply callsWithin_ret | apply callsWithin_throw ]. Qed.

Lemma dispatchTool_calls (ai : Backend) text images history tool :
  callsWithin (dispatchTool ai text images history tool) 1 isContentCall.
Proof.
  unfold dispatchTool.
  repeat first
    [ apply bind_arg_calls; [ apply readArg_calls | intros ]
    | apply bind_pure_calls;
        [ first [ apply executeSearch_calls | apply executeComplexQuery_calls
                | apply executeEditImage_calls | apply generateFromReference_calls
                | apply resizeImage_calls ]
        | intros; apply callsWithin_ret ]
    | calls_step ].
Qed.

(** X6. A chat turn calls the backend at most twice: first the
    tool-selection call, then at most one call of a tool handler.  No
    call goes to the image-only backend, and nothing follows a failed
    selection or a reply without a function call. *)
Theorem at_most_two_calls (ai : Backend) (text : string) (images : list Image)
    (history : list Content) (log : list Call) :
  let request := selectionRequest text images history in
  exists rest,
    snd (sendMessage ai text images history log) = log ++ CallGenerateContent request :: rest /\
    List.length rest <= 1 /\
    Forall isContentCall rest /\
    match generateContent ai log request with
    | Thrown _ => rest = []
    | Returned resp =>
        match functionCalls resp with
        | Some (_ :: _) => True
        | _ => rest = []
        end
    end.
Proof.
  intros request. rewrite sendMessage_log.
  unfold sendMessageTry, bind, awaitGenerateContent. fold (selectionRequest text images history).
  fold request.
  destruct (generateContent ai log request) as [resp|e].
  - destruct (functionCalls resp) as [[|tool rest0]|].
    + exists []. repeat split; [ simpl; lia | constructor ].
    + destruct (dispatchTool_calls ai text images history tool
                  (log ++ [CallGenerateContent request])) as (calls & E & L & F).
      exists calls. rewrite E, <- app_assoc. auto.
    + exists []. repeat split; [ simpl; lia | constructor ].
  - exists []. repeat split; [ simpl; lia | constructor ].
Qed.

End ServiceProperties.

(** ** Outcomes of the tool implementations *)

Section ToolOutcomes.

Import Js Prompt GenAI Service Dispatch Spec SpecMore AsyncFacts AsyncMoreFacts StringFacts.

Local Arguments toolSelectionRequest : simpl never.
Local Arguments turnContents : simpl never.
Local Arguments editPrompt : simpl never.
Local Arguments referencePrompt : simpl never.
Local Arguments resizePrompt : simpl never.
Local Arguments flashImageRequest : simpl never.
Local Arguments findLastImage : simpl never.
Local Arguments createAdvancedResizePrompt : simpl never.
Local Arguments cleanPromptForResize : simpl never.
Local Arguments executeSearch : simpl never.
Local Arguments executeComplexQuery : simpl never.

Lemma orElse_self (m : string) : orElse (Some m) EmptyString = m.
Proof. destruct m; reflexivity. Qed.

Lemma isQuotaError_Error (m : string) : isQuotaError (Error m) = mentionsQuota m.
Proof.
  unfold isQuotaError, Error. simpl message. simpl stringify. rewrite orElse_self.
  change (includes "{}" "429") with false.
  change (includes "{}" "RESOURCE_EXHAUSTED") with false.
  rewrite !orb_false_r. reflexivity.
Qed.

Lemma firstInlineDataUri_prefix (ps : list Part) (u : string) :
  firstInlineDataUri ps = Some u -> startsWith "data:" u = true.
Proof.
  induction ps as [|p ps IH]; simpl; [ discriminate | ].
  destruct p as [t|img|]; auto.
  intros H; inversion H; subst. reflexivity.
Qed.

Lemma resizeImage_run (ai : Backend) (img : Image) (ratio originalPrompt : option string)
    (log : list Call) :
  let request :=
    flashImageRequest
      [InlineDataPart img;
       TextPart (resizePrompt ratio (fst (resizeSwitch ratio)) (snd (resizeSwitch ratio)))] in
  resizeImage ai img ratio originalPrompt log =
    (match generateContent ai log request with
     | Returned resp =>
         match firstInlineDataUri (candidateParts resp) with
         | Some uri =>
             Returned (mkImageText uri
                         ("Here is your image, resized to " +:+ interpolate ratio +:+ "."))
         | None =>
             let refusal :=
               orElse (response_text resp) "The model failed to resize the image." in
             Thrown (if mentionsQuota refusal
                     then Error "Usage limit exceeded. Please try again later."
                     else Error refusal)
         end
     | Thrown e =>
         Thrown (if isQuotaError e
                 then Error "Usage limit exceeded. Please try again later."
                 else e)
     end, log ++ [CallGenerateContent request]).
Proof.
  intros request. unfold resizeImage, tryCatch, bind, awaitGenerateContent, ret, throw.
  cbv zeta. rewrite image_eta. fold request.
  destruct (generateContent ai log request) as [resp|e].
  - destruct (firstInlineDataUri (candidateParts resp)) as [u|] eqn:E.
    + destruct (firstInlineDataUri_nonempty _ _ E) as (c & s & ->). reflexivity.
    + rewrite isQuotaError_Error.
      destruct (mentionsQuota _); reflexivity.
  - destruct (isQuotaError e); reflexivity.
Qed.


Ltac throws_in :=
  first
    [ apply throwsOnly_ret
    | apply throwsOnly_throw; simpl; tauto
    | apply throwsOnly_bind; [ | intros ]
    | apply throwsOnly_tryCatch; intros
    | match goal with
      | |- throwsOnly (if ?b then _ else _) _ => destruct b
      | |- throwsOnly (match ?x with _ => _ end) _ => destruct x
      | |- throwsOnly (let _ := _ in _) _ => cbv zeta
      end ].

Lemma executeGenerateImage_throws (ai : Backend) prompt ratio :
  throwsOnly (executeGenerateImage ai prompt ratio)
    (fun e => In e [quotaExceededError; generationFailedError; noImageError]).
Proof.
  intros log e log' H. rewrite executeGenerateImage_run in H. cbv zeta in H.
  destruct (primaryImage _); [ discriminate | ].
  destruct (generateContent ai _ _) as [r|e2].
  - destruct (firstInlineDataUri _); inversion H; subst; simpl; tauto.
  - destruct (isQuotaError e2); inversion H; subst; simpl; tauto.
Qed.

Lemma executeGenerateImage_post (ai : Backend) prompt ratio :
  post (executeGenerateImage ai prompt ratio)
    (fun r => startsWith "data:" (Service.image r) = true).
Proof.
  intros log r log' H. rewrite executeGenerateImage_run in H. cbv zeta in H.
  destruct (primaryImage _) as [bytes|].
  - inversion H; subst. reflexivity.
  - destruct (generateContent ai _ _) as [r2|e2].
    + destruct (firstInlineDataUri _) as [u|] eqn:E; inversion H; subst.
      exact (firstInlineDataUri_prefix _ _ E).
    + discriminate.
Qed.

(** X8. The tool implementations other than [resizeImage] never let a
    backend error through: each throws only its own fixed errors.  The
    deferred generation returns only with a data URI and hands the
    prompt back unchanged. *)
Theorem tool_errors_masked (ai : Backend) (prompt aspectRatio query : string)
    (p : option string) (img : Image) (images : list Image) :
  throwsOnly (executePendingImageGeneration ai prompt aspectRatio)
    (fun e => In e [quotaExceededError; generationFailedError; noImageError]) /\
  post (executePendingImageGeneration ai prompt aspectRatio)
    (fun r => startsWith "data:" (itp_image r) = true /\ itp_prompt r = Some prompt) /\
  throwsOnly (executeEditImage ai p img)
    (fun e => In e [Error "Usage limit exceeded for image editing. Please try again later.";
                    Error "Failed to edit image."]) /\
  throwsOnly (generateFromReference ai p images)
    (fun e => In e [Error "No reference images provided.";
                    Error "Usage limit exceeded. Please try again later.";
                    Error "Failed to generate image from reference."]) /\
  throwsOnly (Service.executeSearch ai query)
    (fun e => e = Error "Failed to get information from Google Search.") /\
  throwsOnly (Service.executeComplexQuery ai query)
    (fun e => e = Error "Failed to process the complex query.").
Proof.
  split; [ | split; [ | split; [ | split; [ | split ] ] ] ].
  - unfold executePendingImageGeneration. apply throwsOnly_bind.
    + apply executeGenerateImage_throws.
    + intros r. apply throwsOnly_ret.
  - unfold executePendingImageGeneration. intros log r log' H.
    unfold bind in H.
    destruct (executeGenerateImage ai prompt aspectRatio log) as [[r0|e] log1] eqn:E;
      [ | discriminate ].
    unfold ret in H. inversion H; subst. split; [ | reflexivity ].
    exact (executeGenerateImage_post ai prompt aspectRatio log r0 _ E).
  - unfold executeEditImage. repeat throws_in.
  - unfold generateFromReference. repeat throws_in.
  - unfold Service.executeSearch. apply throwsOnly_tryCatch. intros e.
    apply throwsOnly_throw. reflexivity.
  - unfold Service.executeComplexQuery. apply throwsOnly_tryCatch. intros e.
    apply throwsOnly_throw. reflexivity.
Qed.

Lemma executeSearch_run (ai : Backend) (query : string) (log : list Call) :
  Service.executeSearch ai query log =
    (match generateContent ai log (searchRequest query) with
     | Returned result =>
         Returned (mkTextSources (orElse (response_text result) EmptyString)
                     (sourcesOf (groundingChunks result)))
     | Thrown _ => Thrown (Error "Failed to get information from Google Search.")
     end, log ++ [CallGenerateContent (searchRequest query)]).
Proof.
  unfold Service.executeSearch, tryCatch, bind, awaitGenerateContent, ret, throw.
  fold (searchRequest query).
  destruct (generateContent ai log (searchRequest query)); reflexivity.
Qed.

Lemma executeComplexQuery_run (ai : Backend) (query : string) (log : list Call) :
  Service.executeComplexQuery ai query log =
    (match generateContent ai log (complexRequest query) with
     | Returned result => Returned (mkTextResult (orElse (response_text result) EmptyString))
     | Thrown _ => Thrown (Error "Failed to process the complex query.")
     end, log ++ [CallGenerateContent (complexRequest query)]).
Proof.
  unfold Service.executeComplexQuery, tryCatch, bind, awaitGenerateContent, ret, throw.
  fold (complexRequest query).
  destruct (generateContent ai log (complexRequest query)); reflexivity.
Qed.

(** X9. The search and reasoning tools take their query from the tool
    arguments and fall back on the text of the turn when the argument
    is missing or empty; a failed backend call is answered with the
    fixed error text of the tool.  A tool call without an arguments
    object is answered with an error text and no further call. *)
Theorem query_tools_fallback (ai : Backend) (text : string) (images : list Image)
    (history : list Content) (log : list Call) (tool : FunctionCall) :
  selectsTool ai text images history log tool ->
  let log1 := log ++ [CallGenerateContent (selectionRequest text images history)] in
  let run := sendMessage ai text images history log in
  (forall a, fc_name tool = Some "searchTheWeb" -> fc_args tool = Some a ->
     let request := searchRequest (orElse (a !! "query") text) in
     snd run = log1 ++ [CallGenerateContent request] /\
     fst run =
       Returned
         match generateContent ai log1 request with
         | Returned result =>
             mkSendResult (Some (orElse (response_text result) EmptyString))
               (sourcesOf (groundingChunks result)) None None None None None
         | Thrown _ =>
             textOnly "An error occurred: Failed to get information from Google Search."
         end) /\
  (forall a, fc_name tool = Some "complexQuery" -> fc_args tool = Some a ->
     let request := complexRequest (orElse (a !! "query") text) in
     snd run = log1 ++ [CallGenerateContent request] /\
     fst run =
       Returned
         match generateContent ai log1 request with
         | Returned result => textOnly (orElse (response_text result) EmptyString)
         | Thrown _ => textOnly "An error occurred: Failed to process the complex query."
         end) /\
  (fc_args tool = None ->
     fc_name tool = Some "searchTheWeb" \/ fc_name tool = Some "complexQuery" ->
     run = (Returned (textOnly
                        "An error occurred: Cannot read properties of undefined (reading 'query')"),
            log1)).
Proof.
  intros Hsel log1 run. subst run. unfold sendMessage, tryCatch.
  rewrite (sendMessageTry_selected _ _ _ _ _ _ Hsel). fold log1.
  unfold dispatchTool. split; [ | split ].
  - intros a Hname Hargs. rewrite Hname, Hargs. simpl.
    rewrite bind_ret. unfold bind. rewrite executeSearch_run.
    destruct (generateContent ai log1 _); split; reflexivity.
  - intros a Hname Hargs. rewrite Hname, Hargs. simpl.
    rewrite bind_ret. unfold bind. rewrite executeComplexQuery_run.
    destruct (generateContent ai log1 _); split; reflexivity.
  - intros Hargs [Hname|Hname]; rewrite Hname, Hargs; reflexivity.
Qed.

Lemma query_tools_fallback_witness :
  fst (sendMessage (Examples.selecting "searchTheWeb" ∅ (Returned Examples.textResponse))
         "weather in Lahore" [] [] []) =
    Returned (mkSendResult (Some "Sorry, I cannot do that.") None None None None None None) /\
  imagesOfCall (CallGenerateContent (searchRequest "weather in Lahore")) = [].
Proof.
  split; [ | reflexivity ].
  exact (proj2 (proj1 (query_tools_fallback
           (Examples.selecting "searchTheWeb" ∅ (Returned Examples.textResponse))
           "weather in Lahore" [] [] []
           (mkFunctionCall (Some "searchTheWeb") (Some ∅))
           (ex_intro _ _ (ex_intro _ [] (conj eq_refl eq_refl))))
           ∅ eq_refl eq_refl)).
Defined.

(** X10. [findLastImage] answers [null] exactly when neither the turn nor
    the history holds an image; what it answers is one of those
    images; and with an image attached to the turn the history is not
    looked at. *)
Theorem findLastImage_total_lookup (history : list Content) (images : list Image) :
  (findLastImage history (Some images) = None <->
     images = [] /\ historyImages history = []) /\
  (forall img, findLastImage history (Some images) = Some img ->
     In img images \/ In img (historyImages history)) /\
  (images <> [] ->
     forall history', findLastImage history' (Some images) = findLastImage history (Some images)).
Proof.
  rewrite findLastImage_current. split; [ split | split ].
  - destruct images as [|i0 rest]; intros H.
    + split; [ reflexivity | apply last_None, H ].
    + apply last_None in H. discriminate.
  - intros [-> Hh]. rewrite Hh. reflexivity.
  - intros img H. destruct images as [|i0 rest].
    + right. apply list_elem_of_In, last_Some_elem_of, H.
    + left. apply list_elem_of_In, last_Some_elem_of, H.
  - intros Hne history'. rewrite findLastImage_current.
    destruct images; [ contradiction | reflexivity ].
Qed.

Lemma findLastImage_total_lookup_witness :
  findLastImage [mkContent (Some "user") [InlineDataPart Examples.jpgXYZ]]
    (Some [Examples.pngABC]) =
  findLastImage [] (Some [Examples.pngABC]).
Proof.
  apply (proj2 (proj2 (findLastImage_total_lookup [] [Examples.pngABC]))).
  discriminate.
Defined.

End ToolOutcomes.

(** ** The chat handler and the history it sends *)

Section HandlerProperties.

Import Js GenAI Service Dispatch Spec SpecMore App AsyncFacts AsyncMoreFacts StringFacts.

Local Arguments toolSelectionRequest : simpl never.
Local Arguments turnContents : simpl never.
Local Arguments trim : simpl never.
Local Arguments sendMessage : simpl never.

Lemma sendMessage_first_call (ai : Backend) text images history log :
  exists rest,
    snd (sendMessage ai text images history log) =
    log ++ CallGenerateContent (selectionRequest text images history) :: rest.
Proof.
  rewrite sendMessage_log.
  unfold sendMessageTry, bind, awaitGenerateContent.
  fold (selectionRequest text images history).
  destruct (generateContent ai log _) as [resp|e]; [ | exists []; reflexivity ].
  destruct (functionCalls resp) as [[|tool rest0]|]; try (exists []; reflexivity).
  destruct (dispatchTool_calls ai text images history tool
              (log ++ [CallGenerateContent (selectionRequest text images history)]))
    as (calls & E & _ & _).
  exists calls. rewrite E, <- app_assoc. reflexivity.
Qed.

Lemma guard_blank (s : string) :
  negb (truthy (Some (trim s))) = true <-> Blank s.
Proof.
  split.
  - intros H. apply trim_Blank. destruct (trim s); [ reflexivity | discriminate ].
  - intros H. rewrite (Blank_trim s H). reflexivity.
Qed.

(** X11. The chat handler returns a state and never writes the
    consistency memory or the resize task.  While the handler is busy,
    or when the text is blank (white space only, the no-break space
    and the other white space beyond ASCII included) and nothing is
    uploaded, the turn changes nothing and calls nothing.  Any other
    turn is sent: it starts with the tool-selection call over the face
    references followed by the uploads, clears the input and the
    uploads, keeps the face references or empties them, and leaves the
    handler busy only while a resize task is open. *)
Theorem handleSendMessage_invariants (ai : Backend) (textOverride : option string)
    (historyForAPI : list Content) (st : AppState) (log : list Call) :
  let currentInput := match textOverride with Some t => t | None => input st end in
  let imagesToSend := faceReferences st ++ uploadedImages st in
  exists st' log',
    handleSendMessage ai textOverride historyForAPI st log = (Returned st', log') /\
    consistencyAI st' = consistencyAI st /\
    resizeTask st' = resizeTask st /\
    (faceReferences st' = faceReferences st \/ faceReferences st' = []) /\
    (isProcessing st = true \/ (Blank currentInput /\ uploadedImages st = []) ->
       st' = st /\ log' = log) /\
    (isProcessing st = false ->
     ~ Blank currentInput \/ uploadedImages st <> [] ->
       uploadedImages st' = [] /\
       input st' = EmptyString /\
       (isProcessing st' = false \/ resizeTask st = true) /\
       exists rest,
         log' = log ++ CallGenerateContent
                         (selectionRequest currentInput imagesToSend historyForAPI) :: rest).
Proof.
  intros currentInput imagesToSend.
  unfold handleSendMessage. fold currentInput.
  destruct (isProcessing st
            || negb (truthy (Some (trim currentInput)))
               && (List.length (uploadedImages st) =? 0)) eqn:Hguard.
  - exists st, log. unfold ret.
    split; [ reflexivity | ]. split; [ reflexivity | ]. split; [ reflexivity | ].
    split; [ left; reflexivity | ]. split; [ intros _; split; reflexivity | ].
    intros Hproc Hsent. exfalso. rewrite Hproc in Hguard. simpl in Hguard.
    apply andb_true_iff in Hguard. destruct Hguard as [Hb Hu].
    apply guard_blank in Hb. apply Nat.eqb_eq in Hu.
    destruct Hsent as [Hn|Hn]; [ exact (Hn Hb) | ].
    destruct (uploadedImages st); [ exact (Hn eq_refl) | discriminate ].
  - apply orb_false_iff in Hguard. destruct Hguard as [Hproc Hguard].
    cbv zeta. simpl faceReferences. simpl uploadedImages. fold imagesToSend.
    unfold bind, tryCatch.
    destruct (sendMessage_total ai currentInput imagesToSend historyForAPI log)
      as (r & log' & Hrun).
    destruct (sendMessage_first_call ai currentInput imagesToSend historyForAPI log)
      as (rest & Hlog).
    rewrite Hrun in Hlog. simpl in Hlog. subst log'.
    rewrite Hrun. simpl.
    unfold ret, handleSendMessageFinally.
    assert (Hblocked : isProcessing st = true \/ (Blank currentInput /\ uploadedImages st = [])
                       -> False).
    { intros [H|[Hb Hu]]; [ congruence | ].
      apply guard_blank in Hb. rewrite Hb, Hu in Hguard. discriminate. }
    destruct (isTrue (resetMemory r));
      destruct (isTrue (needsAspectRatio r) && truthy (pendingPrompt r));
      destruct (resizeTask st) eqn:Et; simpl; rewrite ?Et; simpl;
      eexists _, _; (split; [ reflexivity | ]); simpl;
      (split; [ reflexivity | ]); (split; [ auto | ]); (split; [ auto | ]);
      (split; [ intros H; destruct (Hblocked H) | ]);
      intros _ _; eauto 10.
Qed.

(** A text of a no-break space and a tabulator, with nothing uploaded,
    is not sent. *)
Lemma handleSendMessage_invariants_witness :
  let st := mkAppState (bytes [194; 160; 9]) false [] [Examples.pngABC] false Consistency.new in
  handleSendMessage Examples.textOnlyBackend None [] st [] = (Returned st, []).
Proof.
  intros st.
  destruct (handleSendMessage_invariants Examples.textOnlyBackend None [] st [])
    as (st' & log' & Hrun & _ & _ & _ & Hblocked & _).
  destruct Hblocked as [-> ->]; [ | exact Hrun ].
  right. split; [ | reflexivity ].
  apply (Blank_cons (bytes [194; 160]) (bytes [9]));
    [ do 6 right; left; reflexivity | ].
  apply (Blank_cons (bytes [9]) EmptyString); [ left; reflexivity | constructor ].
Defined.

End HandlerProperties.

Section ChatProperties.

Import Js GenAI Service Spec SpecMore Chat StringFacts.

Lemma lacksChar_append (c : ascii) (a b : string) :
  lacksChar c (a +:+ b) = lacksChar c a && lacksChar c b.
Proof.
  induction a as [|x a IH]; [ reflexivity | ].
  rewrite append_cons. simpl. rewrite IH. apply andb_assoc.
Qed.

Lemma splitComma_plain (s : string) :
  lacksChar ","%char s = true -> splitComma s = [s].
Proof.
  induction s as [|x s IH]; intros H; [ reflexivity | ].
  simpl in H. apply andb_true_iff in H. destruct H as [Hx Hs].
  simpl. apply negb_true_iff in Hx. rewrite Hx, (IH Hs). reflexivity.
Qed.

Lemma splitComma_nonempty (s : string) : splitComma s <> [].
Proof.
  destruct s as [|x s]; simpl; [ discriminate | ].
  destruct (Ascii.eqb x ","); [ discriminate | ].
  destruct (splitComma s); discriminate.
Qed.

Lemma splitComma_append (h rest : string) :
  lacksChar ","%char h = true ->
  splitComma (h +:+ "," +:+ rest) = h :: splitComma rest.
Proof.
  induction h as [|x h IH]; intros H; [ reflexivity | ].
  simpl in H. apply andb_true_iff in H. destruct H as [Hx Hh].
  rewrite append_cons. simpl. apply negb_true_iff in Hx. rewrite Hx, (IH Hh). reflexivity.
Qed.

Lemma untilSemicolon_append (m rest : string) :
  lacksChar ";"%char m = true -> lacksLineTerminator m = true ->
  untilSemicolon (m +:+ ";" +:+ rest) = Some m.
Proof.
  unfold lacksLineTerminator.
  induction m as [|x m IH]; intros H1 H2; [ reflexivity | ].
  simpl in H1, H2.
  apply andb_true_iff in H1. destruct H1 as [Hx Hm].
  apply andb_true_iff in H2. destruct H2 as [Ha Hb].
  apply andb_true_iff in Ha. destruct Ha as [Hlf Hlf'].
  apply andb_true_iff in Hb. destruct Hb as [Hcr Hcr'].
  rewrite append_cons. simpl.
  apply negb_true_iff in Hx. rewrite Hx.
  assert (Hlt : isLineTerminator x = false).
  { unfold isLineTerminator. apply orb_false_iff. split.
    - apply negb_true_iff in Hlf. apply Nat.eqb_neq. intros E.
      assert (Hx' : x = ascii_of_nat 10)
        by (rewrite <- (ascii_nat_embedding x); rewrite E; reflexivity).
      rewrite Hx' in Hlf. vm_compute in Hlf. discriminate.
    - apply negb_true_iff in Hcr. apply Nat.eqb_neq. intros E.
      assert (Hx' : x = ascii_of_nat 13)
        by (rewrite <- (ascii_nat_embedding x); rewrite E; reflexivity).
      rewrite Hx' in Hcr. vm_compute in Hcr. discriminate. }
  rewrite Hlt, IH; [ reflexivity | exact Hm | ].
  rewrite Hlf', Hcr'. reflexivity.
Qed.

Lemma parseDataUrl_dataUrl (img : Image) :
  readableImage img = true -> parseDataUrl (dataUrl img) = Some img.
Proof.
  unfold readableImage. intros H.
  repeat (apply andb_true_iff in H; destruct H as [H ?]).
  destruct img as [d m]. simpl in *.
  unfold dataUrl, parseDataUrl. simpl data. simpl mimeType.
  assert (Hurl : "data:" +:+ m +:+ ";base64," +:+ d =
                 ("data:" +:+ m +:+ ";base64") +:+ "," +:+ d).
  { rewrite !append_assoc. reflexivity. }
  assert (Hheader : lacksChar ","%char ("data:" +:+ m +:+ ";base64") = true).
  { rewrite !lacksChar_append. rewrite H2. reflexivity. }
  rewrite Hurl, (splitComma_append _ _ Hheader), (splitComma_plain _ H4).
  cbv zeta. simpl lookup.
  destruct d as [|c s]; [ discriminate | ].
  assert (Hmime : matchMimeType ("data:" +:+ m +:+ ";base64") = Some m).
  { change ("data:" +:+ m +:+ ";base64") with
      (String "d" (String "a" (String "t" (String "a" (String ":" (m +:+ ";" +:+ "base64")))))).
    simpl. rewrite (untilSemicolon_append m "base64" H1 H0). reflexivity. }
  rewrite Hmime. destruct m as [|c' s']; [ discriminate | reflexivity ].
Qed.

Lemma omap_cons_eq {A B} (f : A -> option B) (x : A) (l : list A) :
  omap f (x :: l) = match f x with Some y => y :: omap f l | None => omap f l end.
Proof. reflexivity. Qed.

Lemma parse_uploaded (uploaded : list Image) :
  Forall (fun img => readableImage img = true) uploaded ->
  omap parseDataUrl (map dataUrl uploaded) = uploaded.
Proof.
  induction 1 as [|img rest Himg _ IH]; [ reflexivity | ].
  change (map dataUrl (img :: rest)) with (dataUrl img :: map dataUrl rest).
  rewrite omap_cons_eq, (parseDataUrl_dataUrl img Himg), IH. reflexivity.
Qed.

(** X12. Images written as data URLs are read back as they were, provided
    the base64 data of each is not empty and has no comma and its MIME
    type is not empty and has no comma, semicolon or line terminator.
    A string without a comma is not an image at all and is skipped. *)
Theorem dataUrl_round_trip (uploaded : list Image) (url : string) :
  (Forall (fun img => readableImage img = true) uploaded ->
     omap parseDataUrl (map dataUrl uploaded) = uploaded) /\
  (lacksChar ","%char url = true -> parseDataUrl url = None).
Proof.
  split; [ apply parse_uploaded | ].
  intros H. unfold parseDataUrl. rewrite (splitComma_plain _ H). reflexivity.
Qed.

Lemma dataUrl_round_trip_witness :
  omap parseDataUrl (map dataUrl [Examples.pngABC; Examples.jpgXYZ]) =
    [Examples.pngABC; Examples.jpgXYZ] /\
  parseDataUrl "not a data url" = None.
Proof.
  split.
  - apply (proj1 (dataUrl_round_trip [Examples.pngABC; Examples.jpgXYZ] EmptyString)).
    repeat constructor.
  - apply (proj2 (dataUrl_round_trip [] "not a data url")). reflexivity.
Defined.

Lemma historyForAPI_app (before after : list ChatMessage) :
  historyForAPI (before ++ after) = historyForAPI before ++ historyForAPI after.
Proof. unfold historyForAPI. rewrite List.filter_app, flat_map_app. reflexivity. Qed.

Lemma contentOfMessage_shape (msg : ChatMessage) :
  Forall (fun c => parts c <> [] /\ (role c = Some "user" \/ role c = Some "model"))
         (contentOfMessage msg).
Proof.
  unfold contentOfMessage. cbv zeta.
  destruct (_ ++ _) as [|p ps] eqn:E; constructor; [ | constructor ].
  simpl. split; [ discriminate | destruct (sender msg); auto ].
Qed.



Lemma omap_inline (l : list Image) : omap inlineDataOf (map InlineDataPart l) = l.
Proof.
  induction l as [|x l IH]; [ reflexivity | ].
  change (map InlineDataPart (x :: l)) with (InlineDataPart x :: map InlineDataPart l).
  rewrite omap_cons_eq, IH. reflexivity.
Qed.

Lemma historyImages_snoc (history : list Content) (c : Content) :
  historyImages (history ++ [c]) = historyImages history ++ omap inlineDataOf (parts c).
Proof.
  unfold historyImages. rewrite map_app, concat_app, omap_app. simpl.
  rewrite app_nil_r. reflexivity.
Qed.

(** X14. The images uploaded with a user turn come back from the
    history: in a later turn without attachment, as long as no later
    message carries an image, the most recent image found is the last
    of the uploads, byte for byte. *)
Theorem uploaded_image_found_again (earlier later : list ChatMessage)
    (userMessageId currentInput : string) (uploaded : list Image) :
  userMessageId <> "init" ->
  uploaded <> [] ->
  Forall (fun img => readableImage img = true) uploaded ->
  historyImages (historyForAPI later) = [] ->
  let messages := earlier ++ userMessage userMessageId currentInput uploaded :: later in
  historyForAPI messages =
    historyForAPI earlier ++
    [mkContent (Some "user")
       ((if truthy (Some currentInput) then [TextPart currentInput] else []) ++
        map InlineDataPart uploaded)] ++
    historyForAPI later /\
  findLastImage (historyForAPI messages) None = last uploaded /\
  findLastImage (historyForAPI messages) (Some []) = last uploaded.
Proof.
  intros Hid Hne Hread Hlater messages.
  assert (Hhist : historyForAPI messages =
    historyForAPI earlier ++
    [mkContent (Some "user")
       ((if truthy (Some currentInput) then [TextPart currentInput] else []) ++
        map InlineDataPart uploaded)] ++
    historyForAPI later).
  { subst messages. rewrite historyForAPI_app. f_equal.
    change (userMessage userMessageId currentInput uploaded :: later)
      with ([userMessage userMessageId currentInput uploaded] ++ later).
    rewrite historyForAPI_app. f_equal.
    unfold historyForAPI, userMessage, keepForHistory. simpl.
    apply String.eqb_neq in Hid. rewrite Hid. simpl.
    unfold contentOfMessage. simpl. rewrite (parse_uploaded _ Hread).
    destruct uploaded as [|i0 rest]; [ contradiction | ].
    destruct currentInput; reflexivity. }
  assert (Hlast : findLastImage (historyForAPI messages) None = last uploaded).
  { rewrite findLastImage_history, Hhist, app_assoc.
    unfold historyImages in *. rewrite map_app, concat_app, omap_app, Hlater, app_nil_r.
    fold (historyImages (historyForAPI earlier ++
            [mkContent (Some "user")
               ((if truthy (Some currentInput) then [TextPart currentInput] else []) ++
                map InlineDataPart uploaded)])).
    rewrite historyImages_snoc. simpl parts.
    rewrite omap_app, omap_inline, !last_app.
    destruct (last uploaded) eqn:E; [ reflexivity | ].
    apply last_None in E. contradiction. }
  split; [ exact Hhist | split; [ exact Hlast | ] ].
  rewrite findLastImage_current. rewrite <- findLastImage_history. exact Hlast.
Qed.

Lemma uploaded_image_found_again_witness :
  findLastImage
    (historyForAPI
       ([] ++ userMessage "1700000000000" "make it red" [Examples.pngABC; Examples.jpgXYZ]
           :: [mkChatMessage "1700000000001" Bot "Which colour?" None None None None None None]))
    None = Some Examples.jpgXYZ.
Proof.
  refine (proj1 (proj2 (uploaded_image_found_again []
                          [mkChatMessage "1700000000001" Bot "Which colour?"
                             None None None None None None]
                          "1700000000000" "make it red"
                          [Examples.pngABC; Examples.jpgXYZ] _ _ _ _)));
    [ discriminate | discriminate | repeat constructor | reflexivity ].
Defined.

End ChatProperties.

(** ** The studio generator and the consistency memory *)

Section StudioProperties.

Import Js GenAI Service Spec SpecMore Studio StringFacts.

Local Arguments buildSmartPrompt : simpl never.
Local Arguments flashImageRequest : simpl never.
Local Arguments getElementExtractionPrompt : simpl never.

Variable ai : Backend.
Variable toStringOf : JsError -> string.
Variable stringifyThrown : JsError -> JsError.

Lemma classifyAndThrow_log {A} (failure error : JsError) (log : list Call) :
  snd (@classifyAndThrow toStringOf stringifyThrown A failure error log) = log.
Proof using Type.
  unfold classifyAndThrow, throw. cbv zeta.
  destruct (stringify error); try reflexivity;
    match goal with |- context [if ?b then _ else _] => destruct b end; reflexivity.
Qed.

Lemma classifyAndThrow_own {A} (m : string) (failure : JsError) (log : list Call) :
  includes m "429" = false -> includes m "RESOURCE_EXHAUSTED" = false ->
  m <> EmptyString ->
  @classifyAndThrow toStringOf stringifyThrown A failure (Error m) log = (Thrown failure, log).
Proof using Type.
  intros H1 H2 Hm. unfold classifyAndThrow, Error, throw. simpl.
  destruct m as [|c s]; [ contradiction | ]. simpl orElse.
  rewrite H1, H2. reflexivity.
Qed.

Lemma generateWithControl_log (this : Consistency.CompleteConsistencyAI)
    (userPrompt : string) (settings : ConsistencySettings) (aspectRatio : option string)
    (log : list Call) :
  let ratio := match aspectRatio with Some r => r | None => "1:1" end in
  snd (generateWithControl ai toStringOf stringifyThrown this userPrompt settings
         aspectRatio log) =
  log ++ [CallGenerateContent
            (flashImageRequest
               (referenceParts settings this ++
                [TextPart (buildSmartPrompt userPrompt settings ratio)]))].
Proof using Type.
  intros ratio. unfold generateWithControl, tryCatch, bind, awaitGenerateContent, ret, throw.
  cbv zeta. fold ratio.
  destruct (generateContent ai log _) as [resp|e].
  - destruct (firstInlineData (candidateParts resp)); [ | reflexivity ].
    apply classifyAndThrow_log.
  - apply classifyAndThrow_log.
Qed.

Lemma referencePart_images (m : Mode) (memory : option string) :
  Forall (fun i => mimeType i = "image/png" /\ data i <> EmptyString /\ memory = Some (data i))
         (omap inlineDataOf (referencePart m memory)).
Proof using Type.
  destruct m, memory as [[|c s]|]; simpl; repeat constructor. discriminate.
Qed.

Lemma referencePart_length (m : Mode) (memory : option string) :
  List.length (omap inlineDataOf (referencePart m memory)) <= 1.
Proof using Type. destruct m, memory as [[|c s]|]; simpl; lia. Qed.

(** X15. The references the studio sends with a generation.  The request is
    the reference images followed by the prompt.  There are at most
    four images, each tagged as PNG, each the non-empty content of a
    memory slot.  After [clearAllMemories] the request is the prompt
    alone whatever the settings say, and so it is when every setting
    is [change]; a reference set to a non-empty string is sent once
    its attribute is set to [consistent]. *)
Theorem studio_references (this : Consistency.CompleteConsistencyAI)
    (userPrompt : string) (settings : ConsistencySettings) (aspectRatio : option string)
    (log : list Call) :
  let ratio := match aspectRatio with Some r => r | None => "1:1" end in
  let prompt := buildSmartPrompt userPrompt settings ratio in
  let sent := fun memory =>
    snd (generateWithControl ai toStringOf stringifyThrown memory userPrompt settings
           aspectRatio log) in
  let references := omap inlineDataOf (referenceParts settings this) in
  sent this =
    log ++ [CallGenerateContent
              (flashImageRequest (referenceParts settings this ++ [TextPart prompt]))] /\
  List.length references <= 4 /\
  Forall (fun i => mimeType i = "image/png" /\ data i <> EmptyString /\
                   exists e, Consistency.get e this = Some (data i)) references /\
  sent (Consistency.clearAllMemories this) =
    log ++ [CallGenerateContent (flashImageRequest [TextPart prompt])] /\
  ((forall e, modeOf e settings = change) -> referenceParts settings this = []) /\
  (forall e b, b <> EmptyString -> modeOf e settings = consistent ->
     In (mkImage b "image/png")
        (omap inlineDataOf (referenceParts settings (Consistency.setReference e b this)))).
Proof using Type.
  intros ratio prompt sent references.
  split; [ apply generateWithControl_log | ].
  split.
  { subst references. unfold referenceParts. rewrite !omap_app, !length_app.
    pose proof (referencePart_length (face settings) (Consistency.faceMemory this)).
    pose proof (referencePart_length (dress settings) (Consistency.dressMemory this)).
    pose proof (referencePart_length (background settings) (Consistency.backgroundMemory this)).
    pose proof (referencePart_length (environment settings) (Consistency.environmentMemory this)).
    lia. }
  split.
  { subst references. unfold referenceParts. rewrite !omap_app.
    apply Forall_app; split;
      [ | apply Forall_app; split; [ | apply Forall_app; split ] ];
      (eapply Forall_impl; [ apply referencePart_images | ]);
      intros i (Hm & Hd & Hg); (split; [ exact Hm | split; [ exact Hd | ] ]).
    - exists Consistency.face. exact Hg.
    - exists Consistency.dress. exact Hg.
    - exists Consistency.background. exact Hg.
    - exists Consistency.environment. exact Hg. }
  split.
  { subst sent. cbv beta. rewrite generateWithControl_log. fold ratio. fold prompt.
    unfold referenceParts, Consistency.clearAllMemories. simpl.
    destruct (face settings), (dress settings), (background settings), (environment settings);
      reflexivity. }
  split.
  { intros Hall. unfold referenceParts.
    pose proof (Hall Consistency.face) as Hf. pose proof (Hall Consistency.dress) as Hd.
    pose proof (Hall Consistency.background) as Hb.
    pose proof (Hall Consistency.environment) as He.
    simpl in Hf, Hd, Hb, He. rewrite Hf, Hd, Hb, He. reflexivity. }
  intros e b Hb Hmode. destruct b as [|c s]; [ contradiction | ].
  unfold referenceParts. rewrite !omap_app.
  destruct e; simpl in Hmode; simpl; rewrite Hmode; simpl;
    rewrite ?in_app_iff; simpl; auto 10.
Qed.

End StudioProperties.

Lemma studio_references_witness :
  In (GenAI.mkImage "QUJD" "image/png")
     (omap Service.inlineDataOf
        (Studio.referenceParts ExamplesMore.allConsistent
           (Consistency.setReference Consistency.face "QUJD" Consistency.new))).
Proof.
  apply (proj2 (proj2 (proj2 (proj2 (proj2
           (studio_references Examples.textOnlyBackend (fun _ => EmptyString) (fun e => e)
              Consistency.new "a portrait" ExamplesMore.allConsistent None []))))));
    [ discriminate | reflexivity ].
Defined.

Section StudioOutcomes.

Import Js GenAI Service Spec SpecMore Studio StringFacts.

Local Arguments buildSmartPrompt : simpl never.
Local Arguments flashImageRequest : simpl never.
Local Arguments getElementExtractionPrompt : simpl never.

Variable ai : Backend.
Variable toStringOf : JsError -> string.
Variable stringifyThrown : JsError -> JsError.


End StudioOutcomes.

(** ** Speech synthesis *)

Section SpeechProperties.

Import Js GenAI Speech.

(** X17. [generateSpeech] asks for the given text, or for a fixed sentence
    when the text is empty.  It returns only non-empty audio, taken
    from the first part of the response; every failure, a backend
    error as much as a response whose first part holds no audio, is
    thrown as the one fixed error. *)
Theorem generateSpeech_outcomes (tts : SpeechParameters -> Outcome GenerateContentResponse)
    (text : string) :
  speech_contents (speechRequest text) =
    [mkContent None
       [TextPart (match text with EmptyString => "I cannot speak this." | _ => text end)]] /\
  match generateSpeech tts text with
  | Returned audio =>
      audio <> EmptyString /\
      exists resp, tts (speechRequest text) = Returned resp /\ firstPartData resp = Some audio
  | Thrown e => e = Error "Failed to generate speech."
  end /\
  (forall resp t rest,
     tts (speechRequest text) = Returned resp ->
     candidateParts resp = TextPart t :: rest ->
     generateSpeech tts text = Thrown (Error "Failed to generate speech.")).
Proof.
  split; [ destruct text; reflexivity | ].
  unfold generateSpeech, tryOutcome. split.
  - destruct (tts (speechRequest text)) as [resp|e]; [ | reflexivity ].
    destruct (firstPartData resp) as [[|c s]|] eqn:E; try reflexivity.
    split; [ discriminate | eauto ].
  - intros resp t rest Hcall Hparts. rewrite Hcall.
    unfold firstPartData. rewrite Hparts. reflexivity.
Qed.

Lemma generateSpeech_outcomes_witness :
  generateSpeech (fun _ => Returned ExamplesMore.textThenAudio) "hello" =
    Thrown (Error "Failed to generate speech.").
Proof.
  apply (proj2 (proj2 (generateSpeech_outcomes
                         (fun _ => Returned ExamplesMore.textThenAudio) "hello"))
           ExamplesMore.textThenAudio "hello"
           [InlineDataPart (mkImage "UklGRg==" "audio/L16")]); reflexivity.
Defined.

End SpeechProperties.
